(** * Photo metadata extractor: a shallow embedding of [metadata_extractor.py]

    The file models the class [PhotoMetadataExtractor] and proves properties
    of its methods.  The Python values that flow through the program are
    embedded as an inductive type; the capabilities the program consumes
    (image decoder, EXIF reader, container reader, file system) are fields of
    a record [World]; exceptions are values of an error monad, so that every
    [try]/[except] of the source is a [match] on a [result].

    Conventions of the model:
    - a Python [str] is a Rocq [string] holding its UTF-8 encoding, a lone
      surrogate (which a file name with bytes that are no UTF-8 brings in)
      being written with the three bytes the same scheme gives it; the
      operations the program applies to paths ([lower] followed by
      [endswith], [splitext], [basename]) look at ASCII characters only and
      are therefore exact on every path;
    - the tables of characters behind [strip], [float] and [repr] are those
      of Unicode 14.0, the version CPython 3.11 has;
    - a Python [int] is an integer of [Z]; its [str] is its decimal text,
      which CPython 3.11 and later refuse to make beyond 4300 digits unless
      the limit is lifted ([sys.set_int_max_str_digits]): the model is a run
      with the limit lifted, and agrees with a run under the default limit
      on every value whose integers have at most 4300 digits;
    - a Python [float] is an IEEE binary64 number of [SpecFloat];
    - a Python [dict] is an association list in insertion order;
    - [print] always succeeds. *)

From Stdlib Require Import ZArith List String Ascii Bool Lia.
From Stdlib Require Import Strings.Byte SpecFloat DecimalString.
Import ListNotations.

Local Open Scope string_scope.
Local Open Scope Z_scope.

(** ** Exceptions and the error monad *)

Record exn := Exn { exn_class : string; exn_msg : string }.

Inductive result (A : Type) : Type :=
| Ok (a : A)
| Raise (e : exn).

Arguments Ok {A} a.
Arguments Raise {A} e.

Definition bind {A B : Type} (r : result A) (k : A -> result B) : result B :=
  match r with
  | Ok a => k a
  | Raise e => Raise e
  end.

Notation "x <- c ;; k" := (bind c (fun x => k))
  (at level 61, c at next level, right associativity).

Definition TypeError (msg : string) : exn := Exn "TypeError" msg.
Definition ValueError (msg : string) : exn := Exn "ValueError" msg.
Definition OverflowError (msg : string) : exn := Exn "OverflowError" msg.
Definition AttributeError (msg : string) : exn := Exn "AttributeError" msg.

(** ** Characters and text *)

Definition chr (n : nat) : string := String (ascii_of_nat n) "".
Definition ord (c : ascii) : Z := Z.of_nat (nat_of_ascii c).

Definition squote : string := "'".
Definition dquote : string := chr 34.
Definition backslash : string := chr 92.
Definition newline : string := chr 10.
Definition escape : string := chr 27.

Fixpoint join (sep : string) (l : list string) : string :=
  match l with
  | [] => ""
  | [x] => x
  | x :: rest => x ++ sep ++ join sep rest
  end.

Fixpoint repeat_str (s : string) (n : nat) : string :=
  match n with
  | O => ""
  | S n' => s ++ repeat_str s n'
  end.

Fixpoint rev_str (s : string) : string :=
  match s with
  | "" => ""
  | String c rest => rev_str rest ++ String c ""
  end.

(** [s.startswith(p)] and [s.endswith(p)] *)
Fixpoint startswith (s p : string) {struct p} : bool :=
  match p, s with
  | "", _ => true
  | String a p', String b s' => Ascii.eqb a b && startswith s' p'
  | String _ _, "" => false
  end.

Definition endswith (s p : string) : bool :=
  startswith (rev_str s) (rev_str p).

(** [p in s] for two strings *)
Fixpoint str_contains (s p : string) : bool :=
  startswith s p ||
  match s with
  | "" => false
  | String _ s' => str_contains s' p
  end.

Fixpoint char_in (c : ascii) (s : string) : bool :=
  match s with
  | "" => false
  | String a s' => Ascii.eqb a c || char_in c s'
  end.

(** [str.lower]: the ASCII capitals are mapped to small letters and every
    other byte is kept.  The program lowers a path only to compare its end
    with ".heic" and ".heif", and no character outside ASCII lowers to text
    that ends in a character of these suffixes, so the comparison is exact. *)
Definition lower_ascii (c : ascii) : ascii :=
  let n := nat_of_ascii c in
  if (Nat.leb 65 n && Nat.leb n 90)%bool then ascii_of_nat (n + 32) else c.

Fixpoint lower (s : string) : string :=
  match s with
  | "" => ""
  | String c rest => String (lower_ascii c) (lower rest)
  end.

(** The characters of a UTF-8 text: a new character starts at every byte
    that is not a continuation byte (10xxxxxx). *)
Definition is_continuation (c : ascii) : bool :=
  let n := nat_of_ascii c in (Nat.leb 128 n && Nat.leb n 191)%bool.

Fixpoint utf8_chars_from (cur : string) (s : string) : list string :=
  match s with
  | "" => [cur]
  | String c rest =>
      if is_continuation c then utf8_chars_from (cur ++ String c "") rest
      else cur :: utf8_chars_from (String c "") rest
  end.

Definition utf8_chars (s : string) : list string :=
  match s with
  | "" => []
  | String c rest => utf8_chars_from (String c "") rest
  end.

(** ** Numbers *)

(** [str(n)] for an [int], without the limit on the number of digits *)
Definition int_str (z : Z) : string := NilZero.string_of_int (Z.to_int z).

Definition hex_digit (n : Z) : string :=
  match n with
  | 10 => "a" | 11 => "b" | 12 => "c" | 13 => "d" | 14 => "e" | 15 => "f"
  | _ => int_str n
  end.

(** the escape <<\xNN>> of a byte value *)
Definition hex_escape (n : Z) : string :=
  backslash ++ "x" ++ hex_digit (n / 16) ++ hex_digit (n mod 16).

(** the last [width] hexadecimal digits of [n] *)
Fixpoint hex_digits (width : nat) (n : Z) : string :=
  match width with
  | O => ""
  | S width' => hex_digits width' (n / 16) ++ hex_digit (n mod 16)
  end.

(** *** Code points

    The code point of a character given by its bytes; -1 for bytes that are
    no character. *)
Definition code_point (ch : string) : Z :=
  match ch with
  | String a "" => if ord a <? 128 then ord a else -1
  | String a (String b "") => (ord a mod 32) * 64 + ord b mod 64
  | String a (String b (String c "")) =>
      ((ord a mod 16) * 64 + ord b mod 64) * 64 + ord c mod 64
  | String a (String b (String c (String d ""))) =>
      (((ord a mod 8) * 64 + ord b mod 64) * 64 + ord c mod 64) * 64 + ord d mod 64
  | _ => -1
  end.

Definition in_ranges (table : list (Z * Z)) (n : Z) : bool :=
  existsb (fun r => (fst r <=? n) && (n <=? snd r)) table.

(** The characters [str.isspace] holds for, as ranges of code points. *)
Definition unicode_space : list (Z * Z) :=
  [
    (9, 13); (28, 32); (133, 133); (160, 160); (5760, 5760);
    (8192, 8202); (8232, 8233); (8239, 8239); (8287, 8287); (12288, 12288) ].

(** The decimal digits of Unicode 14.0, as ranges of code points: in every
    range the digits 0 to 9 follow each other, once or several times. *)
Definition unicode_decimal : list (Z * Z) :=
  [
    (48, 57); (1632, 1641); (1776, 1785); (1984, 1993); (2406, 2415);
    (2534, 2543); (2662, 2671); (2790, 2799); (2918, 2927); (3046, 3055);
    (3174, 3183); (3302, 3311); (3430, 3439); (3558, 3567); (3664, 3673);
    (3792, 3801); (3872, 3881); (4160, 4169); (4240, 4249); (6112, 6121);
    (6160, 6169); (6470, 6479); (6608, 6617); (6784, 6793); (6800, 6809);
    (6992, 7001); (7088, 7097); (7232, 7241); (7248, 7257); (42528, 42537);
    (43216, 43225); (43264, 43273); (43472, 43481); (43504, 43513); (43600, 43609);
    (44016, 44025); (65296, 65305); (66720, 66729); (68912, 68921); (69734, 69743);
    (69872, 69881); (69942, 69951); (70096, 70105); (70384, 70393); (70736, 70745);
    (70864, 70873); (71248, 71257); (71360, 71369); (71472, 71481); (71904, 71913);
    (72016, 72025); (72784, 72793); (73040, 73049); (73120, 73129); (92768, 92777);
    (92864, 92873); (93008, 93017); (120782, 120831); (123200, 123209); (123632, 123641);
    (125264, 125273); (130032, 130041) ].

(** The code points from 128 on that [str.isprintable] rejects in Unicode
    14.0 (the version of CPython 3.11): controls, formats, surrogates, private
    use, separators and code points without a character. *)
Definition unicode_not_printable : list (Z * Z) :=
  [
    (128, 160); (173, 173); (888, 889); (896, 899); (907, 907);
    (909, 909); (930, 930); (1328, 1328); (1367, 1368); (1419, 1420);
    (1424, 1424); (1480, 1487); (1515, 1518); (1525, 1541); (1564, 1564);
    (1757, 1757); (1806, 1807); (1867, 1868); (1970, 1983); (2043, 2044);
    (2094, 2095); (2111, 2111); (2140, 2141); (2143, 2143); (2155, 2159);
    (2191, 2199); (2274, 2274); (2436, 2436); (2445, 2446); (2449, 2450);
    (2473, 2473); (2481, 2481); (2483, 2485); (2490, 2491); (2501, 2502);
    (2505, 2506); (2511, 2518); (2520, 2523); (2526, 2526); (2532, 2533);
    (2559, 2560); (2564, 2564); (2571, 2574); (2577, 2578); (2601, 2601);
    (2609, 2609); (2612, 2612); (2615, 2615); (2618, 2619); (2621, 2621);
    (2627, 2630); (2633, 2634); (2638, 2640); (2642, 2648); (2653, 2653);
    (2655, 2661); (2679, 2688); (2692, 2692); (2702, 2702); (2706, 2706);
    (2729, 2729); (2737, 2737); (2740, 2740); (2746, 2747); (2758, 2758);
    (2762, 2762); (2766, 2767); (2769, 2783); (2788, 2789); (2802, 2808);
    (2816, 2816); (2820, 2820); (2829, 2830); (2833, 2834); (2857, 2857);
    (2865, 2865); (2868, 2868); (2874, 2875); (2885, 2886); (2889, 2890);
    (2894, 2900); (2904, 2907); (2910, 2910); (2916, 2917); (2936, 2945);
    (2948, 2948); (2955, 2957); (2961, 2961); (2966, 2968); (2971, 2971);
    (2973, 2973); (2976, 2978); (2981, 2983); (2987, 2989); (3002, 3005);
    (3011, 3013); (3017, 3017); (3022, 3023); (3025, 3030); (3032, 3045);
    (3067, 3071); (3085, 3085); (3089, 3089); (3113, 3113); (3130, 3131);
    (3141, 3141); (3145, 3145); (3150, 3156); (3159, 3159); (3163, 3164);
    (3166, 3167); (3172, 3173); (3184, 3190); (3213, 3213); (3217, 3217);
    (3241, 3241); (3252, 3252); (3258, 3259); (3269, 3269); (3273, 3273);
    (3278, 3284); (3287, 3292); (3295, 3295); (3300, 3301); (3312, 3312);
    (3315, 3327); (3341, 3341); (3345, 3345); (3397, 3397); (3401, 3401);
    (3408, 3411); (3428, 3429); (3456, 3456); (3460, 3460); (3479, 3481);
    (3506, 3506); (3516, 3516); (3518, 3519); (3527, 3529); (3531, 3534);
    (3541, 3541); (3543, 3543); (3552, 3557); (3568, 3569); (3573, 3584);
    (3643, 3646); (3676, 3712); (3715, 3715); (3717, 3717); (3723, 3723);
    (3748, 3748); (3750, 3750); (3774, 3775); (3781, 3781); (3783, 3783);
    (3790, 3791); (3802, 3803); (3808, 3839); (3912, 3912); (3949, 3952);
    (3992, 3992); (4029, 4029); (4045, 4045); (4059, 4095); (4294, 4294);
    (4296, 4300); (4302, 4303); (4681, 4681); (4686, 4687); (4695, 4695);
    (4697, 4697); (4702, 4703); (4745, 4745); (4750, 4751); (4785, 4785);
    (4790, 4791); (4799, 4799); (4801, 4801); (4806, 4807); (4823, 4823);
    (4881, 4881); (4886, 4887); (4955, 4956); (4989, 4991); (5018, 5023);
    (5110, 5111); (5118, 5119); (5760, 5760); (5789, 5791); (5881, 5887);
    (5910, 5918); (5943, 5951); (5972, 5983); (5997, 5997); (6001, 6001);
    (6004, 6015); (6110, 6111); (6122, 6127); (6138, 6143); (6158, 6158);
    (6170, 6175); (6265, 6271); (6315, 6319); (6390, 6399); (6431, 6431);
    (6444, 6447); (6460, 6463); (6465, 6467); (6510, 6511); (6517, 6527);
    (6572, 6575); (6602, 6607); (6619, 6621); (6684, 6685); (6751, 6751);
    (6781, 6782); (6794, 6799); (6810, 6815); (6830, 6831); (6863, 6911);
    (6989, 6991); (7039, 7039); (7156, 7163); (7224, 7226); (7242, 7244);
    (7305, 7311); (7355, 7356); (7368, 7375); (7419, 7423); (7958, 7959);
    (7966, 7967); (8006, 8007); (8014, 8015); (8024, 8024); (8026, 8026);
    (8028, 8028); (8030, 8030); (8062, 8063); (8117, 8117); (8133, 8133);
    (8148, 8149); (8156, 8156); (8176, 8177); (8181, 8181); (8191, 8207);
    (8232, 8239); (8287, 8303); (8306, 8307); (8335, 8335); (8349, 8351);
    (8385, 8399); (8433, 8447); (8588, 8591); (9255, 9279); (9291, 9311);
    (11124, 11125); (11158, 11158); (11508, 11512); (11558, 11558); (11560, 11564);
    (11566, 11567); (11624, 11630); (11633, 11646); (11671, 11679); (11687, 11687);
    (11695, 11695); (11703, 11703); (11711, 11711); (11719, 11719); (11727, 11727);
    (11735, 11735); (11743, 11743); (11870, 11903); (11930, 11930); (12020, 12031);
    (12246, 12271); (12284, 12288); (12352, 12352); (12439, 12440); (12544, 12548);
    (12592, 12592); (12687, 12687); (12772, 12783); (12831, 12831); (42125, 42127);
    (42183, 42191); (42540, 42559); (42744, 42751); (42955, 42959); (42962, 42962);
    (42964, 42964); (42970, 42993); (43053, 43055); (43066, 43071); (43128, 43135);
    (43206, 43213); (43226, 43231); (43348, 43358); (43389, 43391); (43470, 43470);
    (43482, 43485); (43519, 43519); (43575, 43583); (43598, 43599); (43610, 43611);
    (43715, 43738); (43767, 43776); (43783, 43784); (43791, 43792); (43799, 43807);
    (43815, 43815); (43823, 43823); (43884, 43887); (44014, 44015); (44026, 44031);
    (55204, 55215); (55239, 55242); (55292, 63743); (64110, 64111); (64218, 64255);
    (64263, 64274); (64280, 64284); (64311, 64311); (64317, 64317); (64319, 64319);
    (64322, 64322); (64325, 64325); (64451, 64466); (64912, 64913); (64968, 64974);
    (64976, 65007); (65050, 65055); (65107, 65107); (65127, 65127); (65132, 65135);
    (65141, 65141); (65277, 65280); (65471, 65473); (65480, 65481); (65488, 65489);
    (65496, 65497); (65501, 65503); (65511, 65511); (65519, 65531); (65534, 65535);
    (65548, 65548); (65575, 65575); (65595, 65595); (65598, 65598); (65614, 65615);
    (65630, 65663); (65787, 65791); (65795, 65798); (65844, 65846); (65935, 65935);
    (65949, 65951); (65953, 65999); (66046, 66175); (66205, 66207); (66257, 66271);
    (66300, 66303); (66340, 66348); (66379, 66383); (66427, 66431); (66462, 66462);
    (66500, 66503); (66518, 66559); (66718, 66719); (66730, 66735); (66772, 66775);
    (66812, 66815); (66856, 66863); (66916, 66926); (66939, 66939); (66955, 66955);
    (66963, 66963); (66966, 66966); (66978, 66978); (66994, 66994); (67002, 67002);
    (67005, 67071); (67383, 67391); (67414, 67423); (67432, 67455); (67462, 67462);
    (67505, 67505); (67515, 67583); (67590, 67591); (67593, 67593); (67638, 67638);
    (67641, 67643); (67645, 67646); (67670, 67670); (67743, 67750); (67760, 67807);
    (67827, 67827); (67830, 67834); (67868, 67870); (67898, 67902); (67904, 67967);
    (68024, 68027); (68048, 68049); (68100, 68100); (68103, 68107); (68116, 68116);
    (68120, 68120); (68150, 68151); (68155, 68158); (68169, 68175); (68185, 68191);
    (68256, 68287); (68327, 68330); (68343, 68351); (68406, 68408); (68438, 68439);
    (68467, 68471); (68498, 68504); (68509, 68520); (68528, 68607); (68681, 68735);
    (68787, 68799); (68851, 68857); (68904, 68911); (68922, 69215); (69247, 69247);
    (69290, 69290); (69294, 69295); (69298, 69375); (69416, 69423); (69466, 69487);
    (69514, 69551); (69580, 69599); (69623, 69631); (69710, 69713); (69750, 69758);
    (69821, 69821); (69827, 69839); (69865, 69871); (69882, 69887); (69941, 69941);
    (69960, 69967); (70007, 70015); (70112, 70112); (70133, 70143); (70162, 70162);
    (70207, 70271); (70279, 70279); (70281, 70281); (70286, 70286); (70302, 70302);
    (70314, 70319); (70379, 70383); (70394, 70399); (70404, 70404); (70413, 70414);
    (70417, 70418); (70441, 70441); (70449, 70449); (70452, 70452); (70458, 70458);
    (70469, 70470); (70473, 70474); (70478, 70479); (70481, 70486); (70488, 70492);
    (70500, 70501); (70509, 70511); (70517, 70655); (70748, 70748); (70754, 70783);
    (70856, 70863); (70874, 71039); (71094, 71095); (71134, 71167); (71237, 71247);
    (71258, 71263); (71277, 71295); (71354, 71359); (71370, 71423); (71451, 71452);
    (71468, 71471); (71495, 71679); (71740, 71839); (71923, 71934); (71943, 71944);
    (71946, 71947); (71956, 71956); (71959, 71959); (71990, 71990); (71993, 71994);
    (72007, 72015); (72026, 72095); (72104, 72105); (72152, 72153); (72165, 72191);
    (72264, 72271); (72355, 72367); (72441, 72703); (72713, 72713); (72759, 72759);
    (72774, 72783); (72813, 72815); (72848, 72849); (72872, 72872); (72887, 72959);
    (72967, 72967); (72970, 72970); (73015, 73017); (73019, 73019); (73022, 73022);
    (73032, 73039); (73050, 73055); (73062, 73062); (73065, 73065); (73103, 73103);
    (73106, 73106); (73113, 73119); (73130, 73439); (73465, 73647); (73649, 73663);
    (73714, 73726); (74650, 74751); (74863, 74863); (74869, 74879); (75076, 77711);
    (77811, 77823); (78895, 82943); (83527, 92159); (92729, 92735); (92767, 92767);
    (92778, 92781); (92863, 92863); (92874, 92879); (92910, 92911); (92918, 92927);
    (92998, 93007); (93018, 93018); (93026, 93026); (93048, 93052); (93072, 93759);
    (93851, 93951); (94027, 94030); (94088, 94094); (94112, 94175); (94181, 94191);
    (94194, 94207); (100344, 100351); (101590, 101631); (101641, 110575); (110580, 110580);
    (110588, 110588); (110591, 110591); (110883, 110927); (110931, 110947); (110952, 110959);
    (111356, 113663); (113771, 113775); (113789, 113791); (113801, 113807); (113818, 113819);
    (113824, 118527); (118574, 118575); (118599, 118607); (118724, 118783); (119030, 119039);
    (119079, 119080); (119155, 119162); (119275, 119295); (119366, 119519); (119540, 119551);
    (119639, 119647); (119673, 119807); (119893, 119893); (119965, 119965); (119968, 119969);
    (119971, 119972); (119975, 119976); (119981, 119981); (119994, 119994); (119996, 119996);
    (120004, 120004); (120070, 120070); (120075, 120076); (120085, 120085); (120093, 120093);
    (120122, 120122); (120127, 120127); (120133, 120133); (120135, 120137); (120145, 120145);
    (120486, 120487); (120780, 120781); (121484, 121498); (121504, 121504); (121520, 122623);
    (122655, 122879); (122887, 122887); (122905, 122906); (122914, 122914); (122917, 122917);
    (122923, 123135); (123181, 123183); (123198, 123199); (123210, 123213); (123216, 123535);
    (123567, 123583); (123642, 123646); (123648, 124895); (124903, 124903); (124908, 124908);
    (124911, 124911); (124927, 124927); (125125, 125126); (125143, 125183); (125260, 125263);
    (125274, 125277); (125280, 126064); (126133, 126208); (126270, 126463); (126468, 126468);
    (126496, 126496); (126499, 126499); (126501, 126502); (126504, 126504); (126515, 126515);
    (126520, 126520); (126522, 126522); (126524, 126529); (126531, 126534); (126536, 126536);
    (126538, 126538); (126540, 126540); (126544, 126544); (126547, 126547); (126549, 126550);
    (126552, 126552); (126554, 126554); (126556, 126556); (126558, 126558); (126560, 126560);
    (126563, 126563); (126565, 126566); (126571, 126571); (126579, 126579); (126584, 126584);
    (126589, 126589); (126591, 126591); (126602, 126602); (126620, 126624); (126628, 126628);
    (126634, 126634); (126652, 126703); (126706, 126975); (127020, 127023); (127124, 127135);
    (127151, 127152); (127168, 127168); (127184, 127184); (127222, 127231); (127406, 127461);
    (127491, 127503); (127548, 127551); (127561, 127567); (127570, 127583); (127590, 127743);
    (128728, 128732); (128749, 128751); (128765, 128767); (128884, 128895); (128985, 128991);
    (129004, 129007); (129009, 129023); (129036, 129039); (129096, 129103); (129114, 129119);
    (129160, 129167); (129198, 129199); (129202, 129279); (129620, 129631); (129646, 129647);
    (129653, 129655); (129661, 129663); (129671, 129679); (129709, 129711); (129723, 129727);
    (129734, 129743); (129754, 129759); (129768, 129775); (129783, 129791); (129939, 129939);
    (129995, 130031); (130042, 131071); (173792, 173823); (177977, 177983); (178206, 178207);
    (183970, 183983); (191457, 194559); (195102, 196607); (201547, 917759); (918000, 1114111) ].

(** [ch.isspace()] *)
Definition is_space (ch : string) : bool := in_ranges unicode_space (code_point ch).

(** the digit a decimal digit of some script stands for *)
Definition decimal_value (n : Z) : option Z :=
  match find (fun r => (fst r <=? n) && (n <=? snd r)) unicode_decimal with
  | Some r => Some ((n - fst r) mod 10)
  | None => None
  end.

(** a surrogate on its own, which no UTF-8 file can hold *)
Definition is_surrogate (ch : string) : bool :=
  let n := code_point ch in (55296 <=? n) && (n <=? 57343).

(** how [repr] and the messages of the codecs write a code point that is not
    printed as it is *)
Definition code_escape (n : Z) : string :=
  if n <? 256 then backslash ++ "x" ++ hex_digits 2 n
  else if n <? 65536 then backslash ++ "u" ++ hex_digits 4 n
  else backslash ++ "U" ++ hex_digits 8 n.

Fixpoint drop_while {A : Type} (p : A -> bool) (l : list A) : list A :=
  match l with
  | x :: rest => if p x then drop_while p rest else l
  | [] => []
  end.

(** [s.strip()]: the white space at both ends is removed *)
Definition str_strip (s : string) : string :=
  String.concat "" (rev (drop_while is_space (rev (drop_while is_space (utf8_chars s))))).

Module Float.

Definition prec : Z := 53.
Definition emax : Z := 1024.

Definition add := SFadd prec emax.
Definition div := SFdiv prec emax.
Definition opp := SFopp.

(** The nearest binary64 number of an integer, ties to even; an integer
    beyond the range rounds to an infinity. *)
Definition of_Z (z : Z) : spec_float := binary_normalize prec emax z 0 false.

(** The nearest binary64 number of [n / d] for positive [n] and [d]. *)
Definition of_ratio (neg : bool) (n d : positive) : spec_float :=
  let '(mz, ez, lz) := SFdiv_core_binary prec emax (Zpos n) 0 (Zpos d) 0 in
  binary_round_aux prec emax neg mz ez lz.

(** The nearest binary64 number of [m * 10^e]. *)
Definition of_decimal (neg : bool) (m : Z) (e : Z) : spec_float :=
  match m with
  | Zpos p =>
      if 0 <=? e then binary_round prec emax neg (p * Z.to_pos (10 ^ e)) 0
      else of_ratio neg p (Z.to_pos (10 ^ (- e)))
  | _ => S754_zero neg
  end.

Definition is_finite (f : spec_float) : bool :=
  match f with
  | S754_zero _ | S754_finite _ _ _ => true
  | _ => false
  end.

Definition is_zero (f : spec_float) : bool :=
  match f with
  | S754_zero _ => true
  | _ => false
  end.

(** *** [repr] of a float

    CPython prints the shortest decimal that reads back as the same float
    (the nearest one when several are as short, ties to an even digit),
    in positional notation when the decimal point falls at positions
    -3..16 and in exponent notation otherwise. *)

(** [m * 2^e] and its rounding interval as fractions of a common
    denominator: value [r/s], interval [(r - mm)/s, (r + mp)/s]. *)
Definition scaled (m : positive) (e : Z) : Z * Z * Z * Z :=
  let narrow := (Zpos m =? 2 ^ (prec - 1)) && (emin prec emax <? e) in
  if 0 <=? e then
    if narrow then (Zpos m * 2 ^ e * 4, 4, 2 ^ e * 2, 2 ^ e)
    else (Zpos m * 2 ^ e * 2, 2, 2 ^ e, 2 ^ e)
  else
    if narrow then (Zpos m * 4, 2 ^ (- e) * 4, 2, 1)
    else (Zpos m * 2, 2 ^ (- e) * 2, 1, 1).

(** the least [k], searched upwards from [k], with [r/s < 10^k] *)
Fixpoint decimal_point (fuel : nat) (r s k : Z) : Z :=
  match fuel with
  | O => k
  | S fuel' =>
      if (if 0 <=? k then r <? s * 10 ^ k else r * 10 ^ (- k) <? s) then k
      else decimal_point fuel' r s (k + 1)
  end.

(** an integer below the decimal point of [r/s], at most four short of
    it: [r/s] lies between [2^(lg-1)] and [2^(lg+1)] for [lg] the
    difference of the bit lengths *)
Definition decimal_point_below (r s : Z) : Z :=
  (Z.log2 r - Z.log2 s - 1) * 30103 / 100000 - 1.

(** the best decimal of [n] digits inside the interval, if there is one;
    the answer [c] stands for [c * 10^(k - n)] *)
Definition candidate (even : bool) (r s mp mm k n : Z) : option Z :=
  let t := n - k in
  let '(num, den, hi, lo) :=
    if 0 <=? t then (r * 10 ^ t, s, mp * 10 ^ t, mm * 10 ^ t)
    else (r, s * 10 ^ (- t), mp, mm) in
  let d := num / den in
  let rem := num mod den in
  let low_ok := if even then rem <=? lo else rem <? lo in
  let high_ok := if even then den - rem <=? hi else den - rem <? hi in
  match low_ok, high_ok with
  | true, true =>
      if 2 * rem <? den then Some d
      else if den <? 2 * rem then Some (d + 1)
      else Some (if Z.even d then d else d + 1)
  | true, false => Some d
  | false, true => Some (d + 1)
  | false, false => None
  end.

Fixpoint shortest (fuel : nat) (even : bool) (r s mp mm k n : Z) : Z * Z :=
  match fuel with
  | O => (r * 10 ^ (n - k) / s, n)
  | S fuel' =>
      match candidate even r s mp mm k n with
      | Some c => (c, n)
      | None => shortest fuel' even r s mp mm k (n + 1)
      end
  end.

Fixpoint strip_zeros (fuel : nat) (c q : Z) : Z * Z :=
  match fuel with
  | O => (c, q)
  | S fuel' =>
      if (c mod 10 =? 0) && negb (c =? 0) then strip_zeros fuel' (c / 10) (q + 1)
      else (c, q)
  end.

(** digits and position of the decimal point: the value is
    [0.digits * 10^decpt] *)
Definition digits_of (m : positive) (e : Z) : string * Z :=
  let '(r, s, mp, mm) := scaled m e in
  let k := decimal_point 16 r s (decimal_point_below r s) in
  let '(c, n) := shortest 800 (Z.even (Zpos m)) r s mp mm k 1 in
  let '(c', q) := strip_zeros 800 c (k - n) in
  let ds := NilZero.string_of_uint (N.to_uint (Z.to_N c')) in
  (ds, q + Z.of_nat (String.length ds)).

Definition exponent_str (x : Z) : string :=
  let a := NilZero.string_of_uint (N.to_uint (Z.to_N (Z.abs x))) in
  (if x <? 0 then "-" else "+") ++
  (if (String.length a <? 2)%nat then "0" ++ a else a).

Definition format_finite (ds : string) (decpt : Z) : string :=
  let n := Z.of_nat (String.length ds) in
  if (decpt <=? -4) || (16 <? decpt) then
    match ds with
    | String d "" => String d "" ++ "e" ++ exponent_str (decpt - 1)
    | String d rest => String d "" ++ "." ++ rest ++ "e" ++ exponent_str (decpt - 1)
    | "" => ""
    end
  else if decpt <=? 0 then
    "0." ++ repeat_str "0" (Z.to_nat (- decpt)) ++ ds
  else if decpt <? n then
    substring 0 (Z.to_nat decpt) ds ++ "." ++
    substring (Z.to_nat decpt) (Z.to_nat (n - decpt)) ds
  else
    ds ++ repeat_str "0" (Z.to_nat (decpt - n)) ++ ".0".

Definition repr (f : spec_float) : string :=
  match f with
  | S754_nan => "nan"
  | S754_infinity s => if s then "-inf" else "inf"
  | S754_zero s => if s then "-0.0" else "0.0"
  | S754_finite s m e =>
      let '(ds, decpt) := digits_of m e in
      (if s then "-" else "") ++ format_finite ds decpt
  end.

(** *** [float] of a text *)

Definition is_digit (c : ascii) : bool :=
  let n := nat_of_ascii c in (Nat.leb 48 n && Nat.leb n 57)%bool.

Fixpoint take_digits (s : string) : string * string :=
  match s with
  | String c rest =>
      if is_digit c then let '(ds, r) := take_digits rest in (String c ds, r)
      else ("", s)
  | "" => ("", "")
  end.

Fixpoint digits_value (acc : Z) (s : string) : Z :=
  match s with
  | "" => acc
  | String c rest => digits_value (acc * 10 + (ord c - 48)) rest
  end.

Definition take_sign (s : string) : bool * string :=
  match s with
  | String "-" rest => (true, rest)
  | String "+" rest => (false, rest)
  | _ => (false, s)
  end.

(** digits, optional fraction, optional exponent: the number is
    [mantissa * 10^exponent] *)
Definition parse_decimal (s : string) : option (Z * Z) :=
  let '(ip, r1) := take_digits s in
  let '(fp, r2) :=
    match r1 with
    | String "." r => take_digits r
    | _ => ("", r1)
    end in
  if ((String.length ip =? 0) && (String.length fp =? 0))%nat then None
  else
    let m := digits_value 0 (ip ++ fp) in
    let shift := Z.of_nat (String.length fp) in
    match r2 with
    | "" => Some (m, - shift)
    | String c r3 =>
        if Ascii.eqb c "e" || Ascii.eqb c "E" then
          let '(neg, r4) := take_sign r3 in
          let '(ed, r5) := take_digits r4 in
          match ed, r5 with
          | String _ _, "" =>
              let x := digits_value 0 ed in
              Some (m, (if neg then - x else x) - shift)
          | _, _ => None
          end
        else None
    end.

Definition parse_signed (s : string) : option spec_float :=
  let '(neg, body) := take_sign s in
  let low := lower body in
  if String.eqb low "inf" || String.eqb low "infinity" then Some (S754_infinity neg)
  else if String.eqb low "nan" then Some S754_nan
  else
    match parse_decimal body with
    | Some (m, e) => Some (of_decimal neg m e)
    | None => None
    end.

(** an underscore may stand between two digits and nowhere else *)
Fixpoint drop_underscores (prev : option ascii) (s : string) : option string :=
  match s with
  | "" =>
      match prev with
      | Some "_"%char => None
      | _ => Some ""
      end
  | String c rest =>
      if Ascii.eqb c "_" then
        match prev with
        | Some p => if is_digit p then drop_underscores (Some c) rest else None
        | None => None
        end
      else
        match prev with
        | Some "_"%char =>
            if is_digit c then option_map (String c) (drop_underscores (Some c) rest)
            else None
        | _ => option_map (String c) (drop_underscores (Some c) rest)
        end
  end.

Fixpoint lstrip (space : ascii -> bool) (s : string) : string :=
  match s with
  | String c rest => if space c then lstrip space rest else s
  | "" => ""
  end.

Definition strip (space : ascii -> bool) (s : string) : string :=
  rev_str (lstrip space (rev_str (lstrip space s))).

Definition of_string (space : ascii -> bool) (s : string) : option spec_float :=
  match drop_underscores None (strip space s) with
  | Some t => parse_signed t
  | None => None
  end.

Definition sixty : spec_float := of_Z 60.
Definition thirty_six_hundred : spec_float := of_Z 3600.

End Float.

(** ** Python values

    The values that reach the program: those of the built-in types it meets
    in EXIF data, and rational numbers, [PFraction n d] being
    [fractions.Fraction(n, d)].  The imaging library hands degrees, minutes
    and seconds over as rationals that compute through such a fraction. *)

(** The keys the program's dictionaries have: tag names and raw tag ids. *)
Inductive pykey : Type :=
| KStr (s : string)
| KInt (z : Z).

Coercion KStr : string >-> pykey.

#[warnings="-register-all"]
Inductive pyval : Type :=
| PNone
| PBool (b : bool)
| PInt (z : Z)
| PFloat (f : spec_float)
| PFraction (n : Z) (d : positive)
| PStr (s : string)
| PBytes (b : list byte)
| PTuple (items : list pyval)
| PDict (items : list (pykey * pyval)).

Definition pydict : Type := list (pykey * pyval).

Definition pykey_eqb (a b : pykey) : bool :=
  match a, b with
  | KStr s, KStr t => String.eqb s t
  | KInt x, KInt y => Z.eqb x y
  | _, _ => false
  end.

Definition type_name (v : pyval) : string :=
  match v with
  | PNone => "NoneType"
  | PBool _ => "bool"
  | PInt _ => "int"
  | PFloat _ => "float"
  | PFraction _ _ => "Fraction"
  | PStr _ => "str"
  | PBytes _ => "bytes"
  | PTuple _ => "tuple"
  | PDict _ => "dict"
  end.

(** *** Dictionaries *)

Fixpoint dict_get (k : pykey) (d : pydict) : option pyval :=
  match d with
  | [] => None
  | (k', v) :: rest => if pykey_eqb k k' then Some v else dict_get k rest
  end.

(** [k in d] *)
Definition dict_mem (k : pykey) (d : pydict) : bool :=
  match dict_get k d with
  | Some _ => true
  | None => false
  end.

(** [d.get(k, default)] *)
Definition dict_get_default (k : pykey) (default : pyval) (d : pydict) : pyval :=
  match dict_get k d with
  | Some v => v
  | None => default
  end.

(** [d[k] = v]: a key that is present keeps its place *)
Fixpoint dict_set (k : pykey) (v : pyval) (d : pydict) : pydict :=
  match d with
  | [] => [(k, v)]
  | (k', v') :: rest =>
      if pykey_eqb k k' then (k', v) :: rest else (k', v') :: dict_set k v rest
  end.

Definition dict_keys (d : pydict) : list pykey := map fst d.

(** *** [repr] and [str] *)

Definition pick_quote (s : string) : string :=
  if char_in "'" s && negb (char_in (ascii_of_nat 34) s) then dquote else squote.

Definition escape_common (q : string) (c : ascii) : option string :=
  let n := nat_of_ascii c in
  if String.eqb (String c "") q then Some (backslash ++ q)
  else if Nat.eqb n 92 then Some (backslash ++ backslash)
  else if Nat.eqb n 9 then Some (backslash ++ "t")
  else if Nat.eqb n 10 then Some (backslash ++ "n")
  else if Nat.eqb n 13 then Some (backslash ++ "r")
  else if Nat.ltb n 32 || Nat.eqb n 127 then Some (hex_escape (Z.of_nat n))
  else None.

(** one character of a text between the quotes [q]: a character that is not
    printable is written by its code point *)
Definition str_char (q : string) (ch : string) : string :=
  let n := code_point ch in
  if in_ranges unicode_not_printable n then code_escape n
  else
    match ch with
    | String c "" =>
        match escape_common q c with
        | Some e => e
        | None => ch
        end
    | _ => ch
    end.

Definition str_body (q : string) (s : string) : string :=
  String.concat "" (map (str_char q) (utf8_chars s)).

Definition str_repr (s : string) : string :=
  let q := pick_quote s in q ++ str_body q s ++ q.

Fixpoint bytes_body (q : string) (s : string) : string :=
  match s with
  | "" => ""
  | String c rest =>
      match escape_common q c with
      | Some e => e
      | None =>
          if Nat.leb 128 (nat_of_ascii c) then hex_escape (ord c) else String c ""
      end ++ bytes_body q rest
  end.

Definition bytes_repr (b : list byte) : string :=
  let s := string_of_list_byte b in
  let q := pick_quote s in "b" ++ q ++ bytes_body q s ++ q.

Definition key_repr (k : pykey) : string :=
  match k with
  | KStr s => str_repr s
  | KInt z => int_str z
  end.

(** numerator and denominator in lowest terms, as a [Fraction] keeps them *)
Definition lowest_terms (n : Z) (d : positive) : Z * Z :=
  let g := Z.gcd n (Zpos d) in (n / g, Zpos d / g).

Definition fraction_repr (n : Z) (d : positive) : string :=
  let '(n', d') := lowest_terms n d in
  "Fraction(" ++ int_str n' ++ ", " ++ int_str d' ++ ")".

Definition fraction_str (n : Z) (d : positive) : string :=
  let '(n', d') := lowest_terms n d in
  if d' =? 1 then int_str n' else int_str n' ++ "/" ++ int_str d'.

Fixpoint py_repr (v : pyval) : string :=
  match v with
  | PNone => "None"
  | PBool b => if b then "True" else "False"
  | PInt z => int_str z
  | PFloat f => Float.repr f
  | PFraction n d => fraction_repr n d
  | PStr s => str_repr s
  | PBytes b => bytes_repr b
  | PTuple items =>
      match items with
      | [x] => "(" ++ py_repr x ++ ",)"
      | _ => "(" ++ join ", " (map py_repr items) ++ ")"
      end
  | PDict items =>
      "{" ++ join ", " (map (fun kv => let '(k, x) := kv in
                                       key_repr k ++ ": " ++ py_repr x) items) ++ "}"
  end.

(** [str(v)], which is also [format(v, "")] and what an f-string inserts *)
Definition py_str (v : pyval) : string :=
  match v with
  | PStr s => s
  | PFraction n d => fraction_str n d
  | _ => py_repr v
  end.

Definition key_str (k : pykey) : string :=
  match k with
  | KStr s => s
  | KInt z => int_str z
  end.

(** [v == s] for a string literal [s] *)
Definition eq_str (v : option pyval) (s : string) : bool :=
  match v with
  | Some (PStr t) => String.eqb t s
  | _ => false
  end.

(** *** Conversions and arithmetic

    The messages of the exceptions are those of CPython 3.10 to 3.13. *)

Definition int_to_float (z : Z) : result spec_float :=
  let f := Float.of_Z z in
  if Float.is_finite f then Ok f
  else Raise (OverflowError "int too large to convert to float").

Definition bool_to_Z (b : bool) : Z := if b then 1 else 0.

(** [float(Fraction(n, d))]: the quotient of two integers, rounded once *)
Definition fraction_to_float (n : Z) (d : positive) : result spec_float :=
  let f :=
    match n with
    | Z0 => S754_zero false
    | Zpos p => Float.of_ratio false p d
    | Zneg p => Float.of_ratio true p d
    end in
  if Float.is_finite f then Ok f
  else Raise (OverflowError "integer division result too large for a float").

(** The float a number takes part in float arithmetic as, for the values
    that are numbers: an [int] or a [Fraction] beyond the range of floats
    raises. *)
Definition as_real (v : pyval) : option (result spec_float) :=
  match v with
  | PBool b => Some (Ok (Float.of_Z (bool_to_Z b)))
  | PInt z => Some (int_to_float z)
  | PFloat f => Some (Ok f)
  | PFraction n d => Some (fraction_to_float n d)
  | _ => None
  end.

Definition between (lo hi : nat) (c : ascii) : bool :=
  (Nat.leb lo (nat_of_ascii c) && Nat.leb (nat_of_ascii c) hi)%bool.

(** the white space [float] strips from the ends of what it reads *)
Definition bytes_space (c : ascii) : bool := between 9 13 c || between 32 32 c.

(** What [float] reads of a text.  The ASCII characters stay; a white-space
    character outside ASCII counts as a space and a decimal digit of another
    script as the digit it stands for. *)
Definition float_char (ch : string) : string :=
  let n := code_point ch in
  if n <? 128 then ch
  else if is_space ch then " "
  else
    match decimal_value n with
    | Some d => int_str d
    | None => ch
    end.

Definition float_text (s : string) : string :=
  String.concat "" (map float_char (utf8_chars s)).

(** [float(v)] *)
Definition py_float (v : pyval) : result spec_float :=
  match v with
  | PStr s =>
      match Float.of_string bytes_space (float_text s) with
      | Some f => Ok f
      | None => Raise (ValueError ("could not convert string to float: " ++ str_repr s))
      end
  | PBytes b =>
      match Float.of_string bytes_space (string_of_list_byte b) with
      | Some f => Ok f
      | None => Raise (ValueError ("could not convert string to float: " ++ bytes_repr b))
      end
  | _ =>
      match as_real v with
      | Some r => r
      | None =>
          Raise (TypeError ("float() argument must be a string or a real number, not '"
                            ++ type_name v ++ "'"))
      end
  end.

(** [a / f] for a float [f] *)
Definition truediv_float (a : pyval) (f : spec_float) : result spec_float :=
  match as_real a with
  | Some r =>
      x <- r ;;
      if Float.is_zero f then Raise (Exn "ZeroDivisionError" "float division by zero")
      else Ok (Float.div x f)
  | None =>
      Raise (TypeError ("unsupported operand type(s) for /: '" ++ type_name a
                        ++ "' and 'float'"))
  end.

(** [a + f] for a float [f] *)
Definition add_float (a : pyval) (f : spec_float) : result spec_float :=
  match as_real a with
  | Some r => x <- r ;; Ok (Float.add x f)
  | None =>
      Raise (TypeError
        match a with
        | PStr _ | PTuple _ =>
            "can only concatenate " ++ type_name a ++ " (not " ++ dquote ++ "float"
            ++ dquote ++ ") to " ++ type_name a
        | PBytes _ => "can't concat float to bytes"
        | _ => "unsupported operand type(s) for +: '" ++ type_name a ++ "' and 'float'"
        end)
  end.

(** [- v] *)
Definition py_neg (v : pyval) : result pyval :=
  match v with
  | PBool b => Ok (PInt (- bool_to_Z b))
  | PInt z => Ok (PInt (- z))
  | PFloat f => Ok (PFloat (Float.opp f))
  | PFraction n d => Ok (PFraction (- n) d)
  | _ => Raise (TypeError ("bad operand type for unary -: '" ++ type_name v ++ "'"))
  end.

Definition key_value (k : pykey) : pyval :=
  match k with
  | KStr s => PStr s
  | KInt z => PInt z
  end.

(** what iterating over a value yields *)
Definition py_iter (v : pyval) : result (list pyval) :=
  match v with
  | PStr s => Ok (map PStr (utf8_chars s))
  | PBytes b => Ok (map (fun x => PInt (Z.of_N (Byte.to_N x))) b)
  | PTuple items => Ok items
  | PDict items => Ok (map (fun kv => key_value (fst kv)) items)
  | _ => Raise (TypeError ("cannot unpack non-iterable " ++ type_name v ++ " object"))
  end.

(** [d, m, s = value] *)
Definition unpack3 (value : pyval) : result (pyval * pyval * pyval) :=
  items <- py_iter value ;;
  match items with
  | [d; m; s] => Ok (d, m, s)
  | _ :: _ :: _ :: _ => Raise (ValueError "too many values to unpack (expected 3)")
  | _ =>
      Raise (ValueError ("not enough values to unpack (expected 3, got "
                         ++ int_str (Z.of_nat (List.length items)) ++ ")"))
  end.

(** ** The tag tables of the imaging library *)

(** [PIL.ExifTags.GPSTAGS]: the names of the GPS tags of the EXIF standard. *)
Definition GPSTAGS : list (Z * string) :=
  [ (0, "GPSVersionID"); (1, "GPSLatitudeRef"); (2, "GPSLatitude");
    (3, "GPSLongitudeRef"); (4, "GPSLongitude"); (5, "GPSAltitudeRef");
    (6, "GPSAltitude"); (7, "GPSTimeStamp"); (8, "GPSSatellites");
    (9, "GPSStatus"); (10, "GPSMeasureMode"); (11, "GPSDOP");
    (12, "GPSSpeedRef"); (13, "GPSSpeed"); (14, "GPSTrackRef");
    (15, "GPSTrack"); (16, "GPSImgDirectionRef"); (17, "GPSImgDirection");
    (18, "GPSMapDatum"); (19, "GPSDestLatitudeRef"); (20, "GPSDestLatitude");
    (21, "GPSDestLongitudeRef"); (22, "GPSDestLongitude");
    (23, "GPSDestBearingRef"); (24, "GPSDestBearing");
    (25, "GPSDestDistanceRef"); (26, "GPSDestDistance");
    (27, "GPSProcessingMethod"); (28, "GPSAreaInformation");
    (29, "GPSDateStamp"); (30, "GPSDifferential"); (31, "GPSHPositioningError") ].

Fixpoint table_get (table : list (Z * string)) (id : Z) : option string :=
  match table with
  | [] => None
  | (i, name) :: rest => if Z.eqb i id then Some name else table_get rest id
  end.

(** [table.get(key, key)]: the name of a tag id, the key itself when the
    table has no entry for it *)
Definition tag_name (table : Z -> option string) (key : pykey) : pykey :=
  match key with
  | KInt id =>
      match table id with
      | Some name => KStr name
      | None => key
      end
  | KStr _ => key
  end.

(** ** [PhotoMetadataExtractor]: the GPS block *)

(** <<
    def convert_to_degrees(self, value):
        try:
            d, m, s = value
            return d + (m / 60.0) + (s / 3600.0)
        except:
            return str(value)
    >> *)
Definition convert_to_degrees_try (value : pyval) : result pyval :=
  parts <- unpack3 value ;;
  let '(d, m, s) := parts in
  mq <- truediv_float m Float.sixty ;;
  dm <- add_float d mq ;;
  sq <- truediv_float s Float.thirty_six_hundred ;;
  Ok (PFloat (Float.add dm sq)).

Definition convert_to_degrees (value : pyval) : pyval :=
  match convert_to_degrees_try value with
  | Ok v => v
  | Raise _ => PStr (py_str value)
  end.

(** One turn of the loop over the raw GPS block.  The only statement that can
    raise is [float(value)] of the altitude branch, before anything is
    stored, so a turn either updates [gps_data] or leaves it as it was. *)
Definition gps_tag (gps_info : pydict) (key : pykey) (gps_data : pydict)
  : result pydict :=
  let value := dict_get_default key PNone gps_info in
  let tag := tag_name (table_get GPSTAGS) key in
  if pykey_eqb tag "GPSLatitude" then
    Ok (dict_set "LatitudeRef" (dict_get_default (KInt 1) (PStr "Unknown") gps_info)
          (dict_set "Latitude" (convert_to_degrees value) gps_data))
  else if pykey_eqb tag "GPSLongitude" then
    Ok (dict_set "LongitudeRef" (dict_get_default (KInt 3) (PStr "Unknown") gps_info)
          (dict_set "Longitude" (convert_to_degrees value) gps_data))
  else if pykey_eqb tag "GPSAltitude" then
    f <- py_float value ;;
    Ok (dict_set "Altitude" (PStr (Float.repr f ++ " meters")) gps_data)
  else if pykey_eqb tag "GPSTimeStamp" then
    Ok (dict_set "GPSTime" (PStr (py_str value)) gps_data)
  else
    Ok (dict_set tag value gps_data).

(** [for key in gps_info.keys(): ...]: the payload so far and the exception
    that ended the loop, if one did *)
Fixpoint gps_tags (gps_info : pydict) (keys : list pykey) (gps_data : pydict)
  : pydict * option exn :=
  match keys with
  | [] => (gps_data, None)
  | key :: rest =>
      match gps_tag gps_info key gps_data with
      | Ok gps_data' => gps_tags gps_info rest gps_data'
      | Raise e => (gps_data, Some e)
      end
  end.

Definition maps_url (lat lon : pyval) : string :=
  "https://maps.google.com/?q=" ++ py_str lat ++ "," ++ py_str lon.

(** the statements after the loop *)
Definition gps_link (gps_data : pydict) : result pydict :=
  match dict_get "Latitude" gps_data, dict_get "Longitude" gps_data with
  | Some lat, Some lon =>
      lat' <- (if eq_str (dict_get "LatitudeRef" gps_data) "S" then py_neg lat
               else Ok lat) ;;
      lon' <- (if eq_str (dict_get "LongitudeRef" gps_data) "W" then py_neg lon
               else Ok lon) ;;
      Ok (dict_set "Google_Maps_Link" (PStr (maps_url lat' lon')) gps_data)
  | _, _ => Ok gps_data
  end.

Definition gps_error (e : exn) (gps_data : pydict) : pydict :=
  dict_set "Error" (PStr (exn_msg e)) gps_data.

(** <<
    def extract_gps_info(self, gps_info):
        gps_data = {}
        try:
            for key in gps_info.keys(): ...
            if 'Latitude' in gps_data and 'Longitude' in gps_data: ...
        except Exception as e:
            gps_data['Error'] = str(e)
        return gps_data
    >> *)
Definition extract_gps_info (gps_info : pyval) : pydict :=
  match gps_info with
  | PDict items =>
      match gps_tags items (dict_keys items) [] with
      | (gps_data, Some e) => gps_error e gps_data
      | (gps_data, None) =>
          match gps_link gps_data with
          | Ok gps_data' => gps_data'
          | Raise e => gps_error e gps_data
          end
      end
  | _ =>
      gps_error (AttributeError ("'" ++ type_name gps_info
                                 ++ "' object has no attribute 'keys'")) []
  end.

(** ** Paths and byte strings *)

(** [os.path.basename] *)
Fixpoint basename (p : string) : string :=
  match p with
  | "" => ""
  | String c rest =>
      if char_in "/" rest then basename rest
      else if Ascii.eqb c "/" then rest else p
  end.

(** [s.rfind(c)]: the last index of [c], -1 when there is none *)
Fixpoint rfind_from (c : ascii) (s : string) (i last : Z) : Z :=
  match s with
  | "" => last
  | String a rest => rfind_from c rest (i + 1) (if Ascii.eqb a c then i else last)
  end.

Definition rfind (c : ascii) (s : string) : Z := rfind_from c s 0 (-1).

(** [s[i:j]] for [0 <= i] *)
Definition slice (s : string) (i j : Z) : string :=
  substring (Z.to_nat i) (Z.to_nat (j - i)) s.

(** The loop of [genericpath._splitext] that skips the leading dots of the
    file name: is there a character other than a dot before [dotIndex]? *)
Fixpoint name_before_dot (fuel : nat) (p : string) (filenameIndex dotIndex : Z) : bool :=
  match fuel with
  | O => false
  | S fuel' =>
      if filenameIndex <? dotIndex then
        if negb (String.eqb (slice p filenameIndex (filenameIndex + 1)) ".") then true
        else name_before_dot fuel' p (filenameIndex + 1) dotIndex
      else false
  end.

(** [os.path.splitext] (POSIX flavour: the separator is the slash) *)
Definition splitext (p : string) : string * string :=
  let sepIndex := rfind "/" p in
  let dotIndex := rfind "." p in
  if (sepIndex <? dotIndex)
     && name_before_dot (String.length p) p (sepIndex + 1) dotIndex
  then (slice p 0 dotIndex, slice p dotIndex (Z.of_nat (String.length p)))
  else (p, "").

(** How many bytes the well-formed UTF-8 sequence that starts with [b] and
    goes on with [rest] has; 0 when there is none. *)
Definition utf8_length (b : ascii) (rest : string) : nat :=
  let second lo hi :=
    match rest with
    | String c1 _ => between lo hi c1
    | _ => false
    end in
  let third :=
    match rest with
    | String _ (String c2 _) => is_continuation c2
    | _ => false
    end in
  let fourth :=
    match rest with
    | String _ (String _ (String c3 _)) => is_continuation c3
    | _ => false
    end in
  (if between 0 127 b then 1
   else if between 194 223 b then (if second 128 191 then 2 else 0)
   else if between 224 224 b then (if second 160 191 && third then 3 else 0)
   else if between 237 237 b then (if second 128 159 && third then 3 else 0)
   else if between 225 239 b then (if second 128 191 && third then 3 else 0)
   else if between 240 240 b then (if second 144 191 && third && fourth then 4 else 0)
   else if between 241 243 b then (if second 128 191 && third && fourth then 4 else 0)
   else if between 244 244 b then (if second 128 143 && third && fourth then 4 else 0)
   else 0)%nat.

(** [keep] bytes of a sequence already found well-formed are still to copy *)
Fixpoint decode_ignore (keep : nat) (s : string) : string :=
  match s with
  | "" => ""
  | String b rest =>
      match keep with
      | S k => String b (decode_ignore k rest)
      | O =>
          match utf8_length b rest with
          | S k => String b (decode_ignore k rest)
          | O => decode_ignore 0 rest
          end
      end
  end.

(** [b.decode('utf-8', errors='ignore')]: the bytes that are not part of a
    well-formed sequence are dropped *)
Definition utf8_decode_ignore (b : list byte) : string :=
  decode_ignore 0 (string_of_list_byte b).

(** ** The world around the program *)

(** What [Image.open] gives: the attributes the program reads, and the answer
    of [_getexif()]: an exception, [None], or the raw tag dictionary. *)
Record Image := {
  format : string;
  mode : string;
  size : Z * Z;
  _getexif : result (option pydict)
}.

Definition width (img : Image) : Z := fst (size img).
Definition height (img : Image) : Z := snd (size img).

Record stat_result := {
  st_ctime : spec_float;
  st_mtime : spec_float;
  st_atime : spec_float;
  st_mode : Z;
  st_ino : Z
}.

(** The two places that open the image. *)
Inductive call_site : Type := in_basic_info | in_exif_data.

(** The capabilities the program calls, each answering with a value or with
    the exception it raises.  [TAGS] is [PIL.ExifTags.TAGS]; [read_heif]
    gives the (type, data) pairs of [pillow_heif.read_heif(path).metadata]. *)
Record World := {
  TAGS : Z -> option string;
  Image_open : call_site -> string -> result Image;
  getsize : string -> result Z;
  read_heif : string -> result (list (string * pyval));
  os_stat : string -> result stat_result;
  open_for_writing : string -> result unit;
  write_text : string -> result unit
}.

(** ** [PhotoMetadataExtractor] *)

Record PhotoMetadataExtractor := {
  image_path : string;
  metadata : pydict
}.

(** [__init__] *)
Definition init (image_path : string) : PhotoMetadataExtractor :=
  {| image_path := image_path; metadata := [] |}.

(** [self.metadata[category] = payload] *)
Definition store (self : PhotoMetadataExtractor) (category : string) (payload : pydict)
  : PhotoMetadataExtractor :=
  {| image_path := image_path self;
     metadata := dict_set category (PDict payload) (metadata self) |}.

(** [{'Error': str(e)}] *)
Definition error_payload (e : exn) : pydict := [(KStr "Error", PStr (exn_msg e))].

(** the body of the [try] of [extract_basic_info] *)
Definition basic_info (w : World) (path : string) : result pydict :=
  img <- Image_open w in_basic_info path ;;
  n <- getsize w path ;;
  Ok [ (KStr "Format", PStr (format img));
       (KStr "Mode", PStr (mode img));
       (KStr "Size", PTuple [PInt (width img); PInt (height img)]);
       (KStr "Width", PInt (width img));
       (KStr "Height", PInt (height img));
       (KStr "Filename", PStr (basename path));
       (KStr "File_Size", PStr (int_str n ++ " bytes")) ].

Definition extract_basic_info (w : World) (self : PhotoMetadataExtractor)
  : PhotoMetadataExtractor :=
  match basic_info w (image_path self) with
  | Ok payload => store self "Basic_Info" payload
  | Raise e => store self "Basic_Info" (error_payload e)
  end.

(** one turn of [for tag_id, value in exif_data.items()] *)
Definition exif_tag (w : World) (exif_dict : pydict) (item : pykey * pyval) : pydict :=
  let '(tag_id, value) := item in
  let tag := tag_name (TAGS w) tag_id in
  if pykey_eqb tag "GPSInfo" then
    dict_set tag (PDict (extract_gps_info value)) exif_dict
  else
    dict_set tag
      match value with
      | PBytes b => PStr (utf8_decode_ignore b)
      | _ => value
      end exif_dict.

(** the body of the [try] of [extract_exif_data]; [if exif_data:] holds for a
    dictionary that is not empty *)
Definition exif_data (w : World) (path : string) : result pydict :=
  img <- Image_open w in_exif_data path ;;
  exif_data <- _getexif img ;;
  match exif_data with
  | Some ((_ :: _) as items) => Ok (fold_left (exif_tag w) items [])
  | _ => Ok [(KStr "Info", PStr "No EXIF data found")]
  end.

Definition extract_exif_data (w : World) (self : PhotoMetadataExtractor)
  : PhotoMetadataExtractor :=
  match exif_data w (image_path self) with
  | Ok payload => store self "EXIF_Data" payload
  | Raise e => store self "EXIF_Data" (error_payload e)
  end.

(** [self.image_path.lower().endswith(('.heic', '.heif'))] *)
Definition is_heic (path : string) : bool :=
  endswith (lower path) ".heic" || endswith (lower path) ".heif".

(** the body of the [try] of [extract_heic_metadata]: [None] when the [if]
    is not entered *)
Definition heic_metadata (w : World) (path : string) : result (option pydict) :=
  if is_heic path then
    items <- read_heif w path ;;
    Ok (Some (fold_left (fun metadata item => dict_set (KStr (fst item)) (snd item) metadata)
                items []))
  else Ok None.

Definition extract_heic_metadata (w : World) (self : PhotoMetadataExtractor)
  : PhotoMetadataExtractor :=
  match heic_metadata w (image_path self) with
  | Ok (Some payload) => store self "HEIC_Metadata" payload
  | Ok None => self
  | Raise e => store self "HEIC_Metadata" (error_payload e)
  end.

(** the body of the [try] of [extract_file_metadata] *)
Definition file_metadata (w : World) (path : string) : result pydict :=
  stat_info <- os_stat w path ;;
  Ok [ (KStr "Creation_Time", PFloat (st_ctime stat_info));
       (KStr "Modification_Time", PFloat (st_mtime stat_info));
       (KStr "Access_Time", PFloat (st_atime stat_info));
       (KStr "File_Permissions", PInt (st_mode stat_info));
       (KStr "File_Inode", PInt (st_ino stat_info)) ].

Definition extract_file_metadata (w : World) (self : PhotoMetadataExtractor)
  : PhotoMetadataExtractor :=
  match file_metadata w (image_path self) with
  | Ok payload => store self "File_System_Data" payload
  | Raise e => store self "File_System_Data" (error_payload e)
  end.

(** *** Display *)

(** What a run prints (one text per [print]), and the exception that ends
    it, if one does. *)
Definition console : Type := (list string * option exn)%type.

Definition blue (s : string) : string := escape ++ "[94m" ++ s ++ escape ++ "[0m".
Definition green (s : string) : string := escape ++ "[92m" ++ s ++ escape ++ "[0m".

(** One field of a category.  ['GPS' in key] asks for a key that is a text:
    a raw tag id raises. *)
Definition display_field (key : pykey) (value : pyval) : result string :=
  if pykey_eqb key "Google_Maps_Link" then
    Ok ("  " ++ key_str key ++ ": " ++ blue (py_str value))
  else
    match key with
    | KStr k =>
        if str_contains k "GPS" || str_contains k "Location" then
          Ok ("  " ++ k ++ ": " ++ green (py_str value))
        else Ok ("  " ++ k ++ ": " ++ py_str value)
    | KInt _ => Raise (TypeError "argument of type 'int' is not iterable")
    end.

Fixpoint display_fields (fields : pydict) : console :=
  match fields with
  | [] => ([], None)
  | (key, value) :: rest =>
      match display_field key value with
      | Ok line => let '(out, e) := display_fields rest in (line :: out, e)
      | Raise e => ([], Some e)
      end
  end.

Fixpoint display_categories (md : pydict) : console :=
  match md with
  | [] => ([], None)
  | (category, data) :: rest =>
      let head := [newline ++ key_str category ++ ":"; repeat_str "-" 40] in
      match data with
      | PDict fields =>
          match display_fields fields with
          | (out, None) =>
              let '(out', e) := display_categories rest in ((head ++ out ++ out')%list, e)
          | (out, Some e) => ((head ++ out)%list, Some e)
          end
      | _ =>
          let '(out', e) := display_categories rest in
          ((head ++ (("  " ++ py_str data)%string :: out'))%list, e)
      end
  end.

Definition display_metadata (self : PhotoMetadataExtractor) : console :=
  let '(out, e) := display_categories (metadata self) in
  (repeat_str "=" 70 :: ("METADATA EKSTRAKSI UNTUK: " ++ image_path self)
     :: repeat_str "=" 70 :: out, e).

(** *** [extract_all] *)

(** the four extraction steps, in the order of the source *)
Definition extract_steps (w : World) (self : PhotoMetadataExtractor)
  : PhotoMetadataExtractor :=
  let self := extract_basic_info w self in
  let self := extract_exif_data w self in
  let self := extract_heic_metadata w self in
  extract_file_metadata w self.

Record run := {
  after : PhotoMetadataExtractor;
  printed : list string;
  returned : result pydict
}.

Definition magnifier : string := string_of_list_byte [xf0; x9f; x94; x8d].

Definition extract_all (w : World) (self : PhotoMetadataExtractor) : run :=
  let self' := extract_steps w self in
  let '(out, e) := display_metadata self' in
  {| after := self';
     printed := (magnifier ++ " Memproses file: " ++ image_path self) :: out;
     returned := match e with
                 | None => Ok (metadata self')
                 | Some e => Raise e
                 end |}.

(** *** Saving *)

(** The JSON document that [json.dump] writes. *)
#[warnings="-register-all"]
Inductive json : Type :=
| JNull
| JBool (b : bool)
| JInt (z : Z)
| JFloat (f : spec_float)
| JString (s : string)
| JArray (items : list json)
| JObject (members : list (string * json)).

(** What the encoder makes of a value; [bytes] and [Fraction] are the types
    of the model it has no encoding for.  Integer keys are written as their
    decimal text. *)
Fixpoint json_encode (v : pyval) : result json :=
  match v with
  | PNone => Ok JNull
  | PBool b => Ok (JBool b)
  | PInt z => Ok (JInt z)
  | PFloat f => Ok (JFloat f)
  | PFraction _ _ => Raise (TypeError "Object of type Fraction is not JSON serializable")
  | PStr s => Ok (JString s)
  | PBytes _ => Raise (TypeError "Object of type bytes is not JSON serializable")
  | PTuple items =>
      js <- (fix encode_all (l : list pyval) : result (list json) :=
               match l with
               | [] => Ok []
               | x :: rest => j <- json_encode x ;; js <- encode_all rest ;; Ok (j :: js)
               end) items ;;
      Ok (JArray js)
  | PDict items =>
      ms <- (fix encode_all (l : list (pykey * pyval)) : result (list (string * json)) :=
               match l with
               | [] => Ok []
               | (k, x) :: rest =>
                   j <- json_encode x ;; ms <- encode_all rest ;; Ok ((key_str k, j) :: ms)
               end) items ;;
      Ok (JObject ms)
  end.

(** the inner [try] of [save_to_json]: the value when [json.dumps(value)]
    passes, its [str] otherwise *)
Definition serializable_value (value : pyval) : pyval :=
  match json_encode value with
  | Ok _ => value
  | Raise _ => PStr (py_str value)
  end.

Definition serializable_category (data : pyval) : pyval :=
  match data with
  | PDict fields =>
      PDict (fold_left (fun out kv => dict_set (fst kv) (serializable_value (snd kv)) out)
               fields [])
  | _ => PStr (py_str data)
  end.

Definition serializable_metadata (md : pydict) : pydict :=
  fold_left (fun out kv => dict_set (fst kv) (serializable_category (snd kv)) out) md [].

(** [os.path.splitext(self.image_path)[0] + '_metadata.json'] *)
Definition default_output_file (self : PhotoMetadataExtractor) : string :=
  fst (splitext (image_path self)) ++ "_metadata.json".

(** What became of the output file: not opened; opened, which empties it,
    and left without the complete document; or holding the document. *)
Inductive file_effect : Type :=
| Untouched
| Truncated (path : string)
| Written (path : string) (doc : json).

(** *** The text of the document

    [json.dump(..., indent=2, ensure_ascii=False)] hands the text to the file
    piece by piece; the file, opened with [encoding='utf-8'], encodes each
    piece as it arrives. *)

(** a character between the quotes of a JSON string *)
Definition json_escape (ch : string) : string :=
  match ch with
  | String c "" =>
      let n := ord c in
      if n =? 34 then backslash ++ dquote
      else if n =? 92 then backslash ++ backslash
      else if n =? 10 then backslash ++ "n"
      else if n =? 13 then backslash ++ "r"
      else if n =? 9 then backslash ++ "t"
      else if n =? 8 then backslash ++ "b"
      else if n =? 12 then backslash ++ "f"
      else if n <? 32 then backslash ++ "u" ++ hex_digits 4 n
      else ch
  | _ => ch
  end.

Definition json_string (s : string) : string :=
  dquote ++ String.concat "" (map json_escape (utf8_chars s)) ++ dquote.

Definition json_float (f : spec_float) : string :=
  match f with
  | S754_nan => "NaN"
  | S754_infinity s => if s then "-Infinity" else "Infinity"
  | _ => Float.repr f
  end.

(** the text of a value that is not a container *)
Definition json_atom (j : json) : option string :=
  match j with
  | JNull => Some "null"
  | JBool b => Some (if b then "true" else "false")
  | JInt z => Some (int_str z)
  | JFloat f => Some (json_float f)
  | JString s => Some (json_string s)
  | JArray _ | JObject _ => None
  end.

Definition newline_indent (level : nat) : string := newline ++ repeat_str "  " level.

(** The pieces of the text, in the order they are written.  An element of
    an array that is not a container comes in one piece with the separator
    before it; a member of an object comes as its name, the colon and its
    value. *)
Fixpoint json_pieces (level : nat) (j : json) : list string :=
  match j with
  | JArray [] => ["[]"]
  | JArray items =>
      app
        ((fix elements (first : bool) (l : list json) : list string :=
            match l with
            | [] => []
            | x :: rest =>
                let buf := (if first then "[" else ",") ++ newline_indent (S level) in
                match json_atom x with
                | Some text => (buf ++ text) :: elements false rest
                | None => buf :: app (json_pieces (S level) x) (elements false rest)
                end
            end) true items)
        [newline_indent level; "]"]
  | JObject [] => ["{}"]
  | JObject members =>
      "{" :: newline_indent (S level)
      :: app
           ((fix elements (first : bool) (l : list (string * json)) : list string :=
               match l with
               | [] => []
               | (name, x) :: rest =>
                   app (if first then [] else ["," ++ newline_indent (S level)])
                     (json_string name :: ": "
                      :: app (json_pieces (S level) x) (elements false rest))
               end) true members)
           [newline_indent level; "}"]
  | _ =>
      match json_atom j with
      | Some text => [text]
      | None => []
      end
  end.

(** the first run of surrogates among the characters from position [i] on:
    where it starts, where it ends, and its first character *)
Fixpoint surrogate_run (chars : list string) (i : Z) : option (Z * Z * string) :=
  match chars with
  | [] => None
  | ch :: rest =>
      if is_surrogate ch then
        Some (i, i + 1 + Z.of_nat (List.length rest - List.length (drop_while is_surrogate rest)), ch)
      else surrogate_run rest (i + 1)
  end.

(** What the UTF-8 codec raises on a piece of text: a surrogate on its own
    has no encoding. *)
Definition encode_error (text : string) : option exn :=
  match surrogate_run (utf8_chars text) 0 with
  | Some (start, stop, ch) =>
      Some (Exn "UnicodeEncodeError"
              (if stop =? start + 1 then
                 "'utf-8' codec can't encode character '" ++ code_escape (code_point ch)
                 ++ "' in position " ++ int_str start ++ ": surrogates not allowed"
               else
                 "'utf-8' codec can't encode characters in position " ++ int_str start
                 ++ "-" ++ int_str (stop - 1) ++ ": surrogates not allowed"))
  | None => None
  end.

(** the pieces that reach the file, and the exception that stops the
    writing, if one does *)
Fixpoint write_pieces (pieces : list string) : string * option exn :=
  match pieces with
  | [] => ("", None)
  | piece :: rest =>
      match encode_error piece with
      | Some e => ("", Some e)
      | None => let '(text, e) := write_pieces rest in (piece ++ text, e)
      end
  end.

(** the text [json.dump] leaves in the file *)
Definition json_text (doc : json) : string := fst (write_pieces (json_pieces 0 doc)).

(** the exception that ends [json.dump] before the document is complete *)
Definition json_dump_error (doc : json) : option exn := snd (write_pieces (json_pieces 0 doc)).

Definition check_mark : string := string_of_list_byte [xe2; x9c; x85].
Definition cross_mark : string := string_of_list_byte [xe2; x9d; x8c].

Definition save_to_json (w : World) (self : PhotoMetadataExtractor)
  (output_file : option string) : file_effect * string :=
  let output_file :=
    match output_file with
    | None => default_output_file self
    | Some f => f
    end in
  let failed (e : exn) := cross_mark ++ " Error menyimpan ke JSON: " ++ exn_msg e in
  match open_for_writing w output_file with
  | Raise e => (Untouched, failed e)
  | Ok _ =>
      match (doc <- json_encode (PDict (serializable_metadata (metadata self))) ;;
             _ <- match json_dump_error doc with
                  | Some e => Raise e
                  | None => Ok tt
                  end ;;
             _ <- write_text w output_file ;;
             Ok doc) with
      | Ok doc =>
          (Written output_file doc,
           newline ++ check_mark ++ " Metadata disimpan ke: " ++ output_file)
      | Raise e => (Truncated output_file, failed e)
      end
  end.

(** ** [main] *)

(** The terminal [main] talks to: the lines the user types, in order, and
    which paths [os.path.exists] finds. *)
Record Terminal := {
  answers : list string;
  path_exists : string -> bool
}.

(** [s.strip(q)] for [q] the double quote *)
Definition strip_quotes (s : string) : string :=
  Float.strip (fun c => Ascii.eqb c (ascii_of_nat 34)) s.

Definition EOFError : exn := Exn "EOFError" "EOF when reading a line".

Definition floppy : string := string_of_list_byte [xf0; x9f; x92; xbe].

Definition prompt_path : string := "Masukkan path foto yang ingin dianalisis: ".

Definition prompt_save : string :=
  newline ++ floppy ++ " Simpan metadata ke file JSON? (y/n): ".

Definition not_found : string := cross_mark ++ " File tidak ditemukan!".

(** What a run of [main] leaves: the texts on the terminal, what became of
    the output file, and how the run ended. *)
Record session := {
  shown : list string;
  saved : file_effect;
  ended : result unit
}.

(** <<
    def main():
        photo_path = input(...).strip().strip(double quote)
        if not os.path.exists(photo_path):
            print(... File tidak ditemukan!)
            return
        extractor = PhotoMetadataExtractor(photo_path)
        metadata = extractor.extract_all()
        save_choice = input(...).lower()
        if save_choice == 'y':
            extractor.save_to_json()
    >>
    [input] raises [EOFError] when no line is left; an exception of
    [extract_all] ends the run. *)
Definition main (w : World) (t : Terminal) : session :=
  match answers t with
  | [] => {| shown := [prompt_path]; saved := Untouched; ended := Raise EOFError |}
  | line :: more =>
      let photo_path := strip_quotes (str_strip line) in
      if negb (path_exists t photo_path) then
        {| shown := [prompt_path; not_found]; saved := Untouched; ended := Ok tt |}
      else
        let extractor := init photo_path in
        let r := extract_all w extractor in
        match returned r with
        | Raise e =>
            {| shown := prompt_path :: printed r; saved := Untouched; ended := Raise e |}
        | Ok _ =>
            let out := (prompt_path :: printed r ++ [prompt_save])%list in
            match more with
            | [] => {| shown := out; saved := Untouched; ended := Raise EOFError |}
            | save_choice :: _ =>
                if String.eqb (lower save_choice) "y" then
                  let '(effect, message) := save_to_json w (after r) None in
                  {| shown := (out ++ [message])%list; saved := effect; ended := Ok tt |}
                else {| shown := out; saved := Untouched; ended := Ok tt |}
            end
        end
  end.

(** ** Sample inputs *)

Module Sample.

Definition dms (d m s : Z) : pyval := PTuple [PInt d; PInt m; PInt s].


(** 10 degrees 30 minutes south, 20 degrees east *)
Definition gps_south_east : pydict :=
  [ (KInt 1, PStr "S"); (KInt 2, dms 10 30 0);
    (KInt 3, PStr "E"); (KInt 4, dms 20 0 0) ].

(** the same place with a latitude of two parts only *)
Definition gps_short_latitude : pydict :=
  [ (KInt 1, PStr "S"); (KInt 2, PTuple [PInt 10; PInt 30]);
    (KInt 3, PStr "E"); (KInt 4, dms 20 0 0) ].

(** a longitude of two parts only, west *)
Definition gps_short_longitude : pydict :=
  [ (KInt 1, PStr "N"); (KInt 2, dms 10 30 0);
    (KInt 3, PStr "W"); (KInt 4, PTuple [PInt 20; PInt 0]) ].

(** a block without longitude *)
Definition gps_latitude_only : pydict :=
  [ (KInt 1, PStr "N"); (KInt 2, dms 10 30 0); (KInt 6, PInt 120) ].

Definition tags (id : Z) : option string :=
  if id =? 271 then Some "Make"
  else if id =? 34853 then Some "GPSInfo"
  else if id =? 37500 then Some "MakerNote"
  else None.

Definition image (exif : result (option pydict)) : Image :=
  {| format := "JPEG"; mode := "RGB"; size := (640, 480); _getexif := exif |}.

Definition stat : stat_result :=
  {| st_ctime := Float.of_Z 1700000000; st_mtime := Float.of_Z 1700000000;
     st_atime := Float.of_Z 1700000001; st_mode := 33188; st_ino := 42 |}.

Definition no_such_file : exn :=
  Exn "FileNotFoundError" "[Errno 2] No such file or directory: 'photo.jpg'".

Definition cannot_identify : exn :=
  Exn "UnidentifiedImageError" "cannot identify image file 'photo.jpg'".

(** a readable JPEG with a GPS block and a maker note *)
Definition world : World :=
  {| TAGS := tags;
     Image_open := fun _ _ =>
       Ok (image (Ok (Some [ (KInt 271, PStr "Canon");
                             (KInt 34853, PDict gps_south_east);
                             (KInt 37500, PBytes [x41; xff]) ])));
     getsize := fun _ => Ok 1234;
     read_heif := fun _ => Raise (Exn "ValueError" "not a HEIF file");
     os_stat := fun _ => Ok stat;
     open_for_writing := fun _ => Ok tt;
     write_text := fun _ => Ok tt |}.

(** the decoder rejects the file when basic information is read; the EXIF
    reader, opening it again, finds an image without EXIF data *)
Definition world_undecodable : World :=
  {| TAGS := tags;
     Image_open := fun site _ =>
       match site with
       | in_basic_info => Raise cannot_identify
       | in_exif_data => Ok (image (Ok None))
       end;
     getsize := fun _ => Ok 1234;
     read_heif := fun _ => Ok [("Exif", PBytes [x00])];
     os_stat := fun _ => Raise no_such_file;
     open_for_writing := fun _ => Ok tt;
     write_text := fun _ => Ok tt |}.

(** the EXIF reader answers with an empty dictionary *)
Definition world_empty_exif : World :=
  {| TAGS := tags;
     Image_open := fun _ _ => Ok (image (Ok (Some [])));
     getsize := fun _ => Ok 1234;
     read_heif := fun _ => Ok [];
     os_stat := fun _ => Ok stat;
     open_for_writing := fun _ => Ok tt;
     write_text := fun _ => Ok tt |}.

(** a record with one field that JSON cannot hold *)
Definition record : pydict :=
  [ (KStr "Basic_Info",
     PDict [ (KStr "Width", PInt 640); (KStr "Format", PStr "JPEG") ]);
    (KStr "EXIF_Data",
     PDict [ (KStr "MakerNote", PBytes [x41; xff]);
             (KStr "FNumber", PFloat (Float.of_decimal false 28 (-1)));
             (KInt 59932, PTuple [PInt 1; PInt 2]) ]) ].

(** both coordinates, then an altitude that [float] rejects *)
Definition gps_bad_altitude : pydict :=
  [ (KInt 1, PStr "S"); (KInt 2, dms 10 30 0);
    (KInt 3, PStr "E"); (KInt 4, dms 20 0 0); (KInt 6, PNone) ].

(** a JPEG whose EXIF block has a tag id the tag table does not know *)
Definition world_unknown_tag : World :=
  {| TAGS := tags;
     Image_open := fun _ _ =>
       Ok (image (Ok (Some [ (KInt 271, PStr "Canon"); (KInt 59932, PInt 7) ])));
     getsize := fun _ => Ok 1234;
     read_heif := fun _ => Raise (Exn "ValueError" "not a HEIF file");
     os_stat := fun _ => Ok stat;
     open_for_writing := fun _ => Ok tt;
     write_text := fun _ => Ok tt |}.

(** a container with two items of the same type *)
Definition world_heic : World :=
  {| TAGS := tags;
     Image_open := fun _ _ => Ok (image (Ok None));
     getsize := fun _ => Ok 1234;
     read_heif := fun _ => Ok [ ("Exif", PBytes [x00]); ("mime", PStr "xmp");
                                ("Exif", PBytes [x01]) ];
     os_stat := fun _ => Ok stat;
     open_for_writing := fun _ => Ok tt;
     write_text := fun _ => Ok tt |}.

(** The name of a file with a byte that is no UTF-8, as the file system
    hands it to the program ([os.fsdecode] of the bytes of "ph", xff,
    "oto.jpg"): the byte xff has become the lone surrogate U+DCFF. *)
Definition surrogate : string := string_of_list_byte [xed; xb3; xbf].

Definition undecodable_name : string := "ph" ++ surrogate ++ "oto.jpg".

(** the user names a quoted path between a no-break space and an
    ideographic space, and asks to save *)
Definition terminal_padded : Terminal :=
  {| answers := [string_of_list_byte [xc2; xa0] ++ String (ascii_of_nat 34) "photo.jpg"
                 ++ String (ascii_of_nat 34) (string_of_list_byte [xe3; x80; x80]); "y"];
     path_exists := fun p => String.eqb p "photo.jpg" |}.

(** the user names a quoted path and asks to save *)
Definition terminal : Terminal :=
  {| answers := [String (ascii_of_nat 34) "photo.jpg" ++ String (ascii_of_nat 34) " "; "Y"];
     path_exists := fun p => String.eqb p "photo.jpg" |}.

End Sample.

(** ** What the claims speak of *)

(** the payload a step stores: its own, or the error payload when it raised *)
Definition stored_payload (r : result pydict) : pyval :=
  match r with
  | Ok payload => PDict payload
  | Raise e => PDict (error_payload e)
  end.

(** the categories of a full extraction, in the order they are stored *)
Definition categories (path : string) : list pykey :=
  if is_heic path
  then [KStr "Basic_Info"; KStr "EXIF_Data"; KStr "HEIC_Metadata"; KStr "File_System_Data"]
  else [KStr "Basic_Info"; KStr "EXIF_Data"; KStr "File_System_Data"].

(** a raw GPS block is keyed by tag ids *)
Definition is_tag_id (k : pykey) : bool :=
  match k with
  | KInt _ => true
  | KStr _ => false
  end.

Definition raw_gps_block (items : pydict) : bool := forallb is_tag_id (dict_keys items).

(** the last [n] characters of [s] *)
Definition last_chars (n : nat) (s : string) : string :=
  substring (String.length s - n) n s.

(** the path's extension is [ext], letters compared without case: the last
    characters of the path, as many as [ext] has, lower-cased, are [ext] *)
Definition extension_is (path ext : string) : bool :=
  String.eqb (lower (last_chars (String.length ext) path)) ext.

(** a coordinate as the link shows it: a decimal value of the southern or
    western hemisphere changes sign *)
Definition hemisphere (negative : bool) (v : pyval) : pyval :=
  match v with
  | PFloat x => PFloat (if negative then Float.opp x else x)
  | _ => v
  end.

(** the keys [extract_gps_info] writes besides tag names *)
Definition own_keys : list pykey :=
  [KStr "Latitude"; KStr "LatitudeRef"; KStr "Longitude"; KStr "LongitudeRef";
   KStr "Altitude"; KStr "GPSTime"; KStr "Google_Maps_Link"; KStr "Error"].

(** a coordinate is a decimal value or the text that replaced it *)
Definition is_coordinate (v : option pyval) : bool :=
  match v with
  | Some (PFloat _) | Some (PStr _) | None => true
  | _ => false
  end.

Definition negation_of_str : string := "bad operand type for unary -: 'str'".

(** the float a number stands for in arithmetic: none for a value that is not
    a number, and none for an integer or a fraction beyond the range of
    floats *)
Definition real_of (v : pyval) : option spec_float :=
  match as_real v with
  | Some (Ok x) => Some x
  | _ => None
  end.






(** a field in the written document: its own encoding when it has one, the
    text of its [str] otherwise *)
Definition json_field (value : pyval) : json :=
  match json_encode value with
  | Ok j => j
  | Raise _ => JString (py_str value)
  end.

Definition json_category (data : pyval) : json :=
  match data with
  | PDict fields => JObject (map (fun kv => (key_str (fst kv), json_field (snd kv))) fields)
  | _ => JString (py_str data)
  end.

Definition json_record (md : pydict) : json :=
  JObject (map (fun kv => (key_str (fst kv), json_category (snd kv))) md).

Fixpoint distinct (keys : list pykey) : bool :=
  match keys with
  | [] => true
  | k :: rest => negb (existsb (pykey_eqb k) rest) && distinct rest
  end.

(** a record as the extractor builds it: dictionaries, so no key twice *)
Definition record_wf (md : pydict) : bool :=
  distinct (dict_keys md) &&
  forallb (fun kv => match snd kv with
                     | PDict fields => distinct (dict_keys fields)
                     | _ => true
                     end) md.

(** [output_file] after the first two lines of [save_to_json] *)
Definition output_path (self : PhotoMetadataExtractor) (output_file : option string)
  : string :=
  match output_file with
  | None => default_output_file self
  | Some f => f
  end.

(** [s] cut at its last [c]: what comes before, and the rest from [c] on *)
Fixpoint split_last (c : ascii) (s : string) : option (string * string) :=
  match s with
  | "" => None
  | String a rest =>
      match split_last c rest with
      | Some (before, rest') => Some (String a before, rest')
      | None => if Ascii.eqb a c then Some ("", s) else None
      end
  end.

Fixpoint all_dots (s : string) : bool :=
  match s with
  | "" => true
  | String a rest => Ascii.eqb a "." && all_dots rest
  end.

(** A path and its extension, in words: the extension runs from the last dot
    of the path to its end, when that dot stands in the last component of
    the path and some character of the component before it is not a dot;
    otherwise there is no extension. *)
Definition split_extension (path : string) : string * string :=
  match split_last "." path with
  | Some (root, ext) =>
      if char_in "/" ext || all_dots (basename root) then (path, "") else (root, ext)
  | None => (path, "")
  end.

(** ** What the further properties speak of *)

(** every field key of every mapping category is a text *)
Definition text_keys (md : pydict) : bool :=
  forallb (fun kv => match snd kv with
                     | PDict fields => forallb (fun f => negb (is_tag_id (fst f))) fields
                     | _ => true
                     end) md.

(** what ['GPS' in key] raises for a key that is a tag id *)
Definition not_iterable : exn := TypeError "argument of type 'int' is not iterable".

(** the data of the last item of a type, among container metadata items *)
Fixpoint last_of_type (type : string) (items : list (string * pyval)) : option pyval :=
  match items with
  | [] => None
  | (type', data) :: rest =>
      match last_of_type type rest with
      | Some d => Some d
      | None => if String.eqb type type' then Some data else None
      end
  end.

Definition is_bytes (v : pyval) : bool :=
  match v with
  | PBytes _ => true
  | _ => false
  end.

(** a text of ASCII characters only *)
Fixpoint ascii_text (s : string) : bool :=
  match s with
  | "" => true
  | String c rest => between 0 127 c && ascii_text rest
  end.

(** the value of a byte as a Python [int] *)
Definition byte_value (x : byte) : Z := Z.of_N (Byte.to_N x).

(** ** Facts about dictionaries *)

Lemma pykey_eqb_eq (a b : pykey) : pykey_eqb a b = true <-> a = b.
Proof.
  destruct a as [s|x], b as [t|y]; simpl; split; intros H;
    try discriminate; try (inversion H; subst).
  - apply String.eqb_eq in H. now subst.
  - apply String.eqb_refl.
  - apply Z.eqb_eq in H. now subst.
  - apply Z.eqb_refl.
Qed.

Lemma pykey_eqb_refl (k : pykey) : pykey_eqb k k = true.
Proof. now apply pykey_eqb_eq. Qed.

Lemma pykey_eqb_neq (a b : pykey) : pykey_eqb a b = false <-> a <> b.
Proof.
  split.
  - intros H E. apply pykey_eqb_eq in E. congruence.
  - intros H. destruct (pykey_eqb a b) eqn:E; [|reflexivity].
    apply pykey_eqb_eq in E. contradiction.
Qed.

Lemma dict_get_set_same (k : pykey) (v : pyval) (d : pydict) :
  dict_get k (dict_set k v d) = Some v.
Proof.
  induction d as [|[k' v'] d IH]; simpl.
  - now rewrite pykey_eqb_refl.
  - destruct (pykey_eqb k k') eqn:E; simpl; rewrite E; auto.
Qed.

Lemma dict_get_set_other (k k' : pykey) (v : pyval) (d : pydict) :
  pykey_eqb k k' = false -> dict_get k (dict_set k' v d) = dict_get k d.
Proof.
  intros N. induction d as [|[k0 v0] d IH]; simpl.
  - now rewrite N.
  - destruct (pykey_eqb k' k0) eqn:E; simpl.
    + apply pykey_eqb_eq in E. subst k0. now rewrite N.
    + now rewrite IH.
Qed.

Lemma dict_mem_set_other (k k' : pykey) (v : pyval) (d : pydict) :
  pykey_eqb k k' = false -> dict_mem k (dict_set k' v d) = dict_mem k d.
Proof. intros N. unfold dict_mem. now rewrite dict_get_set_other. Qed.

(** ** The extraction steps *)

Section Steps.

Variable w : World.

Lemma image_path_basic self : image_path (extract_basic_info w self) = image_path self.
Proof. unfold extract_basic_info. now destruct (basic_info w (image_path self)). Qed.

Lemma image_path_exif self : image_path (extract_exif_data w self) = image_path self.
Proof. unfold extract_exif_data. now destruct (exif_data w (image_path self)). Qed.

Lemma image_path_heic self : image_path (extract_heic_metadata w self) = image_path self.
Proof.
  unfold extract_heic_metadata.
  now destruct (heic_metadata w (image_path self)) as [[p|]|e].
Qed.

Lemma metadata_basic self :
  metadata (extract_basic_info w self) =
  dict_set "Basic_Info" (stored_payload (basic_info w (image_path self))) (metadata self).
Proof. unfold extract_basic_info. now destruct (basic_info w (image_path self)). Qed.

Lemma metadata_exif self :
  metadata (extract_exif_data w self) =
  dict_set "EXIF_Data" (stored_payload (exif_data w (image_path self))) (metadata self).
Proof. unfold extract_exif_data. now destruct (exif_data w (image_path self)). Qed.

Lemma metadata_file self :
  metadata (extract_file_metadata w self) =
  dict_set "File_System_Data" (stored_payload (file_metadata w (image_path self)))
    (metadata self).
Proof. unfold extract_file_metadata. now destruct (file_metadata w (image_path self)). Qed.

Lemma metadata_heic self :
  metadata (extract_heic_metadata w self) =
  match heic_metadata w (image_path self) with
  | Ok None => metadata self
  | Ok (Some payload) => dict_set "HEIC_Metadata" (PDict payload) (metadata self)
  | Raise e => dict_set "HEIC_Metadata" (PDict (error_payload e)) (metadata self)
  end.
Proof.
  unfold extract_heic_metadata.
  now destruct (heic_metadata w (image_path self)) as [[p|]|e].
Qed.

(** the container step stores nothing exactly when the suffix test fails *)
Lemma heic_metadata_skipped path :
  heic_metadata w path = Ok None <-> is_heic path = false.
Proof.
  unfold heic_metadata. destruct (is_heic path); [|tauto].
  destruct (read_heif w path); simpl; split; discriminate.
Qed.

(** the record after the four steps, written out *)
Lemma metadata_steps path :
  metadata (extract_steps w (init path)) =
  let basic := (KStr "Basic_Info", stored_payload (basic_info w path)) in
  let exif := (KStr "EXIF_Data", stored_payload (exif_data w path)) in
  let file := (KStr "File_System_Data", stored_payload (file_metadata w path)) in
  match heic_metadata w path with
  | Ok None => [basic; exif; file]
  | Ok (Some payload) => [basic; exif; (KStr "HEIC_Metadata", PDict payload); file]
  | Raise e => [basic; exif; (KStr "HEIC_Metadata", PDict (error_payload e)); file]
  end.
Proof.
  unfold extract_steps.
  rewrite metadata_file, metadata_heic, metadata_exif, metadata_basic.
  rewrite !image_path_heic, !image_path_exif, !image_path_basic. simpl.
  now destruct (heic_metadata w path) as [[p|]|e].
Qed.

Lemma after_extract_all self : after (extract_all w self) = extract_steps w self.
Proof.
  unfold extract_all. now destruct (display_metadata (extract_steps w self)).
Qed.

End Steps.

(** C1, as the source has it.  After [extract_all] the record holds
    Basic_Info, EXIF_Data and File_System_Data for every input, each with the
    payload of its step or with [{"Error": message}] when the step raised;
    HEIC_Metadata is held exactly when the lower-cased path ends in ".heic"
    or ".heif", again with the step's payload or the error payload.  There
    are no other categories. *)
Theorem extract_all_categories (w : World) (path : string) :
  let md := metadata (after (extract_all w (init path))) in
  dict_keys md = categories path /\
  dict_get "Basic_Info" md = Some (stored_payload (basic_info w path)) /\
  dict_get "EXIF_Data" md = Some (stored_payload (exif_data w path)) /\
  dict_get "File_System_Data" md = Some (stored_payload (file_metadata w path)) /\
  dict_mem "HEIC_Metadata" md = is_heic path /\
  dict_get "HEIC_Metadata" md =
    match heic_metadata w path with
    | Ok None => None
    | Ok (Some payload) => Some (PDict payload)
    | Raise e => Some (PDict (error_payload e))
    end.
Proof.
  cbv zeta. rewrite after_extract_all, metadata_steps. unfold categories.
  pose proof (heic_metadata_skipped w path) as S.
  destruct (heic_metadata w path) as [[p|]|e]; destruct (is_heic path);
    try (destruct S as [S1 S2]; (discriminate (S2 eq_refl) || discriminate (S1 eq_refl)));
    cbn; repeat split; reflexivity.
Qed.

(** C1 as stated fails: a JPEG is extracted without an exception, the run
    returns the record, and the record has no HEIC_Metadata category. *)
Lemma extract_all_jpeg_lacks_heic_category :
  let r := extract_all Sample.world (init "photo.jpg") in
  returned r = Ok (metadata (after r)) /\
  dict_mem "HEIC_Metadata" (metadata (after r)) = false /\
  dict_keys (metadata (after r))
  = [KStr "Basic_Info"; KStr "EXIF_Data"; KStr "File_System_Data"].
Proof. vm_compute. repeat split. Qed.

(** ** Facts about text *)

Section Text.

Lemma append_nil_r (s : string) : s ++ "" = s.
Proof. induction s; simpl; congruence. Qed.

Lemma append_assoc (a b c : string) : (a ++ b) ++ c = a ++ (b ++ c).
Proof. induction a; simpl; congruence. Qed.

Lemma length_append (a b : string) :
  String.length (a ++ b) = (String.length a + String.length b)%nat.
Proof. induction a; simpl; congruence. Qed.

Lemma rev_str_append (a b : string) : rev_str (a ++ b) = rev_str b ++ rev_str a.
Proof.
  induction a; simpl.
  - now rewrite append_nil_r.
  - now rewrite IHa, append_assoc.
Qed.

Lemma rev_str_involutive (s : string) : rev_str (rev_str s) = s.
Proof.
  induction s; simpl; [reflexivity|].
  rewrite rev_str_append, IHs. reflexivity.
Qed.

Lemma startswith_prefix (s p : string) :
  startswith s p = true <-> exists t, s = p ++ t.
Proof.
  revert s. induction p as [|a p IH]; intros s; simpl.
  - split; eauto.
  - destruct s as [|b s].
    + split; [discriminate | intros [t H]; discriminate].
    + rewrite andb_true_iff, IH, Ascii.eqb_eq. split.
      * intros [-> [t ->]]. eauto.
      * intros [t H]. inversion H. eauto.
Qed.

Lemma endswith_suffix (s p : string) :
  endswith s p = true <-> exists stem, s = stem ++ p.
Proof.
  unfold endswith. rewrite startswith_prefix. split.
  - intros [t H]. exists (rev_str t).
    rewrite <- (rev_str_involutive s), H, rev_str_append.
    now rewrite rev_str_involutive.
  - intros [stem ->]. exists (rev_str stem). apply rev_str_append.
Qed.

Lemma lower_append (a b : string) : lower (a ++ b) = lower a ++ lower b.
Proof. induction a; simpl; congruence. Qed.

Lemma length_lower (s : string) : String.length (lower s) = String.length s.
Proof. induction s; simpl; congruence. Qed.

Lemma lower_append_inv (s a b : string) :
  lower s = a ++ b -> exists s1 s2, s = s1 ++ s2 /\ lower s1 = a /\ lower s2 = b.
Proof.
  revert s. induction a as [|c a IH]; intros s H; simpl in H.
  - exists "", s. auto.
  - destruct s as [|d s]; [discriminate|]. simpl in H. inversion H as [[Hc Hs]].
    destruct (IH s Hs) as (s1 & s2 & -> & <- & <-).
    exists (String d s1), s2. auto.
Qed.

Lemma substring_skip (a b : string) (n : nat) :
  substring (String.length a) n (a ++ b) = substring 0 n b.
Proof. induction a; simpl; [reflexivity | assumption]. Qed.

Lemma substring_all (s : string) : substring 0 (String.length s) s = s.
Proof. induction s; simpl; congruence. Qed.

Lemma length_substring_le (s : string) (i n : nat) :
  (String.length (substring i n s) <= String.length s - i)%nat.
Proof.
  revert i n. induction s as [|c s IH]; intros i n; simpl.
  - destruct i, n; simpl; lia.
  - destruct i, n; simpl; try lia.
    + specialize (IH 0%nat n). lia.
    + apply IH.
    + apply IH.
Qed.

Lemma substring_split (s : string) (i : nat) :
  (i <= String.length s)%nat ->
  s = substring 0 i s ++ substring i (String.length s - i) s.
Proof.
  revert i. induction s as [|c s IH]; intros i H; simpl in *.
  - now destruct i.
  - destruct i; simpl.
    + now rewrite substring_all.
    + f_equal. apply IH. lia.
Qed.

Lemma last_chars_append (a b : string) : last_chars (String.length b) (a ++ b) = b.
Proof.
  unfold last_chars. rewrite length_append.
  replace (String.length a + String.length b - String.length b)%nat
    with (String.length a) by lia.
  rewrite substring_skip. apply substring_all.
Qed.

(** the suffix test of the source, in words of the path alone *)
Lemma endswith_lower_extension (path ext : string) :
  endswith (lower path) ext = extension_is path ext.
Proof.
  unfold extension_is.
  destruct (String.eqb_spec (lower (last_chars (String.length ext) path)) ext) as [E|N].
  - apply endswith_suffix.
    assert (L : (String.length ext <= String.length path)%nat).
    { pose proof (length_substring_le path
                    (String.length path - String.length ext)%nat (String.length ext)) as B.
      fold (last_chars (String.length ext) path) in B.
      rewrite <- (length_lower (last_chars _ _)), E in B. lia. }
    exists (lower (substring 0 (String.length path - String.length ext)%nat path)).
    rewrite <- E at 2. rewrite <- lower_append. f_equal.
    unfold last_chars.
    rewrite (@substring_split path (String.length path - String.length ext)%nat) at 1 by lia.
    do 2 f_equal. lia.
  - destruct (endswith (lower path) ext) eqn:H; [|reflexivity].
    apply endswith_suffix in H. destruct H as [stem H].
    apply lower_append_inv in H. destruct H as (s1 & s2 & -> & _ & H2).
    exfalso. apply N.
    rewrite <- H2 at 1. rewrite length_lower, last_chars_append. exact H2.
Qed.

Lemma is_heic_extension (path : string) :
  is_heic path = extension_is path ".heic" || extension_is path ".heif".
Proof. unfold is_heic. now rewrite !endswith_lower_extension. Qed.

End Text.

(** C6.  For a path whose extension, compared without case, is neither
    ".heic" nor ".heif", [extract_heic_metadata] returns the extractor as it
    was: no HEIC_Metadata key appears and every other category is
    untouched. *)
Theorem heic_step_leaves_other_extensions (w : World) (self : PhotoMetadataExtractor) :
  extension_is (image_path self) ".heic" = false ->
  extension_is (image_path self) ".heif" = false ->
  extract_heic_metadata w self = self /\
  dict_mem "HEIC_Metadata" (metadata (extract_heic_metadata w self))
  = dict_mem "HEIC_Metadata" (metadata self) /\
  forall category,
    dict_get category (metadata (extract_heic_metadata w self))
    = dict_get category (metadata self).
Proof.
  intros H1 H2.
  assert (E : extract_heic_metadata w self = self).
  { unfold extract_heic_metadata, heic_metadata.
    now rewrite is_heic_extension, H1, H2. }
  rewrite E. auto.
Qed.

Lemma heic_step_leaves_other_extensions_witness :
  let self := extract_exif_data Sample.world (extract_basic_info Sample.world (init "photo.jpg")) in
  extract_heic_metadata Sample.world self = self /\
  dict_mem "HEIC_Metadata" (metadata (extract_heic_metadata Sample.world self)) = false.
Proof.
  intros self.
  destruct (@heic_step_leaves_other_extensions Sample.world self) as (E & M & _);
    [reflexivity | reflexivity |].
  split; [exact E | rewrite M; reflexivity].
Defined.

(** C4.  When opening the image fails in [extract_basic_info], Basic_Info
    becomes [{"Error": message}] and the run goes on: the other three steps
    store what each of them stores on its own, whether it succeeds or fails,
    and every step turns the exception of its body into the payload it
    stores, so that [extract_all] reaches the record of the four steps. *)
Theorem decode_failure_is_isolated (w : World) (path : string) (e : exn) :
  Image_open w in_basic_info path = Raise e ->
  let md := metadata (extract_steps w (init path)) in
  dict_get "Basic_Info" md = Some (PDict [(KStr "Error", PStr (exn_msg e))]) /\
  dict_get "EXIF_Data" md
  = dict_get "EXIF_Data" (metadata (extract_exif_data w (init path))) /\
  dict_get "HEIC_Metadata" md
  = dict_get "HEIC_Metadata" (metadata (extract_heic_metadata w (init path))) /\
  dict_get "File_System_Data" md
  = dict_get "File_System_Data" (metadata (extract_file_metadata w (init path))) /\
  dict_get "EXIF_Data" md = Some (stored_payload (exif_data w path)) /\
  dict_get "File_System_Data" md = Some (stored_payload (file_metadata w path)) /\
  dict_get "HEIC_Metadata" md =
    match heic_metadata w path with
    | Ok None => None
    | Ok (Some payload) => Some (PDict payload)
    | Raise e' => Some (PDict (error_payload e'))
    end /\
  after (extract_all w (init path)) = extract_steps w (init path).
Proof.
  intros H md. subst md. rewrite metadata_steps, after_extract_all.
  rewrite metadata_exif, metadata_heic, metadata_file. simpl image_path.
  assert (B : basic_info w path = Raise e) by (unfold basic_info; now rewrite H).
  rewrite B.
  destruct (heic_metadata w path) as [[p|]|e']; cbn; repeat split; reflexivity.
Qed.

Lemma decode_failure_is_isolated_witness :
  let md := metadata (extract_steps Sample.world_undecodable (init "photo.heic")) in
  dict_get "Basic_Info" md
  = Some (PDict [(KStr "Error", PStr "cannot identify image file 'photo.jpg'")]) /\
  dict_get "EXIF_Data" md = Some (PDict [(KStr "Info", PStr "No EXIF data found")]) /\
  dict_get "HEIC_Metadata" md = Some (PDict [(KStr "Exif", PBytes [x00])]) /\
  dict_get "File_System_Data" md
  = Some (PDict [(KStr "Error",
                  PStr "[Errno 2] No such file or directory: 'photo.jpg'")]).
Proof.
  intros md.
  destruct (@decode_failure_is_isolated Sample.world_undecodable "photo.heic"
              Sample.cannot_identify eq_refl)
    as (B & _ & _ & _ & X & F & H & _).
  split; [exact B | split; [exact X | split; [exact H | exact F]]].
Defined.

(** C9.  When the EXIF reader answers with a dictionary that is empty,
    EXIF_Data becomes [{"Info": "No EXIF data found"}], which is also what an
    answer of [None] gives: the test of the source is the truth value of the
    answer. *)
Theorem empty_exif_is_no_exif (w : World) (self : PhotoMetadataExtractor) (img : Image) :
  Image_open w in_exif_data (image_path self) = Ok img ->
  _getexif img = Ok (Some []) \/ _getexif img = Ok None ->
  extract_exif_data w self
  = store self "EXIF_Data" [(KStr "Info", PStr "No EXIF data found")].
Proof.
  intros O G. unfold extract_exif_data, exif_data. rewrite O. simpl.
  destruct G as [G|G]; rewrite G; reflexivity.
Qed.

Lemma empty_exif_is_no_exif_witness :
  metadata (extract_exif_data Sample.world_empty_exif (init "photo.jpg"))
  = [(KStr "EXIF_Data", PDict [(KStr "Info", PStr "No EXIF data found")])]
  /\ metadata (extract_exif_data Sample.world_undecodable (init "photo.jpg"))
     = metadata (extract_exif_data Sample.world_empty_exif (init "photo.jpg")).
Proof.
  rewrite (@empty_exif_is_no_exif Sample.world_empty_exif (init "photo.jpg")
             (Sample.image (Ok (Some []))) eq_refl (or_introl eq_refl)).
  rewrite (@empty_exif_is_no_exif Sample.world_undecodable (init "photo.jpg")
             (Sample.image (Ok None)) eq_refl (or_intror eq_refl)).
  split; reflexivity.
Defined.

(** ** The GPS block *)

Section Gps.

Lemma convert_to_degrees_cases (value : pyval) :
  (exists x, convert_to_degrees value = PFloat x) \/
  convert_to_degrees value = PStr (py_str value).
Proof.
  unfold convert_to_degrees, convert_to_degrees_try.
  destruct (unpack3 value) as [[[d m] s]|e]; simpl; [|now right].
  destruct (truediv_float m Float.sixty); simpl; [|now right].
  destruct (add_float d a); simpl; [|now right].
  destruct (truediv_float s Float.thirty_six_hundred); simpl; [|now right].
  left. eauto.
Qed.

(** no tag id is named like a key the function writes itself *)
Lemma tag_name_not_own (id : Z) (k : pykey) :
  In k own_keys -> pykey_eqb k (tag_name (table_get GPSTAGS) (KInt id)) = false.
Proof.
  intros H. simpl in H. unfold tag_name, GPSTAGS, table_get.
  repeat match goal with
         | |- context [if ?b then _ else _] =>
             destruct b;
             [repeat (destruct H as [<-|H]; [reflexivity|]); contradiction|]
         end.
  repeat (destruct H as [<-|H]; [reflexivity|]); contradiction.
Qed.

Variable items : pydict.
Hypothesis numeric : raw_gps_block items = true.

Lemma raw_key_is_id (key : pykey) : In key (dict_keys items) -> exists id, key = KInt id.
Proof.
  intros H. unfold raw_gps_block in numeric. rewrite forallb_forall in numeric.
  specialize (numeric key H). destruct key; [discriminate | eauto].
Qed.

(** One turn of the loop leaves alone the link, and keeps the coordinates
    decimal or text. *)
Lemma gps_tag_preserves (key : pykey) (g g' : pydict) :
  In key (dict_keys items) ->
  gps_tag items key g = Ok g' ->
  dict_mem "Google_Maps_Link" g' = dict_mem "Google_Maps_Link" g /\
  (is_coordinate (dict_get "Latitude" g) = true ->
   is_coordinate (dict_get "Latitude" g') = true) /\
  (is_coordinate (dict_get "Longitude" g) = true ->
   is_coordinate (dict_get "Longitude" g') = true).
Proof.
  intros K. destruct (raw_key_is_id key K) as [id ->].
  unfold gps_tag.
  set (value := dict_get_default (KInt id) PNone items).
  pose proof (@tag_name_not_own id) as T.
  destruct (pykey_eqb _ "GPSLatitude");
    [|destruct (pykey_eqb _ "GPSLongitude");
      [|destruct (pykey_eqb _ "GPSAltitude");
        [|destruct (pykey_eqb _ "GPSTimeStamp")]]].
  - intros E. inversion E. subst g'. clear E.
    rewrite !dict_mem_set_other by reflexivity.
    rewrite (@dict_get_set_other "Latitude" "LatitudeRef") by reflexivity.
    rewrite dict_get_set_same.
    rewrite !(@dict_get_set_other "Longitude") by reflexivity.
    repeat split; auto.
    intros _. destruct (convert_to_degrees_cases value) as [[x ->]| ->]; reflexivity.
  - intros E. inversion E. subst g'. clear E.
    rewrite !dict_mem_set_other by reflexivity.
    rewrite (@dict_get_set_other "Longitude" "LongitudeRef") by reflexivity.
    rewrite dict_get_set_same.
    rewrite !(@dict_get_set_other "Latitude") by reflexivity.
    repeat split; auto.
    intros _. destruct (convert_to_degrees_cases value) as [[x ->]| ->]; reflexivity.
  - destruct (py_float value); simpl; [|discriminate].
    intros E. inversion E. subst g'. clear E.
    rewrite dict_mem_set_other, !dict_get_set_other by reflexivity. auto.
  - intros E. inversion E. subst g'. clear E.
    rewrite dict_mem_set_other, !dict_get_set_other by reflexivity. auto.
  - intros E. inversion E. subst g'. clear E.
    rewrite dict_mem_set_other, !dict_get_set_other by (apply T; simpl; tauto). auto.
Qed.

Lemma gps_tags_preserve (keys : list pykey) (g g' : pydict) (e : option exn) :
  incl keys (dict_keys items) ->
  gps_tags items keys g = (g', e) ->
  dict_mem "Google_Maps_Link" g' = dict_mem "Google_Maps_Link" g /\
  (is_coordinate (dict_get "Latitude" g) = true ->
   is_coordinate (dict_get "Latitude" g') = true) /\
  (is_coordinate (dict_get "Longitude" g) = true ->
   is_coordinate (dict_get "Longitude" g') = true).
Proof.
  revert g. induction keys as [|key keys IH]; intros g I; simpl.
  - intros E. inversion E. subst. auto.
  - destruct (gps_tag items key g) as [g1|e1] eqn:S.
    + intros E.
      destruct (gps_tag_preserves key g g1 (I key (or_introl eq_refl)) S) as (L & A & B).
      destruct (IH g1 (fun k H => I k (or_intror H)) E) as (L' & A' & B').
      rewrite L', L. auto.
    + intros E. inversion E. subst. auto.
Qed.

(** the payload at the end of the loop *)
Lemma gps_loop_end (g : pydict) (e : option exn) :
  gps_tags items (dict_keys items) [] = (g, e) ->
  dict_mem "Google_Maps_Link" g = false /\
  is_coordinate (dict_get "Latitude" g) = true /\
  is_coordinate (dict_get "Longitude" g) = true.
Proof.
  intros E. destruct (gps_tags_preserve _ _ _ _ (incl_refl _) E) as (L & A & B).
  rewrite L. auto.
Qed.

End Gps.

(** C7.  For every raw GPS block (a dictionary keyed by tag ids), a payload
    of [extract_gps_info] that lacks the key Latitude or the key Longitude
    has no key Google_Maps_Link. *)
Theorem no_link_without_coordinates (items : pydict) :
  raw_gps_block items = true ->
  let gps_data := extract_gps_info (PDict items) in
  dict_mem "Latitude" gps_data = false \/ dict_mem "Longitude" gps_data = false ->
  dict_mem "Google_Maps_Link" gps_data = false.
Proof.
  intros N gps_data. subst gps_data. unfold extract_gps_info.
  destruct (gps_tags items (dict_keys items) []) as [g [e|]] eqn:L;
    destruct (gps_loop_end items N g _ L) as (NoLink & _ & _).
  - intros _. unfold gps_error. now rewrite dict_mem_set_other by reflexivity.
  - unfold gps_link, dict_mem.
    destruct (dict_get "Latitude" g) as [lat|] eqn:La;
      [destruct (dict_get "Longitude" g) as [lon|] eqn:Lo|].
    + destruct (if eq_str (dict_get "LatitudeRef" g) "S" then py_neg lat else Ok lat)
        as [lat'|e1]; simpl.
      * destruct (if eq_str (dict_get "LongitudeRef" g) "W" then py_neg lon else Ok lon)
          as [lon'|e2]; simpl.
        -- rewrite !(@dict_get_set_other _ "Google_Maps_Link") by reflexivity.
           rewrite La, Lo. intros [H|H]; discriminate.
        -- intros _. unfold gps_error.
           rewrite dict_get_set_other by reflexivity. exact NoLink.
      * intros _. unfold gps_error.
        rewrite dict_get_set_other by reflexivity. exact NoLink.
    + intros _. exact NoLink.
    + intros _. exact NoLink.
Qed.

Lemma no_link_without_coordinates_witness :
  dict_mem "Latitude" (extract_gps_info (PDict Sample.gps_latitude_only)) = true /\
  dict_mem "Google_Maps_Link" (extract_gps_info (PDict Sample.gps_latitude_only)) = false.
Proof.
  split; [reflexivity|].
  apply (@no_link_without_coordinates Sample.gps_latitude_only); [reflexivity|].
  right. reflexivity.
Defined.

(** C10.  When the loop over a raw GPS block ends with both Latitude and
    Longitude in the payload, and the latitude is a text with LatitudeRef
    "S" (or the longitude is a text with LongitudeRef "W"), the negation
    raises; [extract_gps_info] catches it and returns the payload of the loop
    with one more key, Error, holding the message, and without a
    Google_Maps_Link. *)
Theorem negating_a_text_coordinate_is_caught (items gps_data : pydict) :
  raw_gps_block items = true ->
  gps_tags items (dict_keys items) [] = (gps_data, None) ->
  dict_mem "Latitude" gps_data = true ->
  dict_mem "Longitude" gps_data = true ->
  ((exists s, dict_get "Latitude" gps_data = Some (PStr s)) /\
   eq_str (dict_get "LatitudeRef" gps_data) "S" = true) \/
  ((exists s, dict_get "Longitude" gps_data = Some (PStr s)) /\
   eq_str (dict_get "LongitudeRef" gps_data) "W" = true) ->
  let out := extract_gps_info (PDict items) in
  out = dict_set "Error" (PStr negation_of_str) gps_data /\
  dict_get "Error" out = Some (PStr negation_of_str) /\
  dict_mem "Google_Maps_Link" out = false /\
  forall k, pykey_eqb k "Error" = false -> dict_get k out = dict_get k gps_data.
Proof.
  intros N L MLa MLo C out.
  destruct (gps_loop_end items N gps_data None L) as (NoLink & CLa & CLo).
  assert (E : out = dict_set "Error" (PStr negation_of_str) gps_data).
  { subst out. unfold extract_gps_info. rewrite L. unfold gps_link.
    unfold dict_mem in MLa, MLo.
    destruct (dict_get "Latitude" gps_data) as [lat|]; [|discriminate].
    destruct (dict_get "Longitude" gps_data) as [lon|]; [|discriminate].
    destruct C as [[[s S] R]|[[s S] R]].
    - inversion S. subst lat. rewrite R. reflexivity.
    - inversion S. subst lon. rewrite R.
      destruct (eq_str (dict_get "LatitudeRef" gps_data) "S").
      + destruct lat; try discriminate; reflexivity.
      + reflexivity. }
  rewrite E. split; [reflexivity|]. split; [apply dict_get_set_same|].
  split.
  - now rewrite dict_mem_set_other by reflexivity.
  - intros k K. now apply dict_get_set_other.
Qed.

Lemma negating_a_text_coordinate_is_caught_witness :
  extract_gps_info (PDict Sample.gps_short_latitude)
  = [ (KStr "GPSLatitudeRef", PStr "S"); (KStr "Latitude", PStr "(10, 30)");
      (KStr "LatitudeRef", PStr "S"); (KStr "GPSLongitudeRef", PStr "E");
      (KStr "Longitude", PFloat (Float.of_Z 20)); (KStr "LongitudeRef", PStr "E");
      (KStr "Error", PStr "bad operand type for unary -: 'str'") ]
  /\ dict_get "Error" (extract_gps_info (PDict Sample.gps_short_longitude))
     = Some (PStr "bad operand type for unary -: 'str'")
  /\ dict_mem "Google_Maps_Link" (extract_gps_info (PDict Sample.gps_short_longitude))
     = false.
Proof.
  destruct (negating_a_text_coordinate_is_caught Sample.gps_short_latitude
              (fst (gps_tags Sample.gps_short_latitude
                      (dict_keys Sample.gps_short_latitude) [])))
    as (E & _); try reflexivity.
  { left. split; [exists "(10, 30)"|]; reflexivity. }
  destruct (negating_a_text_coordinate_is_caught Sample.gps_short_longitude
              (fst (gps_tags Sample.gps_short_longitude
                      (dict_keys Sample.gps_short_longitude) [])))
    as (_ & M & K & _); try reflexivity.
  { right. split; [exists "(20, 0)"|]; reflexivity. }
  split; [rewrite E; reflexivity|]. split; [exact M | exact K].
Defined.

(** C3, as the source has it.  When the loop ends without an exception with
    both Latitude and Longitude in the payload, and a coordinate that must
    change sign (LatitudeRef "S", LongitudeRef "W") is a decimal value rather
    than a text, the latitude is negated exactly when LatitudeRef is "S", the
    longitude exactly when LongitudeRef is "W", and the text
    https://maps.google.com/?q={lat},{lon} of these values is stored under
    Google_Maps_Link, every other key being kept.  With Latitude 10.5,
    LatitudeRef "S", Longitude 20.0 and LongitudeRef "E" the link ends in
    "-10.5,20.0". *)
Theorem maps_link_of_signed_coordinates :
  (forall (items gps_data : pydict) (lat lon : pyval),
     gps_tags items (dict_keys items) [] = (gps_data, None) ->
     dict_get "Latitude" gps_data = Some lat ->
     dict_get "Longitude" gps_data = Some lon ->
     let south := eq_str (dict_get "LatitudeRef" gps_data) "S" in
     let west := eq_str (dict_get "LongitudeRef" gps_data) "W" in
     (south = true -> exists x, lat = PFloat x) ->
     (west = true -> exists y, lon = PFloat y) ->
     extract_gps_info (PDict items)
     = dict_set "Google_Maps_Link"
         (PStr ("https://maps.google.com/?q=" ++ py_str (hemisphere south lat)
                ++ "," ++ py_str (hemisphere west lon)))
         gps_data) /\
  (forall (items gps_data : pydict),
     gps_tags items (dict_keys items) [] = (gps_data, None) ->
     dict_get "Latitude" gps_data = Some (PFloat (Float.of_decimal false 105 (-1))) ->
     dict_get "LatitudeRef" gps_data = Some (PStr "S") ->
     dict_get "Longitude" gps_data = Some (PFloat (Float.of_decimal false 200 (-1))) ->
     dict_get "LongitudeRef" gps_data = Some (PStr "E") ->
     dict_get "Google_Maps_Link" (extract_gps_info (PDict items))
     = Some (PStr "https://maps.google.com/?q=-10.5,20.0")).
Proof.
  assert (G : forall (items gps_data : pydict) (lat lon : pyval),
     gps_tags items (dict_keys items) [] = (gps_data, None) ->
     dict_get "Latitude" gps_data = Some lat ->
     dict_get "Longitude" gps_data = Some lon ->
     let south := eq_str (dict_get "LatitudeRef" gps_data) "S" in
     let west := eq_str (dict_get "LongitudeRef" gps_data) "W" in
     (south = true -> exists x, lat = PFloat x) ->
     (west = true -> exists y, lon = PFloat y) ->
     extract_gps_info (PDict items)
     = dict_set "Google_Maps_Link"
         (PStr ("https://maps.google.com/?q=" ++ py_str (hemisphere south lat)
                ++ "," ++ py_str (hemisphere west lon)))
         gps_data).
  { intros items gps_data lat lon L La Lo south west S W.
    unfold extract_gps_info. rewrite L. unfold gps_link. rewrite La, Lo.
    fold south west.
    destruct south.
    - destruct (S eq_refl) as [x ->]. simpl.
      destruct west.
      + destruct (W eq_refl) as [y ->]. reflexivity.
      + simpl. now destruct lon.
    - simpl. destruct west.
      + destruct (W eq_refl) as [y ->]. simpl. now destruct lat.
      + simpl. now destruct lat, lon. }
  split; [exact G|].
  intros items gps_data L La Ra Lo Ro.
  rewrite (G items gps_data _ _ L La Lo).
  - rewrite dict_get_set_same, Ra, Ro. vm_compute. reflexivity.
  - eauto.
  - rewrite Ro. discriminate.
Qed.

Lemma maps_link_of_signed_coordinates_witness :
  extract_gps_info (PDict Sample.gps_south_east)
  = [ (KStr "GPSLatitudeRef", PStr "S");
      (KStr "Latitude", PFloat (Float.of_decimal false 105 (-1)));
      (KStr "LatitudeRef", PStr "S"); (KStr "GPSLongitudeRef", PStr "E");
      (KStr "Longitude", PFloat (Float.of_Z 20)); (KStr "LongitudeRef", PStr "E");
      (KStr "Google_Maps_Link", PStr "https://maps.google.com/?q=-10.5,20.0") ]
  /\ dict_get "Google_Maps_Link" (extract_gps_info (PDict Sample.gps_south_east))
     = Some (PStr "https://maps.google.com/?q=-10.5,20.0").
Proof.
  split.
  - rewrite (proj1 maps_link_of_signed_coordinates Sample.gps_south_east
               (fst (gps_tags Sample.gps_south_east (dict_keys Sample.gps_south_east) []))
               (PFloat (Float.of_decimal false 105 (-1))) (PFloat (Float.of_Z 20))
               eq_refl eq_refl eq_refl).
    + vm_compute. reflexivity.
    + intros _. eexists. reflexivity.
    + intros H. vm_compute in H. discriminate.
  - apply (proj2 maps_link_of_signed_coordinates Sample.gps_south_east
             (fst (gps_tags Sample.gps_south_east (dict_keys Sample.gps_south_east) [])));
      reflexivity.
Defined.

(** C3 as stated fails: both coordinates are derived and LatitudeRef is "S",
    but the latitude is the text of a malformed value; no link is stored. *)
Lemma text_latitude_south_stores_no_link :
  let out := extract_gps_info (PDict Sample.gps_short_latitude) in
  dict_get "Latitude" out = Some (PStr "(10, 30)") /\
  dict_get "Longitude" out = Some (PFloat (Float.of_Z 20)) /\
  dict_get "LatitudeRef" out = Some (PStr "S") /\
  dict_mem "Google_Maps_Link" out = false.
Proof. vm_compute. repeat split. Qed.

(** ** Degrees, minutes and seconds *)




(** ** Saving *)

Section Json.

(** a dictionary is encoded member by member *)
Lemma json_encode_dict (g : pyval -> json) (l : pydict) :
  Forall (fun kv => json_encode (snd kv) = Ok (g (snd kv))) l ->
  json_encode (PDict l)
  = Ok (JObject (map (fun kv => (key_str (fst kv), g (snd kv))) l)).
Proof.
  induction 1 as [|[k x] l Hx Hl IH]; [reflexivity|].
  simpl in *. rewrite Hx. simpl.
  match type of IH with
  | bind ?r _ = _ => destruct r as [ms|e]; simpl in *; [|discriminate]
  end.
  inversion IH. reflexivity.
Qed.

(** what the inner [try] leaves always has an encoding *)
Lemma serializable_value_encodes (value : pyval) :
  json_encode (serializable_value value) = Ok (json_field value).
Proof.
  unfold serializable_value, json_field.
  destruct (json_encode value) eqn:E; [exact E | reflexivity].
Qed.

Lemma dict_set_fresh (k : pykey) (v : pyval) (d : pydict) :
  existsb (pykey_eqb k) (dict_keys d) = false -> dict_set k v d = (d ++ [(k, v)])%list.
Proof.
  induction d as [|[k' v'] d IH]; simpl; [reflexivity|].
  intros H. apply orb_false_iff in H. destruct H as [H1 H2].
  rewrite H1, IH by assumption. reflexivity.
Qed.

(** filling a dictionary key by key from a dictionary gives its image *)
Lemma fold_dict_set (f : pyval -> pyval) (d acc : pydict) :
  distinct (dict_keys d) = true ->
  (forall k, In k (dict_keys d) -> existsb (pykey_eqb k) (dict_keys acc) = false) ->
  fold_left (fun out kv => dict_set (fst kv) (f (snd kv)) out) d acc
  = (acc ++ map (fun kv => (fst kv, f (snd kv))) d)%list.
Proof.
  revert acc. induction d as [|[k v] d IH]; intros acc D F; simpl.
  - now rewrite app_nil_r.
  - simpl in D. apply andb_true_iff in D. destruct D as [D1 D2].
    rewrite dict_set_fresh by (apply F; simpl; auto).
    rewrite IH; [now rewrite <- app_assoc | assumption |].
    intros k' K'. unfold dict_keys. rewrite map_app, existsb_app. simpl.
    fold (dict_keys acc). rewrite (F k') by (simpl; auto). simpl. rewrite orb_false_r.
    destruct (pykey_eqb k' k) eqn:E; [|reflexivity].
    apply pykey_eqb_eq in E. subst k'.
    apply negb_true_iff in D1. rewrite <- D1. symmetry.
    clear - K'. induction (dict_keys d) as [|a l IHl]; [contradiction|].
    simpl. destruct K' as [->|K']; [now rewrite pykey_eqb_refl|].
    rewrite IHl by assumption. apply orb_true_r.
Qed.

Lemma json_encode_category (data : pyval) :
  match data with
  | PDict fields => distinct (dict_keys fields) = true
  | _ => True
  end ->
  json_encode (serializable_category data) = Ok (json_category data).
Proof.
  destruct data; try reflexivity. intros D. unfold serializable_category, json_category.
  rewrite fold_dict_set by (assumption || reflexivity). rewrite app_nil_l.
  rewrite (json_encode_dict json_field).
  - rewrite map_map. do 2 f_equal. apply map_ext. intros [k v]. simpl.
    unfold json_field at 1. now rewrite serializable_value_encodes.
  - apply Forall_forall. intros [k v] H. apply in_map_iff in H.
    destruct H as ([k' v'] & E & _). inversion E. subst. simpl.
    unfold json_field at 1. rewrite serializable_value_encodes. reflexivity.
Qed.

(** setting a value that has an encoding keeps a dictionary encodable *)
Lemma dict_set_encodable (k : pykey) (v : pyval) (d : pydict) :
  (exists j, json_encode v = Ok j) ->
  Forall (fun kv => exists j, json_encode (snd kv) = Ok j) d ->
  Forall (fun kv => exists j, json_encode (snd kv) = Ok j) (dict_set k v d).
Proof.
  intros V. induction 1 as [|[k' v'] d H F IH]; simpl.
  - constructor; [assumption | constructor].
  - destruct (pykey_eqb k k'); constructor; assumption.
Qed.

Lemma fold_dict_set_encodable (f : pyval -> pyval) (d acc : pydict) :
  (forall v, exists j, json_encode (f v) = Ok j) ->
  Forall (fun kv => exists j, json_encode (snd kv) = Ok j) acc ->
  Forall (fun kv => exists j, json_encode (snd kv) = Ok j)
    (fold_left (fun out kv => dict_set (fst kv) (f (snd kv)) out) d acc).
Proof.
  intros V. revert acc. induction d as [|[k v] d IH]; intros acc A; simpl; [assumption|].
  apply IH. apply dict_set_encodable; auto.
Qed.

Lemma encodable_dict (l : pydict) :
  Forall (fun kv => exists j, json_encode (snd kv) = Ok j) l ->
  exists j, json_encode (PDict l) = Ok j.
Proof.
  intros F. eexists.
  apply (json_encode_dict (fun v => match json_encode v with
                                    | Ok j => j
                                    | Raise _ => JNull
                                    end)).
  eapply Forall_impl; [|exact F]. intros kv [j E]. now rewrite E.
Qed.

Lemma serializable_category_encodes (data : pyval) :
  exists j, json_encode (serializable_category data) = Ok j.
Proof.
  destruct data; try (simpl; eauto; fail). unfold serializable_category.
  apply encodable_dict. apply fold_dict_set_encodable; [|constructor].
  intros v. rewrite serializable_value_encodes. eauto.
Qed.

(** the encoder never raises on what [save_to_json] hands it *)
Lemma serializable_metadata_encodes (md : pydict) :
  exists doc, json_encode (PDict (serializable_metadata md)) = Ok doc.
Proof.
  apply encodable_dict. apply fold_dict_set_encodable; [|constructor].
  apply serializable_category_encodes.
Qed.

Lemma serializable_metadata_document (md : pydict) :
  record_wf md = true ->
  json_encode (PDict (serializable_metadata md)) = Ok (json_record md).
Proof.
  unfold record_wf. intros W. apply andb_true_iff in W. destruct W as [W1 W2].
  unfold serializable_metadata.
  rewrite fold_dict_set by (assumption || reflexivity). rewrite app_nil_l.
  rewrite (json_encode_dict
             (fun v => match json_encode v with
                       | Ok j => j
                       | Raise _ => JNull
                       end)).
  - unfold json_record. rewrite map_map. do 2 f_equal.
    apply map_ext_in. intros [k v] H. simpl.
    rewrite forallb_forall in W2. specialize (W2 _ H). simpl in W2.
    rewrite json_encode_category; [reflexivity|]. now destruct v.
  - apply Forall_forall. intros [k v] H. apply in_map_iff in H.
    destruct H as ([k' v'] & E & _). inversion E. subst. simpl.
    destruct (serializable_category_encodes v') as [j J]. now rewrite J.
Qed.

End Json.

(** C5 does not hold of the code: one field can fail the whole save.  A
    file name with a byte that is no UTF-8 reaches the program as a text with
    a lone surrogate.  [json.dumps(value)] accepts the text, which it writes
    with an escape, so the field keeps its own form; [json.dump] with
    [ensure_ascii=False] then hands the surrogate to the UTF-8 file, which
    raises UnicodeEncodeError.  The handler around the whole save prints the
    error, and the file is left opened and incomplete. *)
Theorem lone_surrogate_fails_the_whole_save :
  let self := extract_steps Sample.world (init Sample.undecodable_name) in
  let name := PStr Sample.undecodable_name in
  (exists fields,
     dict_get "Basic_Info" (metadata self) = Some (PDict fields) /\
     dict_get "Filename" fields = Some name) /\
  json_encode name = Ok (JString Sample.undecodable_name) /\
  serializable_value name = name /\
  save_to_json Sample.world self None
  = (Truncated ("ph" ++ Sample.surrogate ++ "oto_metadata.json"),
     cross_mark ++ " Error menyimpan ke JSON: 'utf-8' codec can't encode character '"
     ++ backslash ++ "udcff' in position 3: surrogates not allowed").
Proof.
  cbv zeta. split; [|split; [|split]].
  - eexists. split; vm_compute; reflexivity.
  - reflexivity.
  - reflexivity.
  - vm_compute. reflexivity.
Qed.

(** ** The default output file *)

Section Splitext.

Lemma split_last_none (c : ascii) (s : string) :
  split_last c s = None <-> char_in c s = false.
Proof.
  induction s as [|a s IH]; simpl; [tauto|].
  destruct (split_last c s) as [[b r]|].
  - split; [discriminate|]. intros H. apply orb_false_iff in H.
    destruct H as [_ H]. apply IH in H. discriminate.
  - destruct (Ascii.eqb a c); simpl; [split; discriminate|].
    split; intros _; [now apply IH | reflexivity].
Qed.

(** the parts of a cut make up the text; the rest starts with the only [c]
    it has *)
Lemma split_last_some (c : ascii) (s before rest : string) :
  split_last c s = Some (before, rest) ->
  s = before ++ rest /\ exists t, rest = String c t /\ char_in c t = false.
Proof.
  revert before. induction s as [|a s IH]; intros before; simpl; [discriminate|].
  destruct (split_last c s) as [[b r]|] eqn:E.
  - intros H. inversion H. subst. destruct (IH b eq_refl) as (-> & t & -> & T).
    split; [reflexivity | eauto].
  - destruct (Ascii.eqb_spec a c) as [->|N]; [|discriminate].
    intros H. inversion H. subst. split; [reflexivity|].
    exists s. split; [reflexivity | now apply split_last_none].
Qed.

Lemma split_last_append (c : ascii) (a b : string) :
  split_last c (a ++ b) =
  match split_last c b with
  | Some (x, y) => Some (a ++ x, y)
  | None =>
      match split_last c a with
      | Some (x, y) => Some (x, y ++ b)
      | None => None
      end
  end.
Proof.
  induction a as [|d a IH]; simpl.
  - now destruct (split_last c b) as [[x y]|].
  - rewrite IH. destruct (split_last c b) as [[x y]|]; [reflexivity|].
    destruct (split_last c a) as [[x y]|]; [reflexivity|].
    now destruct (Ascii.eqb d c).
Qed.

(** the index of the last [c] is the length of what comes before it *)
Lemma rfind_from_split_last (c : ascii) (s : string) (i last : Z) :
  rfind_from c s i last =
  match split_last c s with
  | Some (before, _) => i + Z.of_nat (String.length before)
  | None => last
  end.
Proof.
  revert i last. induction s as [|a s IH]; intros i last; simpl; [reflexivity|].
  rewrite IH. destruct (split_last c s) as [[b r]|].
  - simpl String.length. lia.
  - destruct (Ascii.eqb a c); simpl; lia.
Qed.

Lemma substring_prefix (a b : string) : substring 0 (String.length a) (a ++ b) = a.
Proof. induction a; simpl; [now destruct b | congruence]. Qed.

Lemma basename_split_last (s : string) :
  basename s =
  match split_last "/" s with
  | Some (_, String _ name) => name
  | _ => s
  end.
Proof.
  induction s as [|a s IH]; simpl; [reflexivity|].
  destruct (split_last "/" s) as [[b r]|] eqn:E.
  - destruct (char_in "/" s) eqn:C.
    + rewrite IH. destruct (split_last_some _ _ _ _ E) as (_ & t & -> & _). reflexivity.
    + apply split_last_none in C. congruence.
  - apply split_last_none in E. rewrite E.
    now destruct (Ascii.eqb a "/").
Qed.

(** the loop over the file name finds a character that is not a dot exactly
    when the name is not made of dots *)
Lemma name_before_dot_all_dots (fuel : nat) (before name rest : string) :
  (String.length name < fuel)%nat ->
  name_before_dot fuel (before ++ name ++ rest)
    (Z.of_nat (String.length before))
    (Z.of_nat (String.length before + String.length name))
  = negb (all_dots name).
Proof.
  revert before name. induction fuel as [|fuel IH]; intros before name F; [lia|].
  destruct name as [|c name]; simpl name_before_dot.
  - rewrite Nat.add_0_r, Z.ltb_irrefl. reflexivity.
  - simpl String.length in *.
    replace (Z.of_nat (String.length before) <?
             Z.of_nat (String.length before + S (String.length name))) with true
      by (symmetry; apply Z.ltb_lt; lia).
    unfold slice.
    replace (Z.to_nat (Z.of_nat (String.length before) + 1
                       - Z.of_nat (String.length before))) with 1%nat by lia.
    rewrite Nat2Z.id, substring_skip.
    change (substring 0 1 (String c (name ++ rest)))
      with (String c (substring 0 0 (name ++ rest))).
    replace (substring 0 0 (name ++ rest)) with "" by now destruct (name ++ rest)%string.
    simpl all_dots. simpl String.eqb.
    destruct (Ascii.eqb c ".") eqn:D; simpl.
    + specialize (IH (before ++ String c "") name).
      rewrite append_assoc in IH. simpl in IH.
      rewrite length_append in IH. simpl in IH.
      replace (Z.of_nat (String.length before) + 1)
        with (Z.of_nat (String.length before + 1)) by lia.
      replace (String.length before + S (String.length name))%nat
        with (String.length before + 1 + String.length name)%nat by lia.
      apply IH. lia.
    + reflexivity.
Qed.

Lemma rfind_split_last (c : ascii) (s : string) :
  rfind c s =
  match split_last c s with
  | Some (before, _) => Z.of_nat (String.length before)
  | None => -1
  end.
Proof.
  unfold rfind. rewrite rfind_from_split_last.
  now destruct (split_last c s) as [[b r]|].
Qed.

Lemma slices_of_append (root ext : string) :
  (slice (root ++ ext) 0 (Z.of_nat (String.length root)),
   slice (root ++ ext) (Z.of_nat (String.length root))
     (Z.of_nat (String.length (root ++ ext))))
  = (root, ext).
Proof.
  unfold slice. rewrite Z.sub_0_r, Nat2Z.id. simpl Z.to_nat.
  rewrite substring_prefix, length_append.
  replace (Z.to_nat (Z.of_nat (String.length root + String.length ext)
                     - Z.of_nat (String.length root)))
    with (String.length ext) by lia.
  now rewrite substring_skip, substring_all.
Qed.

(** [os.path.splitext] cuts a path where the words say *)
Lemma splitext_split_extension (p : string) : splitext p = split_extension p.
Proof.
  unfold splitext, split_extension. rewrite !rfind_split_last.
  destruct (split_last "." p) as [[root ext]|] eqn:D.
  - destruct (split_last_some _ _ _ _ D) as (P & t & T & _).
    assert (SP : split_last "/" p =
                 match split_last "/" ext with
                 | Some (x, y) => Some (root ++ x, y)
                 | None =>
                     match split_last "/" root with
                     | Some (x, y) => Some (x, y ++ ext)
                     | None => None
                     end
                 end) by (rewrite P; apply split_last_append).
    rewrite SP. clear SP.
    destruct (split_last "/" ext) as [[x y]|] eqn:S.
    + (* a slash after the last dot *)
      assert (C : char_in "/" ext = true).
      { destruct (char_in "/" ext) eqn:C; [reflexivity|].
        apply split_last_none in C. congruence. }
      rewrite C. simpl orb.
      replace (Z.of_nat (String.length (root ++ x)) <? Z.of_nat (String.length root))
        with false; [reflexivity|].
      symmetry. apply Z.ltb_ge. rewrite length_append. lia.
    + assert (C : char_in "/" ext = false) by now apply split_last_none.
      rewrite C. simpl orb. rewrite basename_split_last.
      destruct (split_last "/" root) as [[x y]|] eqn:R.
      * destruct (split_last_some _ _ _ _ R) as (Q & name & -> & _).
        replace (Z.of_nat (String.length x) <? Z.of_nat (String.length root))
          with true
          by (symmetry; apply Z.ltb_lt; rewrite Q, length_append; simpl; lia).
        simpl andb.
        assert (N : name_before_dot (String.length p) p
                      (Z.of_nat (String.length x) + 1)
                      (Z.of_nat (String.length root))
                    = negb (all_dots name)).
        { rewrite P, Q.
          replace (((x ++ String "/" name) ++ ext)%string)
            with ((x ++ String "/" "") ++ name ++ ext)%string
            by (now rewrite !append_assoc).
          replace (Z.of_nat (String.length x) + 1)
            with (Z.of_nat (String.length (x ++ String "/" "")))
            by (rewrite length_append; simpl; lia).
          replace (Z.of_nat (String.length (x ++ String "/" name)))
            with (Z.of_nat (String.length (x ++ String "/" "") + String.length name))
            by (rewrite !length_append; simpl; lia).
          apply name_before_dot_all_dots.
          rewrite !length_append. rewrite T. simpl. lia. }
        rewrite N. destruct (all_dots name); simpl; [reflexivity|].
        rewrite P at 1 2 3. apply slices_of_append.
      * replace (-1 <? Z.of_nat (String.length root)) with true
          by (symmetry; apply Z.ltb_lt; lia).
        simpl andb.
        assert (N : name_before_dot (String.length p) p 0
                      (Z.of_nat (String.length root))
                    = negb (all_dots root)).
        { rewrite P.
          change ((root ++ ext)%string) with (("" ++ root ++ ext)%string).
          change 0 with (Z.of_nat (String.length "")) at 1.
          change (Z.of_nat (String.length root))
            with (Z.of_nat (String.length "" + String.length root)).
          apply name_before_dot_all_dots.
          simpl. rewrite length_append, T. simpl. lia. }
        rewrite N. destruct (all_dots root); simpl; [reflexivity|].
        rewrite P at 1 2 3. apply slices_of_append.
  - (* no dot at all *)
    replace (match split_last "/" p with
             | Some (before, _) => Z.of_nat (String.length before)
             | None => -1
             end <? -1) with false; [reflexivity|].
    symmetry. apply Z.ltb_ge. destruct (split_last "/" p) as [[x y]|]; lia.
Qed.

End Splitext.

Lemma split_extension_parts (path : string) :
  fst (split_extension path) ++ snd (split_extension path) = path.
Proof.
  unfold split_extension.
  destruct (split_last "." path) as [[root ext]|] eqn:D; simpl.
  - destruct (char_in "/" ext || all_dots (basename root)); simpl.
    + apply append_nil_r.
    + destruct (split_last_some _ _ _ _ D) as (P & _). now rewrite P.
  - apply append_nil_r.
Qed.

(** C8.  Without an output path, [save_to_json] takes the input path
    without its extension, followed by "_metadata.json": the file it opens,
    and writes when the world lets it, has that name. *)
Theorem default_output_file_strips_extension (w : World) (self : PhotoMetadataExtractor) :
  let root := fst (split_extension (image_path self)) in
  let ext := snd (split_extension (image_path self)) in
  image_path self = root ++ ext /\
  output_path self None = root ++ "_metadata.json" /\
  match fst (save_to_json w self None) with
  | Written path _ | Truncated path => path = root ++ "_metadata.json"
  | Untouched => exists e, open_for_writing w (root ++ "_metadata.json") = Raise e
  end.
Proof.
  intros root ext. subst root ext.
  split; [symmetry; apply split_extension_parts|].
  assert (O : output_path self None
              = fst (split_extension (image_path self)) ++ "_metadata.json").
  { unfold output_path, default_output_file. now rewrite splitext_split_extension. }
  split; [exact O|].
  unfold save_to_json. fold (output_path self None). rewrite O.
  destruct (open_for_writing w _) as [[]|e]; simpl; [|eauto].
  destruct (bind _ _); reflexivity.
Qed.

(** the default names of some paths *)
Lemma default_output_file_examples :
  map (fun path => output_path (init path) None)
    ["photo.jpg"; "shots/IMG_1.HEIC"; "archive.tar.gz"; ".hidden"; "dir.d/photo"; "a/..b"]
  = ["photo_metadata.json"; "shots/IMG_1_metadata.json"; "archive.tar_metadata.json";
     ".hidden_metadata.json"; "dir.d/photo_metadata.json"; "a/..b_metadata.json"].
Proof. vm_compute. reflexivity. Qed.

(** ** The model of floats on known values *)

Lemma float_repr_examples :
  map (fun me => Float.repr (Float.of_decimal false (fst me) (snd me)))
    [(105, -1); (200, -1); (1, -1); (1, 16); (1, 15); (1, -4); (1, -5); (1, 23);
     (5, -324); (17976931348623157, 292); (3, -1); (123456789012345678, 0)]
  = ["10.5"; "20.0"; "0.1"; "1e+16"; "1000000000000000.0"; "0.0001"; "1e-05"; "1e+23";
     "5e-324"; "1.7976931348623157e+308"; "0.3"; "1.2345678901234568e+17"].
Proof. vm_compute. reflexivity. Qed.

(** [str], [repr], [float] and the negation of fractions, as CPython answers *)
Lemma fraction_examples :
  map (fun v => (py_str v, py_repr v,
                 match py_float v with
                 | Ok f => Float.repr f
                 | Raise e => exn_class e
                 end,
                 match py_neg v with
                 | Ok v' => py_str v'
                 | Raise e => exn_class e
                 end))
    [ PFraction 1 3; PFraction (-7) 2; PFraction 4 2; PFraction 0 5;
      PFraction (2 ^ 53 + 1) 1; PFraction (10 ^ 25) 3; PFraction (10 ^ 30) (10 ^ 29) ]
  = [ ("1/3", "Fraction(1, 3)", "0.3333333333333333", "-1/3");
      ("-7/2", "Fraction(-7, 2)", "-3.5", "7/2");
      ("2", "Fraction(2, 1)", "2.0", "-2");
      ("0", "Fraction(0, 1)", "0.0", "0");
      ("9007199254740993", "Fraction(9007199254740993, 1)", "9007199254740992.0",
       "-9007199254740993");
      ("10000000000000000000000000/3", "Fraction(10000000000000000000000000, 3)",
       "3.3333333333333333e+24", "-10000000000000000000000000/3");
      ("10", "Fraction(10, 1)", "10.0", "-10") ].
Proof. vm_compute. reflexivity. Qed.

(** [float] of a text, as CPython 3.11 answers: white space and digits of
    other scripts are read, the separators <<\x1c>> to <<\x1f>> are not *)
Lemma py_float_examples :
  map (fun b => match py_float (PStr (string_of_list_byte b)) with
                | Ok f => Some (Float.repr f)
                | Raise _ => None
                end)
    [ [x20; x31; x30; x2e; x35; x20]; [x2d; x31; x65; x33]; [x31; x5f; x30; x30; x30; x2e; x35];
      [x2e; x35]; [x31; x2e]; [x69; x6e; x66];
      [x2d; x49; x6e; x66; x69; x6e; x69; x74; x79]; [x4e; x61; x4e]; [x31; x65; x34; x30; x30];
      [x31; x5f; x5f; x30]; [x31; x65]; [x2e];
      []; [x30; x78; x31; x30]; [x74; x65; x6e];
      [x1c; x31; x2e; x35]; [xc2; xa0; x31; x2e; x35; xe3; x80; x80]; [xd9; xa1; xd9; xa2; x2e;
        xd9; xa5];
      [xef; xbc; x91; x65; xef; xbc; x92]; [x31; xc2; xa0; x35]; [xf0; x9d; x9f; x99; xf0; x9d;
        x9f; xa2];
      [x31; x2e; x35; x7f]; [xd9; xa1; x1c] ]
  = [ Some "10.5"; Some "-1000.0"; Some "1000.5"; Some "0.5"; Some "1.0"; Some "inf";
      Some "-inf"; Some "nan"; Some "inf"; None; None; None;
      None; None; None; None; Some "1.5"; Some "12.5";
      Some "100.0"; None; Some "10.0"; None; None ].
Proof. vm_compute. reflexivity. Qed.

(** [repr] of a text, as CPython 3.11 answers: the characters that are not
    printable are written by their code points *)
Lemma str_repr_examples :
  map (fun b => list_byte_of_string (str_repr (string_of_list_byte b)))
    [ [x61; xc2; x85; x62]; [xc2; xa0]; [x78; xe2; x80; x8b; x79];
      [x63; x61; x66; xc3; xa9]; [xed; xb3; xbf]; [xf0; x9f; x94; x8d];
      [xee; x80; x80]; [xcd; xb8]; [x69; x74; x27; x73];
      [x71; x22; x27]; [x7f; x00; x09]; [xf3; xa0; x80; x81];
      [xef; xbf; xbf] ]
  = [ [x27; x61; x5c; x78; x38; x35; x62; x27]; [x27; x5c; x78; x61; x30; x27];
      [x27; x78; x5c; x75; x32; x30; x30; x62; x79; x27]; [x27; x63; x61; x66; xc3; xa9; x27];
      [x27; x5c; x75; x64; x63; x66; x66; x27]; [x27; xf0; x9f; x94; x8d; x27];
      [x27; x5c; x75; x65; x30; x30; x30; x27]; [x27; x5c; x75; x30; x33; x37; x38; x27];
      [x22; x69; x74; x27; x73; x22]; [x27; x71; x22; x5c; x27; x27];
      [x27; x5c; x78; x37; x66; x5c; x78; x30; x30; x5c; x74; x27]; [x27; x5c; x55; x30; x30;
        x30; x65; x30; x30; x30; x31; x27];
      [x27; x5c; x75; x66; x66; x66; x66; x27] ].
Proof. vm_compute. reflexivity. Qed.

(** [strip] of a text, as CPython answers: the white space of Unicode goes,
    the zero-width space stays *)
Lemma str_strip_examples :
  map (fun b => list_byte_of_string (str_strip (string_of_list_byte b)))
    [ [x20; x20; x70; x68; x6f; x74; x6f; x2e; x6a; x70; x67; x0a]; [xc2; xa0; x22; x70; x68;
      x6f; x74; x6f; x2e; x6a; x70; x67; x22; xe3; x80; x80];
      [xe2; x80; xa8; x78; x1f]; [xe2; x80; x8b; x78];
      [x78; xc2; x85]; [xe2; x80; x83; x20; x09];
      [] ]
  = [ [x70; x68; x6f; x74; x6f; x2e; x6a; x70; x67]; [x22; x70; x68; x6f; x74; x6f; x2e; x6a;
    x70; x67; x22];
      [x78]; [xe2; x80; x8b; x78];
      [x78]; [];
      [] ].
Proof. vm_compute. reflexivity. Qed.

(** the pieces [json.dump] writes for a document, as CPython 3.11 makes
    them *)
Lemma json_pieces_example :
  map list_byte_of_string
    (json_pieces 0
       (JObject
          [ ("Basic_Info",
             JObject
               [ ("Filename", JString "photo.jpg"); ("n", JInt (-1));
                 ("5", JArray [JInt 1; JString "a"; JArray [JInt 2; JObject []];
                               JObject [("k", JNull)]]);
                 ("e", JArray []); ("t", JBool true);
                 ("x", JFloat (Float.of_decimal false 15 (-1)));
                 ("s", JString (string_of_list_byte
                                  [x71; x22; x0a; x5c; x01; x7f; xc3; xa9; x2f])) ]);
            ("E", JString "No"); ("z", JObject []); ("i", JArray [JArray []]);
            ("nan", JFloat S754_nan); ("inf", JArray [JFloat (S754_infinity true)]) ]))
  = [ [x7b]; [x0a; x20; x20];
      [x22; x42; x61; x73; x69; x63; x5f; x49; x6e; x66; x6f; x22]; [x3a; x20]; [x7b];
      [x0a; x20; x20; x20; x20]; [x22; x46; x69; x6c; x65; x6e; x61; x6d; x65; x22];
      [x3a; x20]; [x22; x70; x68; x6f; x74; x6f; x2e; x6a; x70; x67; x22];
      [x2c; x0a; x20; x20; x20; x20]; [x22; x6e; x22]; [x3a; x20]; [x2d; x31];
      [x2c; x0a; x20; x20; x20; x20]; [x22; x35; x22]; [x3a; x20];
      [x5b; x0a; x20; x20; x20; x20; x20; x20; x31];
      [x2c; x0a; x20; x20; x20; x20; x20; x20; x22; x61; x22];
      [x2c; x0a; x20; x20; x20; x20; x20; x20];
      [x5b; x0a; x20; x20; x20; x20; x20; x20; x20; x20; x32];
      [x2c; x0a; x20; x20; x20; x20; x20; x20; x20; x20]; [x7b; x7d];
      [x0a; x20; x20; x20; x20; x20; x20]; [x5d];
      [x2c; x0a; x20; x20; x20; x20; x20; x20]; [x7b];
      [x0a; x20; x20; x20; x20; x20; x20; x20; x20]; [x22; x6b; x22]; [x3a; x20];
      [x6e; x75; x6c; x6c]; [x0a; x20; x20; x20; x20; x20; x20]; [x7d];
      [x0a; x20; x20; x20; x20]; [x5d]; [x2c; x0a; x20; x20; x20; x20]; [x22; x65; x22];
      [x3a; x20]; [x5b; x5d]; [x2c; x0a; x20; x20; x20; x20]; [x22; x74; x22];
      [x3a; x20]; [x74; x72; x75; x65]; [x2c; x0a; x20; x20; x20; x20]; [x22; x78; x22];
      [x3a; x20]; [x31; x2e; x35]; [x2c; x0a; x20; x20; x20; x20]; [x22; x73; x22];
      [x3a; x20];
      [x22; x71; x5c; x22; x5c; x6e; x5c; x5c; x5c; x75; x30; x30; x30; x31; x7f; xc3; xa9; x2f;
        x22];
      [x0a; x20; x20]; [x7d]; [x2c; x0a; x20; x20]; [x22; x45; x22]; [x3a; x20];
      [x22; x4e; x6f; x22]; [x2c; x0a; x20; x20]; [x22; x7a; x22]; [x3a; x20];
      [x7b; x7d]; [x2c; x0a; x20; x20]; [x22; x69; x22]; [x3a; x20];
      [x5b; x0a; x20; x20; x20; x20]; [x5b; x5d]; [x0a; x20; x20]; [x5d];
      [x2c; x0a; x20; x20]; [x22; x6e; x61; x6e; x22]; [x3a; x20]; [x4e; x61; x4e];
      [x2c; x0a; x20; x20]; [x22; x69; x6e; x66; x22]; [x3a; x20];
      [x5b; x0a; x20; x20; x20; x20; x2d; x49; x6e; x66; x69; x6e; x69; x74; x79];
      [x0a; x20; x20]; [x5d]; [x0a]; [x7d] ].
Proof. vm_compute. reflexivity. Qed.

(** what is left of a document with a lone surrogate, and the message of
    the exception, as CPython 3.11 gives them *)
Lemma json_dump_error_examples :
  map (fun doc => (list_byte_of_string (json_text doc),
                   option_map exn_msg (json_dump_error doc)))
    [ JObject [("Basic_Info", JObject [("Filename", JString Sample.undecodable_name)])];
      JObject [("B", JObject [("a", JArray [JString "x";
                 JString (string_of_list_byte [xed; xb3; xbf; xed; xb3; xbe; x79])])])];
      JObject [(string_of_list_byte [x6b; xed; xb2; x80], JInt 1)];
      JObject [("a", JString (string_of_list_byte [x71; x22; x0a; xed; xb2; x80]))];
      JObject [("a", JString "b")] ]
  = [ ([x7b; x0a; x20; x20; x22; x42; x61; x73; x69; x63; x5f; x49; x6e; x66; x6f; x22; x3a;
    x20; x7b; x0a; x20; x20; x20; x20; x22; x46; x69; x6c; x65; x6e; x61; x6d; x65; x22; x3a;
    x20],
       Some ("'utf-8' codec can't encode character '\udcff' in position 3: surrogates not allowed"));
      ([x7b; x0a; x20; x20; x22; x42; x22; x3a; x20; x7b; x0a; x20; x20; x20; x20; x22; x61;
        x22; x3a; x20; x5b; x0a; x20; x20; x20; x20; x20; x20; x22; x78; x22],
       Some ("'utf-8' codec can't encode characters in position 9-10: surrogates not allowed"));
      ([x7b; x0a; x20; x20],
       Some ("'utf-8' codec can't encode character '\udc80' in position 2: surrogates not allowed"));
      ([x7b; x0a; x20; x20; x22; x61; x22; x3a; x20],
       Some ("'utf-8' codec can't encode character '\udc80' in position 6: surrogates not allowed"));
      ([x7b; x0a; x20; x20; x22; x61; x22; x3a; x20; x22; x62; x22; x0a; x7d], None) ].
Proof. vm_compute. reflexivity. Qed.

(** ** Further properties: the steps *)

Section MoreSteps.

Variable w : World.

Lemma dict_set_same_value (k : pykey) (v : pyval) (d : pydict) :
  dict_get k d = Some v -> dict_set k v d = d.
Proof.
  induction d as [|[k' v'] d IH]; simpl; [discriminate|].
  destruct (pykey_eqb k k') eqn:E.
  - intros H. inversion H. reflexivity.
  - intros H. now rewrite IH.
Qed.

Lemma existsb_keys_set (a k : pykey) (v : pyval) (d : pydict) :
  existsb (pykey_eqb a) (dict_keys (dict_set k v d))
  = existsb (pykey_eqb a) (dict_keys d) || pykey_eqb a k.
Proof.
  induction d as [|[k' v'] d IH]; simpl.
  - now rewrite orb_false_r.
  - destruct (pykey_eqb k k') eqn:E; simpl.
    + apply pykey_eqb_eq in E. subst k'.
      destruct (pykey_eqb a k); simpl; [reflexivity | now rewrite orb_false_r].
    + rewrite IH. now rewrite orb_assoc.
Qed.

(** setting a key keeps the keys of a dictionary distinct *)
Lemma distinct_dict_set (k : pykey) (v : pyval) (d : pydict) :
  distinct (dict_keys d) = true -> distinct (dict_keys (dict_set k v d)) = true.
Proof.
  induction d as [|[k' v'] d IH]; simpl; [reflexivity|].
  intros H. apply andb_true_iff in H. destruct H as [H1 H2].
  destruct (pykey_eqb k k') eqn:E; simpl.
  - now rewrite H1, H2.
  - rewrite existsb_keys_set, IH by assumption.
    apply negb_true_iff in H1. rewrite H1. simpl.
    rewrite pykey_eqb_neq in E. rewrite andb_true_r. apply negb_true_iff.
    apply pykey_eqb_neq. congruence.
Qed.

Lemma distinct_fold_set (A : Type) (key : A -> pykey) (val : pydict -> A -> pyval)
  (items : list A) (acc : pydict) :
  distinct (dict_keys acc) = true ->
  distinct (dict_keys (fold_left (fun d x => dict_set (key x) (val d x) d) items acc))
  = true.
Proof.
  revert acc. induction items as [|x items IH]; intros acc H; simpl; [assumption|].
  apply IH. now apply distinct_dict_set.
Qed.

Lemma image_path_file self : image_path (extract_file_metadata w self) = image_path self.
Proof. unfold extract_file_metadata. now destruct (file_metadata w (image_path self)). Qed.

Lemma image_path_steps self : image_path (extract_steps w self) = image_path self.
Proof.
  unfold extract_steps.
  now rewrite image_path_file, image_path_heic, image_path_exif, image_path_basic.
Qed.

(** a step run on a record that already has what it stores changes nothing *)
Lemma basic_again self :
  dict_get "Basic_Info" (metadata self)
  = Some (stored_payload (basic_info w (image_path self))) ->
  extract_basic_info w self = self.
Proof.
  intros H. destruct self as [p md]. simpl in *.
  unfold extract_basic_info, store. simpl.
  destruct (basic_info w p); simpl in *; now rewrite dict_set_same_value.
Qed.

Lemma exif_again self :
  dict_get "EXIF_Data" (metadata self)
  = Some (stored_payload (exif_data w (image_path self))) ->
  extract_exif_data w self = self.
Proof.
  intros H. destruct self as [p md]. simpl in *.
  unfold extract_exif_data, store. simpl.
  destruct (exif_data w p); simpl in *; now rewrite dict_set_same_value.
Qed.

Lemma file_again self :
  dict_get "File_System_Data" (metadata self)
  = Some (stored_payload (file_metadata w (image_path self))) ->
  extract_file_metadata w self = self.
Proof.
  intros H. destruct self as [p md]. simpl in *.
  unfold extract_file_metadata, store. simpl.
  destruct (file_metadata w p); simpl in *; now rewrite dict_set_same_value.
Qed.

Lemma heic_again self :
  dict_get "HEIC_Metadata" (metadata (extract_heic_metadata w self))
  = dict_get "HEIC_Metadata" (metadata self) ->
  extract_heic_metadata w self = self.
Proof.
  destruct self as [p md]. unfold extract_heic_metadata, store. simpl.
  destruct (heic_metadata w p) as [[payload|]|e]; simpl; [|reflexivity|];
    rewrite dict_get_set_same; intros H; symmetry in H;
    now rewrite dict_set_same_value.
Qed.

End MoreSteps.

(** X1.  Each extraction step writes its own category and nothing else:
    every other category of the record is after the step what it was
    before. *)
Theorem steps_touch_their_own_category (w : World) (self : PhotoMetadataExtractor)
  (category : pykey) :
  (pykey_eqb category "Basic_Info" = false ->
   dict_get category (metadata (extract_basic_info w self))
   = dict_get category (metadata self)) /\
  (pykey_eqb category "EXIF_Data" = false ->
   dict_get category (metadata (extract_exif_data w self))
   = dict_get category (metadata self)) /\
  (pykey_eqb category "HEIC_Metadata" = false ->
   dict_get category (metadata (extract_heic_metadata w self))
   = dict_get category (metadata self)) /\
  (pykey_eqb category "File_System_Data" = false ->
   dict_get category (metadata (extract_file_metadata w self))
   = dict_get category (metadata self)).
Proof.
  rewrite metadata_basic, metadata_exif, metadata_heic, metadata_file.
  repeat split; intros N.
  - now apply dict_get_set_other.
  - now apply dict_get_set_other.
  - destruct (heic_metadata w (image_path self)) as [[p|]|e];
      [now apply dict_get_set_other | reflexivity | now apply dict_get_set_other].
  - now apply dict_get_set_other.
Qed.

Lemma steps_touch_their_own_category_witness :
  let self := extract_basic_info Sample.world_undecodable (init "photo.heic") in
  dict_get "Basic_Info"
    (metadata (extract_file_metadata Sample.world_undecodable
                 (extract_heic_metadata Sample.world_undecodable
                    (extract_exif_data Sample.world_undecodable self))))
  = dict_get "Basic_Info" (metadata self).
Proof.
  intros self.
  destruct (steps_touch_their_own_category Sample.world_undecodable
              (extract_heic_metadata Sample.world_undecodable
                 (extract_exif_data Sample.world_undecodable self)) "Basic_Info")
    as (_ & _ & _ & F).
  destruct (steps_touch_their_own_category Sample.world_undecodable
              (extract_exif_data Sample.world_undecodable self) "Basic_Info")
    as (_ & _ & H & _).
  destruct (steps_touch_their_own_category Sample.world_undecodable self "Basic_Info")
    as (_ & X & _ & _).
  rewrite (F eq_refl), (H eq_refl), (X eq_refl). reflexivity.
Defined.

(** X2.  Extraction can be repeated: running the four steps on an extractor
    that has already run them, the world answering as before, leaves the
    extractor as it is (no category is doubled or moved). *)
Theorem extract_steps_twice (w : World) (self : PhotoMetadataExtractor) :
  extract_steps w (extract_steps w self) = extract_steps w self.
Proof.
  set (s1 := extract_steps w self).
  assert (P : image_path s1 = image_path self) by apply image_path_steps.
  assert (M : metadata s1 =
              dict_set "File_System_Data" (stored_payload (file_metadata w (image_path self)))
                (metadata (extract_heic_metadata w
                   (extract_exif_data w (extract_basic_info w self))))).
  { subst s1. unfold extract_steps. rewrite metadata_file.
    now rewrite image_path_heic, image_path_exif, image_path_basic. }
  assert (H0 : forall k, pykey_eqb k "HEIC_Metadata" = false ->
                dict_get k (metadata (extract_heic_metadata w
                   (extract_exif_data w (extract_basic_info w self))))
                = dict_get k (metadata (extract_exif_data w (extract_basic_info w self)))).
  { intros k N. rewrite metadata_heic.
    destruct (heic_metadata w _) as [[p|]|e];
      [now apply dict_get_set_other | reflexivity | now apply dict_get_set_other]. }
  assert (B : extract_basic_info w s1 = s1).
  { apply basic_again. rewrite P, M.
    rewrite dict_get_set_other, H0, metadata_exif, dict_get_set_other by reflexivity.
    rewrite metadata_basic. apply dict_get_set_same. }
  assert (X : extract_exif_data w s1 = s1).
  { apply exif_again. rewrite P, M.
    rewrite dict_get_set_other, H0, metadata_exif by reflexivity.
    rewrite image_path_basic. apply dict_get_set_same. }
  assert (H : extract_heic_metadata w s1 = s1).
  { apply heic_again. rewrite metadata_heic, P, M.
    pose proof (metadata_heic w (extract_exif_data w (extract_basic_info w self))) as Q.
    rewrite image_path_exif, image_path_basic in Q.
    destruct (heic_metadata w (image_path self)) as [[p|]|e]; [|reflexivity|];
      rewrite dict_get_set_same, dict_get_set_other, Q by reflexivity;
      now rewrite dict_get_set_same. }
  assert (F : extract_file_metadata w s1 = s1).
  { apply file_again. rewrite P, M. apply dict_get_set_same. }
  unfold extract_steps at 1. now rewrite B, X, H, F.
Qed.

(** ** Further properties: the record and its display *)

Section Record.

Variable w : World.

Lemma exif_fold_distinct (items acc : pydict) :
  distinct (dict_keys acc) = true ->
  distinct (dict_keys (fold_left (exif_tag w) items acc)) = true.
Proof.
  revert acc. induction items as [|[k v] items IH]; intros acc H; simpl; [assumption|].
  apply IH. destruct (pykey_eqb (tag_name (TAGS w) k) "GPSInfo");
    now apply distinct_dict_set.
Qed.

Lemma stored_payload_distinct (r : result pydict) :
  (forall payload, r = Ok payload -> distinct (dict_keys payload) = true) ->
  match stored_payload r with
  | PDict fields => distinct (dict_keys fields)
  | _ => true
  end = true.
Proof. destruct r as [payload|e]; simpl; [intros H; now apply H | reflexivity]. Qed.

Lemma basic_info_distinct (path : string) (payload : pydict) :
  basic_info w path = Ok payload -> distinct (dict_keys payload) = true.
Proof.
  unfold basic_info.
  destruct (Image_open w in_basic_info path); simpl; [|discriminate].
  destruct (getsize w path); simpl; [|discriminate].
  intros H. inversion H. reflexivity.
Qed.

Lemma exif_data_distinct (path : string) (payload : pydict) :
  exif_data w path = Ok payload -> distinct (dict_keys payload) = true.
Proof.
  unfold exif_data.
  destruct (Image_open w in_exif_data path) as [img|]; simpl; [|discriminate].
  destruct (_getexif img) as [[[|item items]|]|]; simpl; try discriminate;
    intros H; inversion H; try reflexivity.
  apply (exif_fold_distinct items). destruct item as [k v]. unfold exif_tag.
  now destruct (pykey_eqb (tag_name (TAGS w) k) "GPSInfo").
Qed.

Lemma file_metadata_distinct (path : string) (payload : pydict) :
  file_metadata w path = Ok payload -> distinct (dict_keys payload) = true.
Proof.
  unfold file_metadata. destruct (os_stat w path); simpl; [|discriminate].
  intros H. inversion H. reflexivity.
Qed.

Lemma heic_metadata_distinct (path : string) (payload : pydict) :
  heic_metadata w path = Ok (Some payload) -> distinct (dict_keys payload) = true.
Proof.
  unfold heic_metadata. destruct (is_heic path); [|discriminate].
  destruct (read_heif w path) as [items|]; simpl; [|discriminate].
  intros H. inversion H.
  apply (distinct_fold_set (string * pyval) (fun item => KStr (fst item))
           (fun _ item => snd item)).
  reflexivity.
Qed.

(** the record of a full extraction is made of dictionaries *)
Lemma extraction_record_wf (path : string) :
  record_wf (metadata (extract_steps w (init path))) = true.
Proof.
  rewrite metadata_steps. unfold record_wf.
  pose proof (stored_payload_distinct _ (basic_info_distinct path)) as B.
  pose proof (stored_payload_distinct _ (exif_data_distinct path)) as X.
  pose proof (stored_payload_distinct _ (file_metadata_distinct path)) as F.
  pose proof (heic_metadata_distinct path) as H.
  destruct (heic_metadata w path) as [[p|]|e]; cbn -[stored_payload];
    rewrite B, X, F; try rewrite (H p eq_refl); reflexivity.
Qed.

(** the fields of one category are shown until a key is a tag id *)
Lemma display_fields_raises (fields : pydict) :
  snd (display_fields fields)
  = if forallb (fun f => negb (is_tag_id (fst f))) fields then None
    else Some not_iterable.
Proof.
  induction fields as [|[k v] fields IH]; simpl; [reflexivity|].
  destruct k as [s|z]; simpl.
  - unfold display_field. simpl.
    destruct (String.eqb s "Google_Maps_Link");
      [|destruct (str_contains s "GPS" || str_contains s "Location")];
      destruct (display_fields fields) as [out e]; simpl in *; exact IH.
  - reflexivity.
Qed.

Lemma display_categories_raises (md : pydict) :
  snd (display_categories md) = if text_keys md then None else Some not_iterable.
Proof.
  induction md as [|[c data] md IH]; simpl; [reflexivity|].
  destruct data; simpl;
    try (destruct (display_categories md) as [out e]; simpl in *; exact IH).
  pose proof (display_fields_raises items) as D.
  destruct (display_fields items) as [out [e|]]; simpl in D;
    destruct (forallb _ items); simpl; try discriminate.
  - congruence.
  - destruct (display_categories md) as [out' e']; simpl in *; exact IH.
Qed.

Lemma display_metadata_raises (self : PhotoMetadataExtractor) :
  snd (display_metadata self)
  = if text_keys (metadata self) then None else Some not_iterable.
Proof.
  unfold display_metadata.
  pose proof (display_categories_raises (metadata self)) as D.
  destruct (display_categories (metadata self)) as [out e]. exact D.
Qed.

Lemma returned_extract_all (self : PhotoMetadataExtractor) :
  returned (extract_all w self)
  = if text_keys (metadata (extract_steps w self))
    then Ok (metadata (extract_steps w self))
    else Raise not_iterable.
Proof.
  unfold extract_all.
  pose proof (display_metadata_raises (extract_steps w self)) as D.
  destruct (display_metadata (extract_steps w self)) as [out e]. simpl in *.
  rewrite D. now destruct (text_keys _).
Qed.

(** a key that was stored is still there at the end of the loop over the
    EXIF tags *)
Lemma exif_fold_mem (items acc : pydict) (k : pykey) :
  dict_mem k acc = true \/ (exists item, In item items /\ tag_name (TAGS w) (fst item) = k) ->
  dict_mem k (fold_left (exif_tag w) items acc) = true.
Proof.
  revert acc. induction items as [|[k' v'] items IH]; intros acc H; simpl.
  - destruct H as [H|(item & [] & _)]. exact H.
  - apply IH.
    assert (S : forall v d, dict_mem k (dict_set (tag_name (TAGS w) k') v d) = true
                            \/ pykey_eqb k (tag_name (TAGS w) k') = false).
    { intros v d. destruct (pykey_eqb k (tag_name (TAGS w) k')) eqn:E; [left|now right].
      apply pykey_eqb_eq in E. subst k. unfold dict_mem. now rewrite dict_get_set_same. }
    unfold exif_tag.
    destruct H as [H|(item & [<-|I] & T)].
    + left. destruct (pykey_eqb (tag_name (TAGS w) k') "GPSInfo");
        (destruct (S (PDict (extract_gps_info v')) acc) as [M|N];
         [| rewrite dict_mem_set_other by exact N; exact H]);
        try exact M.
      all: destruct (pykey_eqb k (tag_name (TAGS w) k')) eqn:E;
        [apply pykey_eqb_eq in E; subst k; unfold dict_mem; now rewrite dict_get_set_same
        | now rewrite dict_mem_set_other].
    + left. simpl in T. subst k.
      destruct (pykey_eqb (tag_name (TAGS w) k') "GPSInfo");
        unfold dict_mem; now rewrite dict_get_set_same.
    + right. eauto.
Qed.

Lemma dict_mem_in_keys (k : pykey) (d : pydict) :
  dict_mem k d = true -> In k (dict_keys d).
Proof.
  unfold dict_mem. induction d as [|[k' v'] d IH]; simpl; [discriminate|].
  destruct (pykey_eqb k k') eqn:E.
  - apply pykey_eqb_eq in E. auto.
  - auto.
Qed.

End Record.

Lemma keys_of_steps (w : World) (path : string) :
  dict_keys (metadata (extract_steps w (init path))) = categories path.
Proof.
  rewrite metadata_steps. unfold categories.
  pose proof (heic_metadata_skipped w path) as S.
  destruct (heic_metadata w path) as [[p|]|e]; destruct (is_heic path);
    try reflexivity;
    destruct S as [S1 S2]; (discriminate (S2 eq_refl) || discriminate (S1 eq_refl)).
Qed.

(** X3.  Saving after a full extraction, when the output file can be opened
    and written, writes a JSON object whose member names are the categories
    of the record, in their order, each holding the document of its
    category.  The one document that does not reach the file is one with a
    text that UTF-8 cannot encode: the file is then left incomplete. *)
Theorem saved_document_has_the_categories (w : World) (path : string)
  (output_file : option string) :
  let self := after (extract_all w (init path)) in
  let target := output_path self output_file in
  open_for_writing w target = Ok tt ->
  write_text w target = Ok tt ->
  fst (save_to_json w self output_file)
  = match json_dump_error (json_record (metadata self)) with
    | None => Written target (json_record (metadata self))
    | Some _ => Truncated target
    end /\
  match json_record (metadata self) with
  | JObject members => map fst members = map key_str (categories path)
  | _ => False
  end.
Proof.
  intros self target O W. subst self target. rewrite after_extract_all in *.
  split.
  - unfold save_to_json. fold (output_path (extract_steps w (init path)) output_file).
    rewrite O.
    rewrite (serializable_metadata_document _ (extraction_record_wf w path)).
    simpl. destruct (json_dump_error _); simpl; [reflexivity|].
    rewrite W. reflexivity.
  - unfold json_record. rewrite map_map. simpl.
    rewrite <- (keys_of_steps w path). unfold dict_keys. now rewrite map_map.
Qed.

Lemma saved_document_has_the_categories_witness :
  exists doc,
    fst (save_to_json Sample.world_heic
           (after (extract_all Sample.world_heic (init "IMG_1.HEIC"))) None)
    = Written "IMG_1_metadata.json" (JObject doc) /\
    map fst doc = ["Basic_Info"; "EXIF_Data"; "HEIC_Metadata"; "File_System_Data"].
Proof.
  destruct (saved_document_has_the_categories Sample.world_heic "IMG_1.HEIC" None
              eq_refl eq_refl) as [S K].
  eexists. split; [rewrite S; vm_compute; reflexivity | reflexivity].
Defined.


(** a tag id without a name ends the run of [extract_all] in the display *)
Lemma unknown_tag_run (w : World) (path : string) (img : Image)
  (items : pydict) (id : Z) :
  Image_open w in_exif_data path = Ok img ->
  _getexif img = Ok (Some items) ->
  In (KInt id) (dict_keys items) ->
  TAGS w id = None ->
  returned (extract_all w (init path)) = Raise not_iterable /\
  after (extract_all w (init path)) = extract_steps w (init path) /\
  exists payload,
    dict_get "EXIF_Data" (metadata (extract_steps w (init path))) = Some (PDict payload) /\
    dict_mem (KInt id) payload = true.
Proof.
  intros O G I T.
  assert (X : exists payload, exif_data w path = Ok payload /\
                              dict_mem (KInt id) payload = true).
  { unfold exif_data. rewrite O. simpl. rewrite G. simpl.
    destruct items as [|item items]; [contradiction|].
    exists (fold_left (exif_tag w) (item :: items) []). split; [reflexivity|].
    apply exif_fold_mem. right.
    apply in_map_iff in I. destruct I as (it & E & I).
    exists it. split; [exact I|]. rewrite E. simpl. now rewrite T. }
  destruct X as (payload & X & M).
  assert (D : dict_get "EXIF_Data" (metadata (extract_steps w (init path)))
              = Some (PDict payload)).
  { rewrite metadata_steps, X. now destruct (heic_metadata w path) as [[p|]|e]. }
  split; [|split; [apply after_extract_all | eauto]].
  rewrite returned_extract_all.
  replace (text_keys (metadata (extract_steps w (init path)))) with false; [reflexivity|].
  symmetry. rewrite metadata_steps, X.
  assert (F : forallb (fun f => negb (is_tag_id (fst f))) payload = false).
  { apply dict_mem_in_keys in M. apply in_map_iff in M.
    destruct M as ([k v] & E & M). simpl in E. subst k.
    destruct (forallb _ payload) eqn:F; [|reflexivity].
    rewrite forallb_forall in F. specialize (F _ M). discriminate. }
  unfold text_keys. change (stored_payload (Ok payload)) with (PDict payload).
  destruct (heic_metadata w path) as [[p|]|e]; cbn -[stored_payload];
    rewrite F; simpl; now rewrite andb_false_r.
Qed.

(** X5.  When the EXIF block holds a tag id that the tag table has no name
    for, the four steps still build the record, but [extract_all] does not
    return it: the display raises a TypeError, which [extract_all] lets
    through. *)
Theorem unknown_exif_tag_breaks_extract_all (w : World) (path : string) (img : Image)
  (items : pydict) (id : Z) :
  Image_open w in_exif_data path = Ok img ->
  _getexif img = Ok (Some items) ->
  In (KInt id) (dict_keys items) ->
  TAGS w id = None ->
  returned (extract_all w (init path)) = Raise not_iterable /\
  after (extract_all w (init path)) = extract_steps w (init path) /\
  exists payload,
    dict_get "EXIF_Data" (metadata (extract_steps w (init path))) = Some (PDict payload) /\
    dict_mem (KInt id) payload = true.
Proof. apply unknown_tag_run. Qed.

Lemma unknown_exif_tag_breaks_extract_all_witness :
  returned (extract_all Sample.world_unknown_tag (init "photo.jpg"))
  = Raise (TypeError "argument of type 'int' is not iterable")
  /\ dict_keys (metadata (after (extract_all Sample.world_unknown_tag (init "photo.jpg"))))
     = [KStr "Basic_Info"; KStr "EXIF_Data"; KStr "File_System_Data"].
Proof.
  destruct (unknown_exif_tag_breaks_extract_all Sample.world_unknown_tag "photo.jpg"
              (Sample.image (Ok (Some [ (KInt 271, PStr "Canon");
                                        (KInt 59932, PInt 7) ])))
              [ (KInt 271, PStr "Canon"); (KInt 59932, PInt 7) ] 59932
              eq_refl eq_refl (or_intror (or_introl eq_refl)) eq_refl)
    as (R & A & _).
  split; [exact R | rewrite A; reflexivity].
Defined.

(** ** Further properties: EXIF values and container items *)

Section Values.

Variable w : World.

Lemma dict_set_values (P : pyval -> Prop) (k : pykey) (v : pyval) (d : pydict) :
  P v -> Forall (fun kv => P (snd kv)) d -> Forall (fun kv => P (snd kv)) (dict_set k v d).
Proof.
  intros V. induction 1 as [|[k' v'] d H F IH]; simpl.
  - constructor; [assumption | constructor].
  - destruct (pykey_eqb k k'); constructor; assumption.
Qed.

Lemma dict_get_in (k : pykey) (v : pyval) (d : pydict) :
  dict_get k d = Some v -> exists k', In (k', v) d.
Proof.
  induction d as [|[k' v'] d IH]; simpl; [discriminate|].
  destruct (pykey_eqb k k').
  - intros H. inversion H. subst. eauto.
  - intros H. destruct (IH H) as [k'' I]. eauto.
Qed.

Lemma exif_fold_no_bytes (items acc : pydict) :
  Forall (fun kv => is_bytes (snd kv) = false) acc ->
  Forall (fun kv => is_bytes (snd kv) = false) (fold_left (exif_tag w) items acc).
Proof.
  revert acc. induction items as [|[k v] items IH]; intros acc A; simpl; [assumption|].
  apply IH. destruct (pykey_eqb (tag_name (TAGS w) k) "GPSInfo").
  - now apply (dict_set_values (fun x => is_bytes x = false)).
  - apply (dict_set_values (fun x => is_bytes x = false)); [now destruct v | assumption].
Qed.

Lemma decode_ignore_ascii (s : string) :
  ascii_text s = true -> decode_ignore 0 s = s.
Proof.
  induction s as [|c s IH]; simpl; [reflexivity|].
  intros H. apply andb_true_iff in H. destruct H as [C H].
  unfold utf8_length. rewrite C. now rewrite IH.
Qed.

(** the lookup in a dictionary filled item by item finds the last item of
    the key *)
Lemma heic_fold_lookup (type : string) (items : list (string * pyval)) (acc : pydict) :
  dict_get (KStr type)
    (fold_left (fun metadata item => dict_set (KStr (fst item)) (snd item) metadata)
       items acc)
  = match last_of_type type items with
    | Some data => Some data
    | None => dict_get (KStr type) acc
    end.
Proof.
  revert acc. induction items as [|[t d] items IH]; intros acc; simpl; [reflexivity|].
  rewrite IH. destruct (last_of_type type items); [reflexivity|].
  destruct (String.eqb type t) eqn:E.
  - apply String.eqb_eq in E. subst t. apply dict_get_set_same.
  - now apply dict_get_set_other.
Qed.

End Values.

(** X6.  No field of EXIF_Data is a byte string: the loop over the EXIF tags
    stores a text for every raw value that is one (a GPS block is stored as
    the mapping [extract_gps_info] makes of it). *)
Theorem exif_fields_are_never_bytes (w : World) (path : string) (payload : pydict)
  (key : pykey) (value : pyval) :
  exif_data w path = Ok payload ->
  dict_get key payload = Some value ->
  is_bytes value = false.
Proof.
  unfold exif_data.
  destruct (Image_open w in_exif_data path) as [img|]; simpl; [|discriminate].
  destruct (_getexif img) as [[items|]|]; simpl; [| |discriminate].
  - intros E G.
    assert (F : Forall (fun kv => is_bytes (snd kv) = false) payload).
    { destruct items as [|item items]; inversion E.
      - repeat constructor.
      - apply (exif_fold_no_bytes w (item :: items)). constructor. }
    destruct (dict_get_in _ _ _ G) as [k' I].
    rewrite Forall_forall in F. exact (F _ I).
  - intros E G. inversion E. subst. simpl in G.
    destruct (pykey_eqb key "Info"); inversion G. reflexivity.
Qed.

Lemma exif_fields_are_never_bytes_witness :
  dict_get "MakerNote" (fold_left (exif_tag Sample.world)
                          [ (KInt 271, PStr "Canon"); (KInt 34853, PDict Sample.gps_south_east);
                            (KInt 37500, PBytes [x41; xff]) ] [])
  = Some (PStr "A") /\ is_bytes (PStr "A") = false.
Proof.
  split; [reflexivity|].
  apply (exif_fields_are_never_bytes Sample.world "photo.jpg" _ "MakerNote" (PStr "A")
           eq_refl eq_refl).
Defined.

(** X7.  A raw EXIF value that is a byte string of ASCII characters is
    stored, under the name of its tag, as the text of the same characters. *)
Theorem ascii_bytes_are_stored_as_their_text (w : World) (exif_dict : pydict)
  (tag_id : pykey) (b : list byte) :
  ascii_text (string_of_list_byte b) = true ->
  pykey_eqb (tag_name (TAGS w) tag_id) "GPSInfo" = false ->
  dict_get (tag_name (TAGS w) tag_id) (exif_tag w exif_dict (tag_id, PBytes b))
  = Some (PStr (string_of_list_byte b)).
Proof.
  intros A N. unfold exif_tag. rewrite N, dict_get_set_same.
  unfold utf8_decode_ignore. now rewrite decode_ignore_ascii.
Qed.

Lemma ascii_bytes_are_stored_as_their_text_witness :
  dict_get "Make" (exif_tag Sample.world [] (KInt 271, PBytes [x43; x61; x6e; x6f; x6e]))
  = Some (PStr "Canon").
Proof.
  apply (ascii_bytes_are_stored_as_their_text Sample.world [] (KInt 271)
           [x43; x61; x6e; x6f; x6e]); reflexivity.
Defined.

(** X8.  When the path is of the container family and the container reader
    answers, HEIC_Metadata maps every type to the data of the last item of
    that type; the types of no item are absent. *)
Theorem heic_items_last_wins (w : World) (self : PhotoMetadataExtractor)
  (items : list (string * pyval)) :
  is_heic (image_path self) = true ->
  read_heif w (image_path self) = Ok items ->
  exists payload,
    dict_get "HEIC_Metadata" (metadata (extract_heic_metadata w self))
    = Some (PDict payload) /\
    forall type, dict_get (KStr type) payload = last_of_type type items.
Proof.
  intros H R. rewrite metadata_heic. unfold heic_metadata. rewrite H, R. simpl.
  eexists. split; [apply dict_get_set_same|].
  intros type. rewrite heic_fold_lookup. simpl.
  now destruct (last_of_type type items).
Qed.

Lemma heic_items_last_wins_witness :
  dict_get "HEIC_Metadata"
    (metadata (extract_heic_metadata Sample.world_heic (init "IMG_1.HEIC")))
  = Some (PDict [ (KStr "Exif", PBytes [x01]); (KStr "mime", PStr "xmp") ]).
Proof.
  destruct (heic_items_last_wins Sample.world_heic (init "IMG_1.HEIC")
              [ ("Exif", PBytes [x00]); ("mime", PStr "xmp"); ("Exif", PBytes [x01]) ]
              eq_refl eq_refl) as (payload & P & _).
  rewrite P. vm_compute in P. inversion P. reflexivity.
Defined.

(** ** Further properties: the GPS payload *)

Section MoreGps.

Variable items : pydict.
Hypothesis numeric : raw_gps_block items = true.

(** a turn of the loop stores a reference beside the coordinate it stores *)
Lemma gps_tag_references (key : pykey) (g g' : pydict) :
  In key (dict_keys items) ->
  gps_tag items key g = Ok g' ->
  (dict_mem "Latitude" g = true ->
   dict_get "LatitudeRef" g = Some (dict_get_default (KInt 1) (PStr "Unknown") items)) ->
  (dict_mem "Longitude" g = true ->
   dict_get "LongitudeRef" g = Some (dict_get_default (KInt 3) (PStr "Unknown") items)) ->
  (dict_mem "Latitude" g' = true ->
   dict_get "LatitudeRef" g' = Some (dict_get_default (KInt 1) (PStr "Unknown") items)) /\
  (dict_mem "Longitude" g' = true ->
   dict_get "LongitudeRef" g' = Some (dict_get_default (KInt 3) (PStr "Unknown") items)).
Proof.
  intros K. destruct (raw_key_is_id items numeric key K) as [id ->].
  unfold gps_tag.
  set (value := dict_get_default (KInt id) PNone items).
  pose proof (tag_name_not_own id) as T.
  destruct (pykey_eqb _ "GPSLatitude");
    [|destruct (pykey_eqb _ "GPSLongitude");
      [|destruct (pykey_eqb _ "GPSAltitude");
        [|destruct (pykey_eqb _ "GPSTimeStamp")]]].
  - intros E A B. inversion E. subst g'. clear E. split.
    + intros _. apply dict_get_set_same.
    + rewrite !dict_mem_set_other, !dict_get_set_other by reflexivity. exact B.
  - intros E A B. inversion E. subst g'. clear E. split.
    + rewrite !dict_mem_set_other, !dict_get_set_other by reflexivity. exact A.
    + intros _. apply dict_get_set_same.
  - destruct (py_float value); simpl; [|discriminate].
    intros E A B. inversion E. subst g'. clear E.
    rewrite !dict_mem_set_other, !dict_get_set_other by reflexivity. auto.
  - intros E A B. inversion E. subst g'. clear E.
    rewrite !dict_mem_set_other, !dict_get_set_other by reflexivity. auto.
  - intros E A B. inversion E. subst g'. clear E.
    rewrite !dict_mem_set_other, !dict_get_set_other by (apply T; simpl; tauto). auto.
Qed.

Lemma gps_tags_references (keys : list pykey) (g g' : pydict) (e : option exn) :
  incl keys (dict_keys items) ->
  gps_tags items keys g = (g', e) ->
  (dict_mem "Latitude" g = true ->
   dict_get "LatitudeRef" g = Some (dict_get_default (KInt 1) (PStr "Unknown") items)) ->
  (dict_mem "Longitude" g = true ->
   dict_get "LongitudeRef" g = Some (dict_get_default (KInt 3) (PStr "Unknown") items)) ->
  (dict_mem "Latitude" g' = true ->
   dict_get "LatitudeRef" g' = Some (dict_get_default (KInt 1) (PStr "Unknown") items)) /\
  (dict_mem "Longitude" g' = true ->
   dict_get "LongitudeRef" g' = Some (dict_get_default (KInt 3) (PStr "Unknown") items)).
Proof.
  revert g. induction keys as [|key keys IH]; intros g I; simpl.
  - intros E A B. inversion E. subst. auto.
  - destruct (gps_tag items key g) as [g1|e1] eqn:S.
    + intros E A B.
      destruct (gps_tag_references key g g1 (I key (or_introl eq_refl)) S A B) as [A1 B1].
      exact (IH g1 (fun k H => I k (or_intror H)) E A1 B1).
    + intros E A B. inversion E. subst. auto.
Qed.

End MoreGps.

(** the payload returned differs from the payload of the loop in the link
    and the error only *)
Lemma gps_payload_keeps_fields (items : pydict) (k : pykey) :
  pykey_eqb k "Google_Maps_Link" = false ->
  pykey_eqb k "Error" = false ->
  dict_get k (extract_gps_info (PDict items))
  = dict_get k (fst (gps_tags items (dict_keys items) [])).
Proof.
  intros L E. unfold extract_gps_info.
  destruct (gps_tags items (dict_keys items) []) as [g [e|]]; simpl.
  - unfold gps_error. now apply dict_get_set_other.
  - unfold gps_link.
    destruct (dict_get "Latitude" g) as [lat|]; [|reflexivity].
    destruct (dict_get "Longitude" g) as [lon|]; [|reflexivity].
    destruct (if eq_str (dict_get "LatitudeRef" g) "S" then py_neg lat else Ok lat)
      as [lat'|e1]; simpl; [|unfold gps_error; now apply dict_get_set_other].
    destruct (if eq_str (dict_get "LongitudeRef" g) "W" then py_neg lon else Ok lon)
      as [lon'|e2]; simpl; [|unfold gps_error]; now apply dict_get_set_other.
Qed.

(** X9.  An exception in the loop over the tags (a GPSAltitude that [float]
    rejects) ends the loop: the payload keeps the fields stored so far, gets
    Error with the message, and no Google_Maps_Link, even when both
    coordinates were already derived. *)
Theorem gps_loop_exception_keeps_partial_payload (items gps_data : pydict) (e : exn) :
  raw_gps_block items = true ->
  gps_tags items (dict_keys items) [] = (gps_data, Some e) ->
  let out := extract_gps_info (PDict items) in
  out = dict_set "Error" (PStr (exn_msg e)) gps_data /\
  dict_get "Error" out = Some (PStr (exn_msg e)) /\
  dict_mem "Google_Maps_Link" out = false /\
  forall k, pykey_eqb k "Error" = false -> dict_get k out = dict_get k gps_data.
Proof.
  intros N L out. subst out. unfold extract_gps_info. rewrite L. unfold gps_error.
  destruct (gps_loop_end items N gps_data (Some e) L) as (NoLink & _ & _).
  split; [reflexivity|]. split; [apply dict_get_set_same|]. split.
  - now rewrite dict_mem_set_other by reflexivity.
  - intros k K. now apply dict_get_set_other.
Qed.

Lemma gps_loop_exception_keeps_partial_payload_witness :
  extract_gps_info (PDict Sample.gps_bad_altitude)
  = [ (KStr "GPSLatitudeRef", PStr "S");
      (KStr "Latitude", PFloat (Float.of_decimal false 105 (-1)));
      (KStr "LatitudeRef", PStr "S"); (KStr "GPSLongitudeRef", PStr "E");
      (KStr "Longitude", PFloat (Float.of_Z 20)); (KStr "LongitudeRef", PStr "E");
      (KStr "Error",
       PStr "float() argument must be a string or a real number, not 'NoneType'") ].
Proof.
  destruct (gps_loop_exception_keeps_partial_payload Sample.gps_bad_altitude
              (fst (gps_tags Sample.gps_bad_altitude
                      (dict_keys Sample.gps_bad_altitude) []))
              (TypeError
                 "float() argument must be a string or a real number, not 'NoneType'")
              eq_refl eq_refl) as (E & _).
  rewrite E. reflexivity.
Defined.

(** X10.  The sign correction reaches the link only: every field of the
    returned payload other than Google_Maps_Link and Error is the field the
    loop stored, so Latitude and Longitude stay the unsigned values of
    [convert_to_degrees] also for "S" and "W". *)
Theorem gps_fields_keep_unsigned_values (items : pydict) (k : pykey) :
  pykey_eqb k "Google_Maps_Link" = false ->
  pykey_eqb k "Error" = false ->
  dict_get k (extract_gps_info (PDict items))
  = dict_get k (fst (gps_tags items (dict_keys items) [])).
Proof. apply gps_payload_keeps_fields. Qed.

Lemma gps_fields_keep_unsigned_values_witness :
  dict_get "Latitude" (extract_gps_info (PDict Sample.gps_south_east))
  = Some (PFloat (Float.of_decimal false 105 (-1))) /\
  dict_get "Google_Maps_Link" (extract_gps_info (PDict Sample.gps_south_east))
  = Some (PStr "https://maps.google.com/?q=-10.5,20.0").
Proof.
  split; [|reflexivity].
  rewrite (gps_fields_keep_unsigned_values Sample.gps_south_east "Latitude"
             eq_refl eq_refl).
  reflexivity.
Defined.

(** X11.  A payload of [extract_gps_info] without an Error key that has
    both Latitude and Longitude has a Google_Maps_Link. *)
Theorem coordinates_without_error_have_a_link (items : pydict) :
  let out := extract_gps_info (PDict items) in
  dict_mem "Error" out = false ->
  dict_mem "Latitude" out = true ->
  dict_mem "Longitude" out = true ->
  dict_mem "Google_Maps_Link" out = true.
Proof.
  intros out. subst out. unfold extract_gps_info.
  destruct (gps_tags items (dict_keys items) []) as [g [e|]].
  - unfold gps_error, dict_mem. rewrite dict_get_set_same. discriminate.
  - unfold gps_link, dict_mem.
    destruct (dict_get "Latitude" g) as [lat|] eqn:La;
      [destruct (dict_get "Longitude" g) as [lon|] eqn:Lo|].
    + destruct (if eq_str (dict_get "LatitudeRef" g) "S" then py_neg lat else Ok lat)
        as [lat'|e1]; simpl;
        [|unfold gps_error; rewrite dict_get_set_same; discriminate].
      destruct (if eq_str (dict_get "LongitudeRef" g) "W" then py_neg lon else Ok lon)
        as [lon'|e2]; simpl;
        [|unfold gps_error; rewrite dict_get_set_same; discriminate].
      now rewrite dict_get_set_same.
    + rewrite La, Lo. discriminate.
    + rewrite La. discriminate.
Qed.

Lemma coordinates_without_error_have_a_link_witness :
  dict_mem "Google_Maps_Link" (extract_gps_info (PDict Sample.gps_south_east)) = true.
Proof.
  apply (coordinates_without_error_have_a_link Sample.gps_south_east); reflexivity.
Defined.

(** X12.  For a raw GPS block keyed by tag ids, a payload that has Latitude
    has LatitudeRef, holding the raw value of tag 1 or "Unknown" when the
    block has no tag 1, and its Latitude is a float or a text; the same for
    Longitude, LongitudeRef and tag 3. *)
Theorem coordinates_come_with_references (items : pydict) :
  raw_gps_block items = true ->
  let out := extract_gps_info (PDict items) in
  (dict_mem "Latitude" out = true ->
   dict_get "LatitudeRef" out = Some (dict_get_default (KInt 1) (PStr "Unknown") items)) /\
  (dict_mem "Longitude" out = true ->
   dict_get "LongitudeRef" out = Some (dict_get_default (KInt 3) (PStr "Unknown") items)) /\
  is_coordinate (dict_get "Latitude" out) = true /\
  is_coordinate (dict_get "Longitude" out) = true.
Proof.
  intros N out. subst out. unfold dict_mem.
  rewrite !gps_payload_keeps_fields by reflexivity.
  destruct (gps_tags items (dict_keys items) []) as [g e] eqn:L. simpl.
  destruct (gps_tags_references items N _ _ _ _ (incl_refl _) L) as [A B];
    try (unfold dict_mem; simpl; discriminate).
  destruct (gps_loop_end items N g e L) as (_ & CA & CB).
  repeat split; assumption.
Qed.

Lemma coordinates_come_with_references_witness :
  dict_get "LatitudeRef"
    (extract_gps_info (PDict [ (KInt 2, Sample.dms 10 30 0) ]))
  = Some (PStr "Unknown").
Proof.
  destruct (coordinates_come_with_references [ (KInt 2, Sample.dms 10 30 0) ] eq_refl)
    as (A & _).
  apply A. reflexivity.
Defined.

(** ** Further properties: values that are not degrees, minutes, seconds *)

Lemma byte_is_a_float (x : byte) :
  real_of (PInt (byte_value x)) = Some (Float.of_Z (byte_value x)).
Proof. destruct x; reflexivity. Qed.

(** X13.  A byte string of exactly three bytes is not reported as malformed:
    it unpacks into the three byte values, and [convert_to_degrees] returns
    the float made of them. *)
Theorem three_bytes_are_read_as_numbers (a b c : byte) :
  convert_to_degrees (PBytes [a; b; c])
  = PFloat (Float.add
              (Float.add (Float.of_Z (byte_value a))
                 (Float.div (Float.of_Z (byte_value b)) Float.sixty))
              (Float.div (Float.of_Z (byte_value c)) Float.thirty_six_hundred)).
Proof.
  pose proof (byte_is_a_float a) as A.
  pose proof (byte_is_a_float b) as B.
  pose proof (byte_is_a_float c) as C.
  unfold real_of in A, B, C.
  unfold convert_to_degrees, convert_to_degrees_try, unpack3. simpl.
  fold (byte_value a) (byte_value b) (byte_value c).
  unfold truediv_float, add_float.
  destruct (as_real (PInt (byte_value a))) as [[x|]|]; try discriminate.
  destruct (as_real (PInt (byte_value b))) as [[y|]|]; try discriminate.
  destruct (as_real (PInt (byte_value c))) as [[z|]|]; try discriminate.
  inversion A. inversion B. inversion C. reflexivity.
Qed.

(** X14.  A text is always returned as it is, also a text of three
    characters, whose parts are not numbers. *)
Theorem text_degrees_are_returned_unchanged (s : string) :
  convert_to_degrees (PStr s) = PStr s.
Proof.
  unfold convert_to_degrees, convert_to_degrees_try, unpack3. simpl.
  destruct (utf8_chars s) as [|x [|y [|z [|t l]]]]; reflexivity.
Qed.

(** ** Further properties: saving *)

Lemma json_encode_dict_bytes (items : pydict) (k : pykey) (b : list byte) :
  In (k, PBytes b) items -> exists e, json_encode (PDict items) = Raise e.
Proof.
  induction items as [|[k' v'] items IH]; [contradiction|].
  intros [E|I]; simpl.
  - inversion E. subst. simpl. eauto.
  - destruct (json_encode v') as [j|e]; simpl; [|eauto].
    destruct (IH I) as [e E]. simpl in E.
    match type of E with
    | bind ?r _ = _ => destruct r as [ms|e']; simpl in *; [discriminate | eauto]
    end.
Qed.

(** X15.  A field that is a mapping with a byte string among its values, as
    a GPS block with GPSVersionID, is saved whole as one text, the [str] of
    the mapping: none of its entries keeps a JSON form of its own. *)
Theorem mapping_with_bytes_is_saved_as_text (items : pydict) (k : pykey) (b : list byte) :
  In (k, PBytes b) items ->
  serializable_value (PDict items) = PStr (py_str (PDict items)).
Proof.
  intros I. unfold serializable_value.
  destruct (json_encode_dict_bytes items k b I) as [e E]. now rewrite E.
Qed.

Lemma mapping_with_bytes_is_saved_as_text_witness :
  serializable_value
    (PDict [ (KStr "GPSVersionID", PBytes [x02; x02]); (KStr "Latitude", PInt 10) ])
  = PStr "{'GPSVersionID': b'\x02\x02', 'Latitude': 10}".
Proof.
  rewrite (mapping_with_bytes_is_saved_as_text
             [ (KStr "GPSVersionID", PBytes [x02; x02]); (KStr "Latitude", PInt 10) ]
             "GPSVersionID" [x02; x02] (or_introl eq_refl)).
  reflexivity.
Defined.

Lemma append_cancel (a b c : string) : a ++ b = a ++ c -> b = c.
Proof. induction a; simpl; intros H; [assumption | inversion H; auto]. Qed.

Lemma split_extension_dot (path : string) :
  snd (split_extension path) = "" \/
  exists tail, snd (split_extension path) = String "." tail.
Proof.
  unfold split_extension.
  destruct (split_last "." path) as [[root ext]|] eqn:D; [|now left].
  destruct (char_in "/" ext || all_dots (basename root)); [now left|].
  destruct (split_last_some _ _ _ _ D) as (_ & t & -> & _). right. simpl. eauto.
Qed.

(** X16.  The default output file is never the input file: saving without
    an output path cannot overwrite the image. *)
Theorem default_output_file_is_not_the_image (self : PhotoMetadataExtractor) :
  output_path self None <> image_path self.
Proof.
  unfold output_path, default_output_file. rewrite splitext_split_extension.
  intros H. rewrite <- (split_extension_parts (image_path self)) in H at 2.
  apply append_cancel in H.
  destruct (split_extension_dot (image_path self)) as [E|[t E]];
    rewrite E in H; discriminate.
Qed.

(** ** Further properties: [main] *)

Lemma lower_is_y (s : string) : lower s = "y" -> s = "y" \/ s = "Y".
Proof.
  destruct s as [|c [|d s]]; simpl; try discriminate.
  intros H. inversion H as [E]. clear H.
  destruct c as [[] [] [] [] [] [] [] []]; vm_compute in E; try discriminate; auto.
Qed.

(** X17.  [main] opens the output file only after the user has named a path
    that exists (the line without the white space around it and without the
    double quotes around that), [extract_all] has returned, and the second
    answer is "y" or "Y"; the file is then the default output file of that
    path.  In every other run the file system is left untouched. *)
Theorem main_saves_only_on_yes (w : World) (t : Terminal) :
  saved (main w t) <> Untouched ->
  exists line choice more,
    answers t = line :: choice :: more /\
    (choice = "y" \/ choice = "Y") /\
    let photo_path := strip_quotes (str_strip line) in
    path_exists t photo_path = true /\
    returned (extract_all w (init photo_path))
    = Ok (metadata (extract_steps w (init photo_path))) /\
    saved (main w t) = fst (save_to_json w (extract_steps w (init photo_path)) None).
Proof.
  unfold main. destruct (answers t) as [|line more]; [simpl; congruence|].
  destruct (path_exists t (strip_quotes (str_strip line))) eqn:P; simpl;
    [|congruence].
  pose proof (returned_extract_all w (init (strip_quotes (str_strip line)))) as R.
  pose proof (after_extract_all w (init (strip_quotes (str_strip line)))) as A.
  destruct (returned (extract_all w (init (strip_quotes (str_strip line)))))
    as [md|e] eqn:Q; simpl; [|congruence].
  destruct more as [|choice more]; simpl; [congruence|].
  destruct (String.eqb (lower choice) "y") eqn:Y; simpl; [|congruence].
  intros _. exists line, choice, more. split; [reflexivity|].
  split; [apply lower_is_y; now apply String.eqb_eq|].
  cbv zeta. split; [exact P|]. split.
  - rewrite Q. destruct (text_keys _); [exact R | discriminate].
  - rewrite A. now destruct (save_to_json w _ None).
Qed.

Lemma main_saves_only_on_yes_witness :
  exists doc, saved (main Sample.world Sample.terminal_padded)
              = Written "photo_metadata.json" doc.
Proof.
  assert (N : saved (main Sample.world Sample.terminal_padded) <> Untouched)
    by (vm_compute; discriminate).
  destruct (main_saves_only_on_yes Sample.world Sample.terminal_padded N)
    as (line & choice & more & A & _ & _ & _ & S).
  inversion A. subst. rewrite S. eexists. vm_compute. reflexivity.
Defined.

(** X18.  When the image named by the user has an EXIF tag id without a name
    in the tag table, [main] ends with the TypeError of the display: after
    what [extract_all] printed nothing more is shown, the user is not asked
    about saving, and nothing is written. *)
Theorem main_ends_on_unknown_tag (w : World) (t : Terminal) (line : string)
  (more : list string) (img : Image) (items : pydict) (id : Z) :
  answers t = line :: more ->
  let photo_path := strip_quotes (str_strip line) in
  path_exists t photo_path = true ->
  Image_open w in_exif_data photo_path = Ok img ->
  _getexif img = Ok (Some items) ->
  In (KInt id) (dict_keys items) ->
  TAGS w id = None ->
  ended (main w t) = Raise not_iterable /\
  saved (main w t) = Untouched /\
  shown (main w t) = prompt_path :: printed (extract_all w (init photo_path)).
Proof.
  intros A photo_path P O G I T.
  destruct (unknown_tag_run w photo_path img items id O G I T) as (R & _).
  unfold main. rewrite A. fold photo_path. rewrite P. simpl. rewrite R.
  repeat split.
Qed.

Lemma main_ends_on_unknown_tag_witness :
  ended (main Sample.world_unknown_tag Sample.terminal)
  = Raise (TypeError "argument of type 'int' is not iterable") /\
  saved (main Sample.world_unknown_tag Sample.terminal) = Untouched.
Proof.
  destruct (main_ends_on_unknown_tag Sample.world_unknown_tag Sample.terminal
              (String (ascii_of_nat 34) "photo.jpg" ++ String (ascii_of_nat 34) " ")
              ["Y"]
              (Sample.image (Ok (Some [ (KInt 271, PStr "Canon");
                                        (KInt 59932, PInt 7) ])))
              [ (KInt 271, PStr "Canon"); (KInt 59932, PInt 7) ] 59932
              eq_refl eq_refl eq_refl eq_refl (or_intror (or_introl eq_refl)) eq_refl)
    as (E & S & _).
  split; [exact E | exact S].
Defined.
